(** * extract_tables_from_websites: a shallow embedding and its properties

  The development embeds the parts of the repository that drive LLM-based
  table extraction: the thread-local logging helpers (utils/qa_logging.py),
  the reconciler and the random prefix (utils/utils.py), the prompt
  builders (agent/agent_util.py), the multi-provider agent
  (agent/extract_table_multi_model_agent.py) and the earlier Bedrock-only
  agent (agent/extract_table_agent.py).

  Python code is modelled as state passing over a [world] that holds the
  thread-local store, the file system, the LLM call counter and a trace of
  observable events (log lines, prints, sleeps, LLM invocations).  A
  computation either returns a value or raises a Python exception.

  Part I gives the definitions, Part II the lemmas and theorems on the
  core behaviours, Part III further properties: edge cases, whole calls of
  the agents and whole batches. *)

From Stdlib Require Import ZArith NArith List String Ascii Lia Bool.
From Stdlib Require Import Sorted Permutation.
From Stdlib.Strings Require Import Byte.
From stdpp Require Import base gmap strings list pretty.

Set Warnings "-register-all".

Open Scope string_scope.
Open Scope list_scope.

(* ===================================================================== *)
(** * Part I: definitions                                                 *)
(* ===================================================================== *)

(** ** The Python runtime model *)

Module Py.

(** JSON-shaped Python values: what [json.loads] produces and what the
    agents hand around.  A [dict] keeps insertion order, hence the
    association list; a float literal is kept as the decimal
    [mantissa * 10 ^ exponent] it denotes. *)
Inductive json : Type :=
| JNull
| JBool (b : bool)
| JInt (z : Z)
| JFloat (mantissa exponent : Z)
| JStr (s : string)
| JArr (items : list json)
| JObj (fields : list (string * json)).

(** The exception classes the sources name or can meet, with the part of
    Python's class hierarchy that their [except] clauses look at.  Every
    class here derives from [Exception]; [BaseException]-only signals
    (KeyboardInterrupt, task cancellation) are outside the model. *)
Inductive exn_class : Set :=
| Exception
| ValueError
| RuntimeError
| NotImplementedError
| AttributeError
| TypeError
| JSONDecodeError
| UnicodeDecodeError
| OSError
| FileNotFoundError
| IsADirectoryError
| NotADirectoryError
| FileExistsError.

Definition exn_class_eqb (c d : exn_class) : bool :=
  match c, d with
  | Exception, Exception | ValueError, ValueError
  | RuntimeError, RuntimeError
  | NotImplementedError, NotImplementedError
  | AttributeError, AttributeError | JSONDecodeError, JSONDecodeError
  | TypeError, TypeError
  | UnicodeDecodeError, UnicodeDecodeError | OSError, OSError
  | FileNotFoundError, FileNotFoundError
  | IsADirectoryError, IsADirectoryError
  | NotADirectoryError, NotADirectoryError
  | FileExistsError, FileExistsError => true
  | _, _ => false
  end.

(** The direct base class ([None] for [Exception], the root here). *)
Definition base_class (c : exn_class) : option exn_class :=
  match c with
  | Exception => None
  | ValueError | RuntimeError | AttributeError | TypeError | OSError =>
      Some Exception
  | NotImplementedError => Some RuntimeError
  | JSONDecodeError | UnicodeDecodeError => Some ValueError
  | FileNotFoundError | IsADirectoryError | NotADirectoryError
  | FileExistsError => Some OSError
  end.

Fixpoint issubclass_fuel (fuel : nat) (c d : exn_class) : bool :=
  exn_class_eqb c d ||
  match fuel with
  | O => false
  | S fuel' =>
      match base_class c with
      | Some b => issubclass_fuel fuel' b d
      | None => false
      end
  end.

(** [issubclass(c, d)]; the hierarchy above has depth 3. *)
Definition issubclass (c d : exn_class) : bool := issubclass_fuel 3 c d.

(** An exception object: its class, [str(e)] and [__cause__], the
    exception named by [raise ... from e]. *)
Inductive exn : Type :=
| Exn (cls : exn_class) (msg : string) (cause : option exn).

Definition exn_cls (e : exn) : exn_class := let (c, _, _) := e in c.
Definition exn_str (e : exn) : string := let (_, m, _) := e in m.
Definition exn_cause (e : exn) : option exn := let (_, _, c) := e in c.

Definition isinstance (e : exn) (d : exn_class) : bool :=
  issubclass (exn_cls e) d.

(** A context id is typed [any] in the source; these are the values the
    callers store. *)
Inductive pyval : Type :=
| PyNone
| PyStr (s : string)
| PyInt (z : Z).

(** [str(v)], as an f-string renders it. *)
Definition py_str (v : pyval) : string :=
  match v with
  | PyNone => "None"
  | PyStr s => s
  | PyInt z => pretty z
  end.

(** LangChain messages: a system text, or a human message made of text
    and image blocks in order. *)
Inductive block : Type :=
| BText (text : string)
| BImage (url : string).

Inductive message : Type :=
| SystemMessage (text : string)
| HumanMessage (blocks : list block).

(** [AIMessage.content] is a [str] or a list of content blocks; it is kept
    as the JSON-shaped value it is. *)
Record AIMessage : Type := { content : json }.

(** A file-system node: a directory with the names [os.listdir] reports,
    in the order it reports them, or a file and its bytes.  Nodes are keyed
    by their full path. *)
Inductive node : Type :=
| Dir (entries : list string)
| File (bytes : list byte).

(** A step of the path DeepDiff reports for a change, [root['k']] or
    [root[i]]. *)
Inductive path_step : Type :=
| Key (k : string)
| Index (i : nat).

(** An entry of a DeepDiff result. *)
Inductive change : Type :=
| TypeChanged (path : list path_step) (old new : json)
| ValueChanged (path : list path_step) (old new : json)
| DictionaryItemAdded (path : list path_step)
| DictionaryItemRemoved (path : list path_step)
| IterableItemAdded (path : list path_step) (value : json)
| IterableItemRemoved (path : list path_step) (value : json).

(** Observable events, oldest first in a trace.  The text of
    [diff.pretty()] is kept as the changes it renders. *)
Inductive event : Type :=
| EvLog (level : nat) (line : string)
| EvPrint (line : string)
| EvPrintDiff (report : list change)
| EvSleep (seconds : nat)
| EvInvoke (messages : list message).

Record world : Type := World {
  w_thread : nat;                (* threading.get_native_id() *)
  w_tls : gmap nat pyval;        (* the [context_id] attribute per thread *)
  w_fs : gmap string node;       (* path to node *)
  w_calls : nat;                 (* [ainvoke] calls made so far *)
  w_trace : list event
}.

Inductive result (A : Type) : Type :=
| Ok (a : A)
| Raise (e : exn).
Arguments Ok {A} a.
Arguments Raise {A} e.

(** A Python computation: state passing with exceptions. *)
Definition M (A : Type) : Type := world -> result A * world.

Definition ret {A} (a : A) : M A := fun w => (Ok a, w).
Definition raise {A} (e : exn) : M A := fun w => (Raise e, w).
Definition bind {A B} (m : M A) (k : A -> M B) : M B :=
  fun w =>
    match m w with
    | (Ok a, w') => k a w'
    | (Raise e, w') => (Raise e, w')
    end.

(** [try: m  except (c1, ..., cn) as e: handler e]: the handler runs for
    an exception that is an instance of one of the classes; any other
    propagates. *)
Definition try_except {A} (m : M A) (classes : list exn_class)
    (handler : exn -> M A) : M A :=
  fun w =>
    match m w with
    | (Ok a, w') => (Ok a, w')
    | (Raise e, w') =>
        if existsb (isinstance e) classes then handler e w'
        else (Raise e, w')
    end.

(** The handler of the first [except] clause whose class the exception
    is an instance of. *)
Fixpoint select_handler {A} (e : exn)
    (clauses : list (exn_class * (exn -> M A))) : option (M A) :=
  match clauses with
  | [] => None
  | (cls, handler) :: rest =>
      if isinstance e cls then Some (handler e) else select_handler e rest
  end.

(** [try: m] followed by several [except] clauses. *)
Definition try_clauses {A} (m : M A)
    (clauses : list (exn_class * (exn -> M A))) : M A :=
  fun w =>
    match m w with
    | (Ok a, w') => (Ok a, w')
    | (Raise e, w') =>
        match select_handler e clauses with
        | Some handler => handler w'
        | None => (Raise e, w')
        end
    end.

Definition emit (ev : event) : M unit :=
  fun w =>
    (Ok tt,
     {| w_thread := w_thread w; w_tls := w_tls w; w_fs := w_fs w;
        w_calls := w_calls w; w_trace := w_trace w ++ [ev] |}).

Definition print (line : string) : M unit := emit (EvPrint line).

(** [await asyncio.sleep(seconds)] *)
Definition sleep (seconds : nat) : M unit := emit (EvSleep seconds).

Definition get_world : M world := fun w => (Ok w, w).

Definition set_tls (tls : gmap nat pyval) : M unit :=
  fun w =>
    (Ok tt,
     {| w_thread := w_thread w; w_tls := tls; w_fs := w_fs w;
        w_calls := w_calls w; w_trace := w_trace w |}).

Definition set_fs (fs : gmap string node) : M unit :=
  fun w =>
    (Ok tt,
     {| w_thread := w_thread w; w_tls := w_tls w; w_fs := fs;
        w_calls := w_calls w; w_trace := w_trace w |}).

(** An LLM client: the outcome of its k-th [ainvoke] (k counted over the
    whole run) on the messages sent. *)
Definition client : Type := nat -> list message -> result AIMessage.

(** [await llm.ainvoke(messages)] *)
Definition ainvoke (llm : client) (messages : list message) : M AIMessage :=
  fun w =>
    (llm (w_calls w) messages,
     {| w_thread := w_thread w; w_tls := w_tls w; w_fs := w_fs w;
        w_calls := S (w_calls w);
        w_trace := w_trace w ++ [EvInvoke messages] |}).

End Py.
Export Py.

Notation "x <- m ;; k" := (bind m (fun x => k))
  (at level 100, m at level 99, right associativity).
Notation "m ;;; k" := (bind m (fun _ => k))
  (at level 100, right associativity).

(** ** Python's [str] methods *)

Module PyStr.

(** A [str] is kept as its UTF-8 text; these work on its characters. *)
Fixpoint starts_with (p s : list ascii) : bool :=
  match p, s with
  | [], _ => true
  | _ :: _, [] => false
  | a :: p', b :: s' => Ascii.eqb a b && starts_with p' s'
  end.

(** [s.startswith(p)] *)
Definition startswith (s p : string) : bool :=
  starts_with (list_ascii_of_string p) (list_ascii_of_string s).

(** [s.endswith(p)] *)
Definition endswith (s p : string) : bool :=
  starts_with (rev (list_ascii_of_string p)) (rev (list_ascii_of_string s)).

(** [s.endswith((p1, ..., pn))] *)
Definition endswith_any (s : string) (ps : list string) : bool :=
  existsb (endswith s) ps.

(** [s.removeprefix(p)] *)
Definition removeprefix (s p : string) : string :=
  if startswith s p
  then substring (String.length p) (String.length s - String.length p) s
  else s.

(** [s.removesuffix(p)] *)
Definition removesuffix (s p : string) : string :=
  if negb (String.eqb p "") && endswith s p
  then substring 0 (String.length s - String.length p) s
  else s.

(** The characters [str.isspace] accepts, as UTF-8: the ASCII controls and
    space, U+0085, U+00A0, U+1680, U+2000 to U+200A, U+2028, U+2029,
    U+202F, U+205F and U+3000. *)
Definition whitespace_codes : list (list N) :=
  [[9]; [10]; [11]; [12]; [13]; [28]; [29]; [30]; [31]; [32];
   [194; 133]; [194; 160]; [225; 154; 128];
   [226; 128; 128]; [226; 128; 129]; [226; 128; 130]; [226; 128; 131];
   [226; 128; 132]; [226; 128; 133]; [226; 128; 134]; [226; 128; 135];
   [226; 128; 136]; [226; 128; 137]; [226; 128; 138];
   [226; 128; 168]; [226; 128; 169]; [226; 128; 175]; [226; 129; 159];
   [227; 128; 128]]%N.

Definition whitespace : list (list ascii) :=
  map (map ascii_of_N) whitespace_codes.

(** The text after one leading whitespace character, if there is one. *)
Fixpoint drop_one_of (ws : list (list ascii)) (cs : list ascii)
    : option (list ascii) :=
  match ws with
  | [] => None
  | w :: ws' =>
      if starts_with w cs then Some (skipn (length w) cs)
      else drop_one_of ws' cs
  end.

Fixpoint lstrip_fuel (ws : list (list ascii)) (fuel : nat)
    (cs : list ascii) : list ascii :=
  match fuel with
  | O => cs
  | S fuel' =>
      match drop_one_of ws cs with
      | Some r => lstrip_fuel ws fuel' r
      | None => cs
      end
  end.

Definition lstrip_chars (cs : list ascii) : list ascii :=
  lstrip_fuel whitespace (length cs) cs.

Definition rstrip_chars (cs : list ascii) : list ascii :=
  rev (lstrip_fuel (map (@rev ascii) whitespace) (length cs) (rev cs)).

(** [s.strip()] *)
Definition strip (s : string) : string :=
  string_of_list_ascii (rstrip_chars (lstrip_chars (list_ascii_of_string s))).

Definition lower_char (c : ascii) : ascii :=
  let n := N_of_ascii c in
  if (65 <=? n)%N && (n <=? 90)%N then ascii_of_N (n + 32) else c.

(** [s.lower()], on the ASCII letters. *)
Definition lower (s : string) : string :=
  string_of_list_ascii (map lower_char (list_ascii_of_string s)).

(** Python's truth value of a [str]. *)
Definition nonempty (s : string) : bool := negb (String.eqb s "").

(** [Path(name).stem] for a name without separators: the name up to its
    last dot, unless that dot comes first or last. *)
Fixpoint last_dot (cs : list ascii) (i : nat) (found : option nat)
    : option nat :=
  match cs with
  | [] => found
  | c :: cs' =>
      last_dot cs' (S i) (if Ascii.eqb c "."%char then Some i else found)
  end.

Definition stem (name : string) : string :=
  match last_dot (list_ascii_of_string name) 0 None with
  | Some i =>
      if Nat.ltb 0 i && Nat.ltb i (String.length name - 1)
      then substring 0 i name
      else name
  | None => name
  end.

End PyStr.

(** ** Python's [json.loads] *)

Module Json.

(** The double quote character. *)
Definition quote : ascii := "034"%char.

Definition is_ws (c : ascii) : bool :=
  let n := N_of_ascii c in
  (n =? 32)%N || (n =? 9)%N || (n =? 10)%N || (n =? 13)%N.

Fixpoint skip_ws (cs : list ascii) : list ascii :=
  match cs with
  | c :: r => if is_ws c then skip_ws r else cs
  | [] => []
  end.

Definition digit_of (c : ascii) : option Z :=
  let n := N_of_ascii c in
  if (48 <=? n)%N && (n <=? 57)%N then Some (Z.of_N n - 48)%Z else None.

Definition hex_of (c : ascii) : option N :=
  let n := N_of_ascii c in
  if (48 <=? n)%N && (n <=? 57)%N then Some (n - 48)%N
  else if (65 <=? n)%N && (n <=? 70)%N then Some (n - 55)%N
  else if (97 <=? n)%N && (n <=? 102)%N then Some (n - 87)%N
  else None.

(** The digits at the head of [cs]: their value on top of [acc], how many
    there were, and the rest. *)
Fixpoint digits (cs : list ascii) (acc : Z) (count : nat)
    : Z * nat * list ascii :=
  match cs with
  | c :: r =>
      match digit_of c with
      | Some d => digits r (acc * 10 + d)%Z (S count)
      | None => (acc, count, cs)
      end
  | [] => (acc, count, [])
  end.

(** A decimal without trailing zeros in its mantissa. *)
Fixpoint normalize (fuel : nat) (m e : Z) : Z * Z :=
  match fuel with
  | O => (m, e)
  | S fuel' =>
      if (m =? 0)%Z then (0, 0)%Z
      else if (m mod 10 =? 0)%Z then normalize fuel' (m / 10)%Z (e + 1)%Z
      else (m, e)
  end.

(** The fraction at the head of [cs], a dot and at least one digit, if
    there is one. *)
Definition fraction (cs : list ascii) : option (Z * nat * list ascii) :=
  match cs with
  | dot :: r =>
      if Ascii.eqb dot "."%char then
        match digits r 0 0 with
        | (_, O, _) => None
        | found => Some found
        end
      else None
  | [] => None
  end.

(** The exponent at the head of [cs], an [e] or [E], an optional sign and
    at least one digit, if there is one. *)
Definition exponent (cs : list ascii) : option (Z * list ascii) :=
  match cs with
  | e :: r =>
      if Ascii.eqb e "e"%char || Ascii.eqb e "E"%char then
        let (negative, r1) :=
          match r with
          | sign :: r' =>
              if Ascii.eqb sign "-"%char then (true, r')
              else if Ascii.eqb sign "+"%char then (false, r')
              else (false, r)
          | [] => (false, r)
          end in
        match digits r1 0 0 with
        | (_, O, _) => None
        | (v, _, r2) => Some (if negative then (- v)%Z else v, r2)
        end
      else None
  | [] => None
  end.

(** A number: an optional minus, then a zero or a run of digits that does
    not start with zero, then an optional fraction and an optional
    exponent.  It is an [int] when it has neither fraction nor exponent, a
    [float] otherwise. *)
Definition parse_number (cs : list ascii) : option (json * list ascii) :=
  let (negative, r0) :=
    match cs with
    | c :: r => if Ascii.eqb c "-"%char then (true, r) else (false, cs)
    | [] => (false, cs)
    end in
  let integer : option (Z * nat * list ascii) :=
    match r0 with
    | c :: r =>
        if Ascii.eqb c "0"%char then Some (0%Z, 1, r)
        else match digits r0 0 0 with
             | (_, O, _) => None
             | found => Some found
             end
    | [] => None
    end in
  match integer with
  | None => None
  | Some (i, _, r1) =>
      let signed (z : Z) := if negative then (- z)%Z else z in
      match fraction r1, exponent r1 with
      | None, None => Some (JInt (signed i), r1)
      | None, Some (e, r2) =>
          let (m, e') := normalize (Z.to_nat (Z.log2 (Z.abs i) + 1)) i e in
          Some (JFloat (signed m) e', r2)
      | Some (f, n, r2), _ =>
          let mant := (i * 10 ^ Z.of_nat n + f)%Z in
          let exp :=
            match exponent r2 with
            | Some (e, _) => (e - Z.of_nat n)%Z
            | None => (- Z.of_nat n)%Z
            end in
          let rest :=
            match exponent r2 with
            | Some (_, r3) => r3
            | None => r2
            end in
          let (m, e') :=
            normalize (Z.to_nat (Z.log2 (Z.abs mant) + 1)) mant exp in
          Some (JFloat (signed m) e', rest)
      end
  end.

(** The UTF-8 bytes of a code point (a lone surrogate takes the
    three-byte form). *)
Definition utf8_encode (cp : N) : list ascii :=
  if (cp <? 128)%N then [ascii_of_N cp]
  else if (cp <? 2048)%N then
    [ascii_of_N (192 + cp / 64); ascii_of_N (128 + cp mod 64)]
  else if (cp <? 65536)%N then
    [ascii_of_N (224 + cp / 4096); ascii_of_N (128 + (cp / 64) mod 64);
     ascii_of_N (128 + cp mod 64)]
  else
    [ascii_of_N (240 + cp / 262144); ascii_of_N (128 + (cp / 4096) mod 64);
     ascii_of_N (128 + (cp / 64) mod 64); ascii_of_N (128 + cp mod 64)].

(** Four hexadecimal digits. *)
Definition hex4 (cs : list ascii) : option (N * list ascii) :=
  match cs with
  | a :: b :: c :: d :: r =>
      match hex_of a, hex_of b, hex_of c, hex_of d with
      | Some x, Some y, Some z, Some t =>
          Some (((x * 16 + y) * 16 + z) * 16 + t, r)%N
      | _, _, _, _ => None
      end
  | _ => None
  end.

(** The code point of a unicode escape whose digits start at [cs]; a high
    surrogate followed by an escaped low surrogate gives one code point. *)
Definition unicode_escape (cs : list ascii) : option (N * list ascii) :=
  match hex4 cs with
  | Some (hi, r) =>
      if (55296 <=? hi)%N && (hi <=? 56319)%N then
        match r with
        | b :: u :: r' =>
            if Ascii.eqb b "\"%char && Ascii.eqb u "u"%char then
              match hex4 r' with
              | Some (lo, r'') =>
                  if (56320 <=? lo)%N && (lo <=? 57343)%N
                  then Some (65536 + (hi - 55296) * 1024 + (lo - 56320), r'')%N
                  else Some (hi, r)
              | None => Some (hi, r)
              end
            else Some (hi, r)
        | _ => Some (hi, r)
        end
      else Some (hi, r)
  | None => None
  end.

(** The characters of a string after its opening quote, up to the closing
    one; [acc] holds what was read, last character first. *)
Fixpoint parse_string (fuel : nat) (cs acc : list ascii)
    : option (string * list ascii) :=
  match fuel with
  | O => None
  | S fuel' =>
      match cs with
      | [] => None
      | c :: r =>
          if Ascii.eqb c quote
          then Some (string_of_list_ascii (rev acc), r)
          else if Ascii.eqb c "\"%char then
            match r with
            | [] => None
            | e :: r' =>
                let simple (x : N) :=
                  parse_string fuel' r' (ascii_of_N x :: acc) in
                if Ascii.eqb e quote then simple 34%N
                else if Ascii.eqb e "\"%char then simple 92%N
                else if Ascii.eqb e "/"%char then simple 47%N
                else if Ascii.eqb e "b"%char then simple 8%N
                else if Ascii.eqb e "f"%char then simple 12%N
                else if Ascii.eqb e "n"%char then simple 10%N
                else if Ascii.eqb e "r"%char then simple 13%N
                else if Ascii.eqb e "t"%char then simple 9%N
                else if Ascii.eqb e "u"%char then
                  match unicode_escape r' with
                  | Some (cp, r'') =>
                      parse_string fuel' r'' (rev (utf8_encode cp) ++ acc)
                  | None => None
                  end
                else None
            end
          else if (N_of_ascii c <? 32)%N then None
          else parse_string fuel' r (c :: acc)
      end
  end.

(** [d[k] = v] on a dict kept as an association list. *)
Fixpoint dict_set (k : string) (v : json) (d : list (string * json))
    : list (string * json) :=
  match d with
  | [] => [(k, v)]
  | (k', v') :: d' =>
      if String.eqb k k' then (k, v) :: d' else (k', v') :: dict_set k v d'
  end.

(** The dict of key/value pairs given in order. *)
Definition dict_of_pairs (pairs : list (string * json))
    : list (string * json) :=
  fold_left (fun d kv => dict_set (fst kv) (snd kv) d) pairs [].

(** [cs] starts with the characters of [word]: the rest after it. *)
Definition literal (word : string) (cs : list ascii)
    : option (list ascii) :=
  if PyStr.starts_with (list_ascii_of_string word) cs
  then Some (skipn (String.length word) cs)
  else None.

(** A value at the head of [cs], and the rest; [parse_elements] reads the
    items of an array from the first one on, [parse_members] the members of
    an object from the first key's opening quote on. *)
Fixpoint parse_value (fuel : nat) (cs : list ascii)
    : option (json * list ascii) :=
  match fuel with
  | O => None
  | S fuel' =>
      match cs with
      | [] => None
      | c :: r =>
          if Ascii.eqb c quote then
            match parse_string (S (length r)) r [] with
            | Some (s, r') => Some (JStr s, r')
            | None => None
            end
          else if Ascii.eqb c "{"%char then
            match skip_ws r with
            | d :: r' =>
                if Ascii.eqb d "}"%char then Some (JObj [], r')
                else parse_members fuel' (d :: r') []
            | [] => None
            end
          else if Ascii.eqb c "["%char then
            match skip_ws r with
            | d :: r' =>
                if Ascii.eqb d "]"%char then Some (JArr [], r')
                else parse_elements fuel' (d :: r') []
            | [] => None
            end
          else if Ascii.eqb c "n"%char then
            option_map (pair JNull) (literal "null" cs)
          else if Ascii.eqb c "t"%char then
            option_map (pair (JBool true)) (literal "true" cs)
          else if Ascii.eqb c "f"%char then
            option_map (pair (JBool false)) (literal "false" cs)
          else parse_number cs
      end
  end
with parse_elements (fuel : nat) (cs : list ascii) (acc : list json)
    : option (json * list ascii) :=
  match fuel with
  | O => None
  | S fuel' =>
      match parse_value fuel' cs with
      | Some (v, r) =>
          match skip_ws r with
          | d :: r' =>
              if Ascii.eqb d "]"%char then Some (JArr (rev (v :: acc)), r')
              else if Ascii.eqb d ","%char
              then parse_elements fuel' (skip_ws r') (v :: acc)
              else None
          | [] => None
          end
      | None => None
      end
  end
with parse_members (fuel : nat) (cs : list ascii)
    (acc : list (string * json)) : option (json * list ascii) :=
  match fuel with
  | O => None
  | S fuel' =>
      match cs with
      | q :: r =>
          if Ascii.eqb q quote then
            match parse_string (S (length r)) r [] with
            | Some (k, r1) =>
                match skip_ws r1 with
                | colon :: r2 =>
                    if Ascii.eqb colon ":"%char then
                      match parse_value fuel' (skip_ws r2) with
                      | Some (v, r3) =>
                          match skip_ws r3 with
                          | d :: r4 =>
                              if Ascii.eqb d "}"%char
                              then Some (JObj (dict_of_pairs
                                                 (rev ((k, v) :: acc))), r4)
                              else if Ascii.eqb d ","%char
                              then parse_members fuel' (skip_ws r4)
                                     ((k, v) :: acc)
                              else None
                          | [] => None
                          end
                      | None => None
                      end
                    else None
                | [] => None
                end
            | None => None
            end
          else None
      | [] => None
      end
  end.

(** [json.loads(s)]; [None] is a [JSONDecodeError].  The literals [NaN],
    [Infinity] and [-Infinity], which Python accepts beyond JSON, are read
    as errors here, and Python's limits on nesting depth and on the length
    of an integer literal are not modelled. *)
Definition loads (s : string) : option json :=
  let cs := skip_ws (list_ascii_of_string s) in
  match parse_value (2 * length cs + 2) cs with
  | Some (v, r) =>
      match skip_ws r with
      | [] => Some v
      | _ :: _ => None
      end
  | None => None
  end.

End Json.

(** ** The [natsort] package *)

Module Natsort.

(** Lexicographic comparison of lists, as Python compares tuples and
    strings. *)
Fixpoint lex_compare {A : Type} (cmp : A -> A -> comparison)
    (xs ys : list A) : comparison :=
  match xs, ys with
  | [], [] => Eq
  | [], _ :: _ => Lt
  | _ :: _, [] => Gt
  | x :: xs', y :: ys' =>
      match cmp x y with
      | Eq => lex_compare cmp xs' ys'
      | c => c
      end
  end.

Definition ascii_compare (a b : ascii) : comparison :=
  N.compare (N_of_ascii a) (N_of_ascii b).

(** A component of a natural-sort key: a run of text or the number a run
    of digits denotes. *)
Inductive chunk : Type :=
| CStr (text : list ascii)
| CInt (n : N).

(** Components are compared like with like; a key alternates text and
    number from a text component on, so two keys never meet a text against
    a number, and the order given to that case here is never used. *)
Definition chunk_compare (a b : chunk) : comparison :=
  match a, b with
  | CStr s, CStr t => lex_compare ascii_compare s t
  | CInt m, CInt n => N.compare m n
  | CStr _, CInt _ => Lt
  | CInt _, CStr _ => Gt
  end.

(** A decimal digit; natsort also takes the digits of other scripts,
    which file names here do not have. *)
Definition is_digit (c : ascii) : bool :=
  (48 <=? N_of_ascii c)%N && (N_of_ascii c <=? 57)%N.

(** The longest prefix satisfying [f], and the rest. *)
Fixpoint span (f : ascii -> bool) (cs : list ascii)
    : list ascii * list ascii :=
  match cs with
  | [] => ([], [])
  | c :: cs' =>
      if f c then let (t, r) := span f cs' in (c :: t, r)
      else ([], cs)
  end.

(** [int(digits)] *)
Definition int_of_digits (ds : list ascii) : N :=
  fold_left (fun acc d => acc * 10 + (N_of_ascii d - 48))%N ds 0%N.

(** The key of a string: its text and digit runs in turn, from a text run
    (empty when the string starts with a digit) on. *)
Fixpoint chunks (fuel : nat) (cs : list ascii) : list chunk :=
  match fuel with
  | O => []
  | S fuel' =>
      match cs with
      | [] => []
      | _ :: _ =>
          let (t, r) := span (fun c => negb (is_digit c)) cs in
          match r with
          | [] => [CStr t]
          | _ :: _ =>
              let (d, r') := span is_digit r in
              CStr t :: CInt (int_of_digits d) :: chunks fuel' r'
          end
      end
  end.

Definition natsort_key (s : string) : list chunk :=
  chunks (S (String.length s)) (list_ascii_of_string s).

Definition key_compare (a b : string) : comparison :=
  lex_compare chunk_compare (natsort_key a) (natsort_key b).

(** [a] sorts no later than [b]. *)
Definition key_le (a b : string) : bool :=
  match key_compare a b with
  | Gt => false
  | _ => true
  end.

(** A stable sort by key: [x], which came before the elements of [l],
    goes in front of the first element that does not sort before it. *)
Fixpoint insert_sorted (x : string) (l : list string) : list string :=
  match l with
  | [] => [x]
  | y :: l' => if key_le x y then x :: l else y :: insert_sorted x l'
  end.

(** [natsort.natsorted(seq)] *)
Definition natsorted (seq : list string) : list string :=
  fold_right insert_sorted [] seq.

End Natsort.

(** ** Files *)

Module Io.

(** A continuation byte of UTF-8, [0x80 .. 0xBF]. *)
Definition is_cont (b : byte) : bool :=
  (128 <=? Byte.to_N b)%N && (Byte.to_N b <=? 191)%N.

Definition in_range (lo hi : N) (b : byte) : bool :=
  (lo <=? Byte.to_N b)%N && (Byte.to_N b <=? hi)%N.

(** Well-formed UTF-8 (Unicode 15, table 3-7), what the [utf-8] codec
    accepts; [fuel] bounds the number of characters. *)
Fixpoint utf8_valid_fuel (fuel : nat) (bs : list byte) : bool :=
  match fuel with
  | O => match bs with [] => true | _ => false end
  | S fuel' =>
      match bs with
      | [] => true
      | b1 :: r1 =>
          if in_range 0 127 b1 then utf8_valid_fuel fuel' r1
          else
            match r1 with
            | [] => false
            | b2 :: r2 =>
                if in_range 194 223 b1 then
                  is_cont b2 && utf8_valid_fuel fuel' r2
                else
                  match r2 with
                  | [] => false
                  | b3 :: r3 =>
                      if in_range 224 239 b1 then
                        (if in_range 224 224 b1 then in_range 160 191 b2
                         else if in_range 237 237 b1 then in_range 128 159 b2
                         else is_cont b2) &&
                        is_cont b3 && utf8_valid_fuel fuel' r3
                      else
                        match r3 with
                        | [] => false
                        | b4 :: r4 =>
                            in_range 240 244 b1 &&
                            (if in_range 240 240 b1 then in_range 144 191 b2
                             else if in_range 244 244 b1
                                  then in_range 128 143 b2
                                  else is_cont b2) &&
                            is_cont b3 && is_cont b4 &&
                            utf8_valid_fuel fuel' r4
                        end
                  end
            end
      end
  end.

Definition utf8_valid (bs : list byte) : bool :=
  utf8_valid_fuel (length bs) bs.

Definition errno_message (errno what path : string) : string :=
  "[Errno " +:+ errno +:+ "] " +:+ what +:+ ": '" +:+ path +:+ "'".

(** [open(path, mode)] for reading: the bytes of the file, or the
    [OSError] Python raises. *)
Definition open_read (path : string) : M (list byte) :=
  w <- get_world ;;
  match w_fs w !! path with
  | None =>
      raise (Exn FileNotFoundError
               (errno_message "2" "No such file or directory" path) None)
  | Some (Dir _) =>
      raise (Exn IsADirectoryError
               (errno_message "21" "Is a directory" path) None)
  | Some (File bs) => ret bs
  end.

(** [with open(path, "rb") as f: f.read()] *)
Definition read_bytes (path : string) : M (list byte) := open_read path.

(** [with open(path, 'r', encoding='utf-8') as f: f.read()]: a [str] is
    kept as its UTF-8 bytes. *)
Definition read_text (path : string) : M string :=
  bs <- open_read path ;;
  if utf8_valid bs then ret (string_of_list_byte bs)
  else raise (Exn UnicodeDecodeError
                "'utf-8' codec can't decode bytes: invalid data" None).

(** [with open(path, 'w', encoding='utf-8') as f: f.write(text)].  The
    file system is flat, without parent directories, permissions or
    quotas, and a write succeeds. *)
Definition write_text (path text : string) : M unit :=
  w <- get_world ;;
  set_fs (<[path := File (list_byte_of_string text)]> (w_fs w)).

(** [json.loads(text)].  The message of the error, which tells where the
    parser stopped, is not modelled. *)
Definition json_loads (text : string) : M json :=
  match Json.loads text with
  | Some v => ret v
  | None => raise (Exn JSONDecodeError "Expecting value" None)
  end.

(** [with open(path, 'r', encoding='utf-8') as f: json.load(f)] *)
Definition json_load (path : string) : M json :=
  text <- read_text path ;;
  json_loads text.

(** [os.path.basename(path)]: what follows the last slash. *)
Definition basename (path : string) : string :=
  string_of_list_ascii
    (fold_left (fun acc c => if Ascii.eqb c "/"%char then [] else acc ++ [c])
       (list_ascii_of_string path) []).

(** [os.path.exists(path)] *)
Definition path_exists (path : string) : M bool :=
  w <- get_world ;;
  ret (match w_fs w !! path with Some _ => true | None => false end).

(** [os.path.isdir(path)] *)
Definition path_isdir (path : string) : M bool :=
  w <- get_world ;;
  ret (match w_fs w !! path with Some (Dir _) => true | _ => false end).

(** [os.listdir(path)] *)
Definition listdir (path : string) : M (list string) :=
  w <- get_world ;;
  match w_fs w !! path with
  | Some (Dir entries) => ret entries
  | Some (File _) =>
      raise (Exn NotADirectoryError
               (errno_message "20" "Not a directory" path) None)
  | None =>
      raise (Exn FileNotFoundError
               (errno_message "2" "No such file or directory" path) None)
  end.

(** [os.path.join(folder, name)]: an absolute [name] stands alone, and
    a slash is put between the two unless [folder] is empty or ends with
    one. *)
Definition path_join (folder name : string) : string :=
  if PyStr.startswith name "/" then name
  else if String.eqb folder "" then name
  else if PyStr.endswith folder "/" then folder +:+ name
  else folder +:+ "/" +:+ name.

End Io.

(** ** Python's [base64] module *)

Module Base64.

(** The standard alphabet (RFC 4648, section 4). *)
Definition alphabet : list ascii :=
  list_ascii_of_string
    "ABCDEFGHIJKLMNOPQRSTUVWXYZabcdefghijklmnopqrstuvwxyz0123456789+/".

Definition pad : ascii := "="%char.

(** The character of a six-bit value. *)
Definition b64_char (n : N) : ascii := nth (N.to_nat n) alphabet pad.

Fixpoint index_from (c : ascii) (cs : list ascii) (i : N) : option N :=
  match cs with
  | [] => None
  | d :: cs' => if Ascii.eqb c d then Some i else index_from c cs' (N.succ i)
  end.

(** The six-bit value of an alphabet character. *)
Definition b64_index (c : ascii) : option N := index_from c alphabet 0%N.

Definition byte_of_N (n : N) : byte :=
  match Byte.of_N n with
  | Some b => b
  | None => x00
  end.

(** [base64.b64encode]: three bytes give four characters; a tail of one or
    two bytes is padded with [=]. *)
Fixpoint b64encode_chars (bs : list byte) : list ascii :=
  match bs with
  | [] => []
  | [a] =>
      let x := Byte.to_N a in
      [b64_char (x / 4); b64_char ((x mod 4) * 16); pad; pad]%N
  | [a; b] =>
      let x := Byte.to_N a in
      let y := Byte.to_N b in
      [b64_char (x / 4); b64_char ((x mod 4) * 16 + y / 16);
       b64_char ((y mod 16) * 4); pad]%N
  | a :: b :: c :: rest =>
      let x := Byte.to_N a in
      let y := Byte.to_N b in
      let z := Byte.to_N c in
      [b64_char (x / 4); b64_char ((x mod 4) * 16 + y / 16);
       b64_char ((y mod 16) * 4 + z / 64); b64_char (z mod 64)]%N ++
      b64encode_chars rest
  end.

(** [base64.b64encode(data).decode('utf-8')] *)
Definition b64encode (bs : list byte) : string :=
  string_of_list_ascii (b64encode_chars bs).

(** The last group of four characters, which may end in padding. *)
Definition decode_last (c1 c2 c3 c4 : ascii) : option (list byte) :=
  match b64_index c1, b64_index c2 with
  | Some i1, Some i2 =>
      let b1 := byte_of_N (i1 * 4 + i2 / 16) in
      if Ascii.eqb c3 pad then
        if Ascii.eqb c4 pad then Some [b1] else None
      else
        match b64_index c3 with
        | Some i3 =>
            let b2 := byte_of_N ((i2 mod 16) * 16 + i3 / 4) in
            if Ascii.eqb c4 pad then Some [b1; b2]
            else
              match b64_index c4 with
              | Some i4 => Some [b1; b2; byte_of_N ((i3 mod 4) * 64 + i4)]
              | None => None
              end
        | None => None
        end
  | _, _ => None
  end%N.

(** A group of four alphabet characters that is not the last. *)
Definition decode_full (c1 c2 c3 c4 : ascii) : option (list byte) :=
  match b64_index c1, b64_index c2, b64_index c3, b64_index c4 with
  | Some i1, Some i2, Some i3, Some i4 =>
      Some [byte_of_N (i1 * 4 + i2 / 16);
            byte_of_N ((i2 mod 16) * 16 + i3 / 4);
            byte_of_N ((i3 mod 4) * 64 + i4)]
  | _, _, _, _ => None
  end%N.

(** Decoding of padded base64 text over the standard alphabet; [None] is
    Python's [binascii.Error]. *)
Fixpoint b64decode_chars (cs : list ascii) : option (list byte) :=
  match cs with
  | [] => Some []
  | c1 :: c2 :: c3 :: c4 :: rest =>
      match rest with
      | [] => decode_last c1 c2 c3 c4
      | _ =>
          match decode_full c1 c2 c3 c4, b64decode_chars rest with
          | Some g, Some r => Some (g ++ r)
          | _, _ => None
          end
      end
  | _ => None
  end.

(** [base64.b64decode] on a [str] *)
Definition b64decode (s : string) : option (list byte) :=
  b64decode_chars (list_ascii_of_string s).

End Base64.

(** ** The [deepdiff] package, with [ignore_order=True] *)

Module DeepDiff.

(** Python's dict lookup on an association list. *)
Fixpoint dict_get (k : string) (d : list (string * json)) : option json :=
  match d with
  | [] => None
  | (k', v) :: d' => if String.eqb k k' then Some v else dict_get k d'
  end.

(** Two values have the same DeepHash: equal scalars of the same type,
    dicts with the same keys and same-hash values, lists with the same set
    of item hashes, whatever their order and repetitions. *)
Fixpoint same (a b : json) {struct a} : bool :=
  match a, b with
  | JNull, JNull => true
  | JBool x, JBool y => Bool.eqb x y
  | JInt x, JInt y => Z.eqb x y
  | JFloat m e, JFloat m' e' => Z.eqb m m' && Z.eqb e e'
  | JStr s, JStr t => String.eqb s t
  | JArr xs, JArr ys =>
      forallb (fun x => existsb (fun y => same x y) ys) xs &&
      forallb (fun y => existsb (fun x => same x y) xs) ys
  | JObj fs, JObj gs =>
      forallb (fun kv =>
                 match dict_get (fst kv) gs with
                 | Some v' => same (snd kv) v'
                 | None => false
                 end) fs &&
      forallb (fun kv =>
                 match dict_get (fst kv) fs with
                 | Some _ => true
                 | None => false
                 end) gs
  | _, _ => false
  end.

(** The items of [xs], with their indices from [i] on, that have no
    counterpart under [rel] in [ys]. *)
Fixpoint unmatched (rel : json -> json -> bool) (xs ys : list json)
    (i : nat) : list (nat * json) :=
  match xs with
  | [] => []
  | x :: xs' =>
      if existsb (rel x) ys then unmatched rel xs' ys (S i)
      else (i, x) :: unmatched rel xs' ys (S i)
  end.

Definition same_constructor (a b : json) : bool :=
  match a, b with
  | JNull, JNull | JBool _, JBool _ | JInt _, JInt _
  | JFloat _ _, JFloat _ _ | JStr _, JStr _ | JArr _, JArr _
  | JObj _, JObj _ => true
  | _, _ => false
  end.

(** [DeepDiff(t1, t2, ignore_order=True)] at [path]: a type change for
    values of different types, a value change for different scalars, the
    keys on one side only and the changes under the common keys for dicts,
    and for lists the items of either side without a counterpart on the
    other.  DeepDiff's further pairing of such items into changes beneath
    them is not modelled; it does not bear on whether the result is empty. *)
Fixpoint diff_at (path : list path_step) (t1 t2 : json) {struct t1}
    : list change :=
  match t1, t2 with
  | JArr xs, JArr ys =>
      map (fun iv => IterableItemRemoved (path ++ [Index (fst iv)]) (snd iv))
        (unmatched (fun x y => same x y) xs ys 0) ++
      map (fun iv => IterableItemAdded (path ++ [Index (fst iv)]) (snd iv))
        (unmatched (fun y x => same x y) ys xs 0)
  | JObj fs, JObj gs =>
      flat_map (fun kv =>
                  match dict_get (fst kv) gs with
                  | Some v' => diff_at (path ++ [Key (fst kv)]) (snd kv) v'
                  | None => [DictionaryItemRemoved (path ++ [Key (fst kv)])]
                  end) fs ++
      flat_map (fun kv =>
                  match dict_get (fst kv) fs with
                  | Some _ => []
                  | None => [DictionaryItemAdded (path ++ [Key (fst kv)])]
                  end) gs
  | _, _ =>
      if same_constructor t1 t2 then
        if same t1 t2 then [] else [ValueChanged path t1 t2]
      else [TypeChanged path t1 t2]
  end.

Definition deep_diff (t1 t2 : json) : list change := diff_at [] t1 t2.

(** The truth value of a DeepDiff result. *)
Definition nonempty (d : list change) : bool :=
  match d with
  | [] => false
  | _ :: _ => true
  end.

End DeepDiff.

(** ** utils/utils.py *)

Module Utils.

(** The loop of [compare_json_files_deepdiff] over the paths after the
    first. *)
Fixpoint compare_others (reference_data : json) (others : list string)
    : M string :=
  match others with
  | [] =>
      print "--- ALL FILES MATCH ---" ;;;
      ret "SUCCESS"
  | other_path :: rest =>
      verdict <-
        try_clauses
          (print ("Comparing with '" +:+ Io.basename other_path +:+
                  "'...") ;;;
           current_data <- Io.json_load other_path ;;
           let diff := DeepDiff.deep_diff reference_data current_data in
           if DeepDiff.nonempty diff then
             print "--- MISMATCH DETECTED ---" ;;;
             print ("File '" +:+ Io.basename other_path +:+
                    "' does not match the reference.") ;;;
             print "Detailed differences:" ;;;
             emit (EvPrintDiff diff) ;;;
             ret (Some "FAILED")
           else ret None)
          [(FileNotFoundError,
            fun _ =>
              print ("Error: Comparison file not found at '" +:+
                     other_path +:+ "'") ;;;
              ret (Some "FAILED"));
           (JSONDecodeError,
            fun _ =>
              print ("Error: Could not decode JSON from comparison file '"
                     +:+ other_path +:+ "'") ;;;
              ret (Some "FAILED"))] ;;
      match verdict with
      | Some label => ret label
      | None => compare_others reference_data rest
      end
  end.

(** [compare_json_files_deepdiff(file_paths)]; the first two cases are
    [len(file_paths) < 2]. *)
Definition compare_json_files_deepdiff (file_paths : list string)
    : M string :=
  match file_paths with
  | [] | [_] =>
      print "Warning: Less than two files provided. No comparison performed."
      ;;;
      ret "NO_COMPARISON"
  | reference_path :: others =>
      loaded <-
        try_clauses
          (print ("Using '" +:+ Io.basename reference_path +:+
                  "' as the reference.") ;;;
           reference_data <- Io.json_load reference_path ;;
           ret (inr reference_data))
          [(FileNotFoundError,
            fun _ =>
              print ("Error: Reference file not found at '" +:+
                     reference_path +:+ "'") ;;;
              ret (inl "FAILED"));
           (JSONDecodeError,
            fun _ =>
              print ("Error: Could not decode JSON from reference file '"
                     +:+ reference_path +:+ "'") ;;;
              ret (inl "FAILED"))] ;;
      match loaded with
      | inl label => ret label
      | inr reference_data => compare_others reference_data others
      end
  end.

End Utils.

(** ** utils/qa_logging.py *)

Module QaLogging.

(** [logging.DEBUG]: the level the module's logger is set to, and the
    default level of [log_message]. *)
Definition DEBUG : nat := 10.
Definition ERROR : nat := 40.

(** [_thread_local_data.context_id = context_id] *)
Definition set_thread_context_id (context_id : pyval) : M unit :=
  w <- get_world ;;
  set_tls (<[w_thread w := context_id]> (w_tls w)).

(** [getattr(_thread_local_data, 'context_id', None)], then the raise on
    [None]. *)
Definition get_thread_context_id : M pyval :=
  w <- get_world ;;
  let thread_context_id := default PyNone (w_tls w !! w_thread w) in
  match thread_context_id with
  | PyNone => raise (Exn Exception "invalid thread_context_id" None)
  | v => ret v
  end.

(** [del _thread_local_data.context_id] when the attribute is there. *)
Definition clear_thread_context_id : M unit :=
  w <- get_world ;;
  match w_tls w !! w_thread w with
  | Some _ => set_tls (delete (w_thread w) (w_tls w))
  | None => ret tt
  end.

(** [logger.log(level, msg)]: the logger's level is DEBUG, so a record
    below it is dropped. *)
Definition logger_log (level : nat) (msg : string) : M unit :=
  if Nat.leb DEBUG level then emit (EvLog level msg) else ret tt.

(** Which branch of [log_message] built the line. *)
Inductive log_branch : Set := WithContext | WithoutContext.

Definition format_message (context_id : pyval) (log_data : string)
    : log_branch * string :=
  match context_id with
  | PyNone => (WithoutContext, log_data)
  | v => (WithContext, "[CtxID: " +:+ py_str v +:+ "] " +:+ log_data)
  end.

(** [log_message], returning the branch it took. *)
Definition log_message_branch (log_data : string) (level : nat)
    : M log_branch :=
  context_id <- get_thread_context_id ;;
  let (branch, formatted_message) := format_message context_id log_data in
  logger_log level formatted_message ;;;
  ret branch.

Definition log_message (log_data : string) (level : nat) : M unit :=
  log_message_branch log_data level ;;; ret tt.

End QaLogging.

(** ** agent/agent_util.py *)

Module AgentUtil.
Import QaLogging.

(** [text.replace("...", "")]: every run of three dots, found from the
    left, is dropped. *)
Fixpoint drop_ellipses (cs : list ascii) : list ascii :=
  match cs with
  | a :: r1 =>
      match r1 with
      | b :: c :: r3 =>
          if Ascii.eqb a "."%char && Ascii.eqb b "."%char &&
             Ascii.eqb c "."%char
          then drop_ellipses r3
          else a :: drop_ellipses r1
      | _ => a :: drop_ellipses r1
      end
  | [] => []
  end.

Definition replace_ellipses (text : string) : string :=
  string_of_list_ascii (drop_ellipses (list_ascii_of_string text)).

Section Prompts.

(** [os.getcwd()], today's date as [strftime('%Y-%m-%d')] gives it, and
    the text of [json.dumps(obj)]. *)
Variable cwd : string.
Variable today : string.
Variable json_dumps : json -> string.

(** [combine_system_prompt_input_files(txt_file_path, None)], as
    [generate_prompt_messages] calls it: the text of the file, or [None]
    after logging why it could not be read. *)
Definition combine_system_prompt_input_files (txt_file_path : string)
    : M (option string) :=
  try_clauses
    (txt_content <- Io.read_text txt_file_path ;;
     ret (Some txt_content))
    [(FileNotFoundError,
      fun _ =>
        log_message ("Error: .txt file not found at " +:+ txt_file_path)
          ERROR ;;;
        ret None);
     (Exception,
      fun e =>
        log_message ("Error reading .txt file: " +:+ exn_str e) ERROR ;;;
        ret None)].

(** [generate_prompt_messages(model_file_path)] *)
Definition generate_prompt_messages (model_file_path : string)
    : M (option string) :=
  let current_directory := cwd in
  let txt_file_full_path := Io.path_join current_directory model_file_path in
  combined_string <- combine_system_prompt_input_files txt_file_full_path ;;
  match combined_string with
  | Some text =>
      if PyStr.nonempty text then
        log_message ("Prompt message: " +:+ text) DEBUG ;;;
        Io.write_text "combined_file.txt" text ;;;
        ret combined_string
      else ret combined_string
  | None => ret combined_string
  end.

(** [generate_system_prompt_with_json_data_for_multiple_images
     (model_prompt_file_path, json_content, screenshots)], without
    interactive elements: the system message, the human message with the
    images before the text, and the human message without images. *)
Definition generate_system_prompt_with_json_data_for_multiple_images
    (model_prompt_file_path json_content : string)
    (screenshots : list string) : M (message * message * message) :=
  system_prompt <- generate_prompt_messages model_prompt_file_path ;;
  match system_prompt with
  | None =>
      log_message "system_prompt is None" ERROR ;;;
      raise (Exn Exception "Not able to generate system prompt" None)
  | Some system_prompt =>
      let system_information :=
        "Today's date - " +:+ today +:+ String "010" "" in
      let system_message :=
        SystemMessage (system_information +:+ system_prompt) in
      let contents := replace_ellipses (json_dumps (JStr json_content)) in
      let human_message_without_image := HumanMessage [BText contents] in
      let content_array :=
        map (fun screenshot =>
               BImage ("data:image/jpeg;base64," +:+ screenshot))
          screenshots ++ [BText contents] in
      let human_message :=
        match screenshots with
        | [] => HumanMessage [BText contents]
        | _ :: _ => HumanMessage content_array
        end in
      ret (system_message, human_message, human_message_without_image)
  end.

End Prompts.

End AgentUtil.

(** ** agent/extract_table_multi_model_agent.py *)

Module MultiModel.
Import QaLogging.

(** The attributes [__init__] stores. *)
Record MultiModalTableInterpreter : Type := {
  provider : string;
  model_name : string;
  log_base_path : string;
  system_prompt_path : string
}.

Definition TABLE_EXTRACTOR_MODEL_FILE_PATH : string :=
  "model/model_table_extractor.txt".

(** [x in xs] for a list of strings. *)
Definition str_in (x : string) (xs : list string) : bool :=
  existsb (String.eqb x) xs.

Definition supported_providers : list string :=
  ["openai"; "google"; "bedrock"].

(** [os.makedirs(path, exist_ok=True)]: nothing to do for a directory that
    is there, [FileExistsError] when the path is a file, and otherwise the
    directory is created. *)
Definition makedirs_exist_ok (path : string) : M unit :=
  w <- get_world ;;
  match w_fs w !! path with
  | Some (Dir _) => ret tt
  | Some (File _) =>
      raise (Exn FileExistsError
               ("[Errno 17] File exists: '" +:+ path +:+ "'") None)
  | None => set_fs (<[path := Dir []]> (w_fs w))
  end.

(** [MultiModalTableInterpreter.__init__] *)
Definition __init__ (provider model_name log_base_path
    system_prompt_path : string) : M MultiModalTableInterpreter :=
  if negb (str_in provider supported_providers)
  then raise (Exn ValueError
                "Provider must be one of 'openai', 'google', or 'bedrock'"
                None)
  else
    let self :=
      {| provider := provider; model_name := model_name;
         log_base_path := log_base_path;
         system_prompt_path := system_prompt_path |} in
    makedirs_exist_ok (MultiModel.log_base_path self) ;;;
    ret self.

(** A LangChain chat model, with the keyword arguments it was built with,
    in dict order. *)
Inductive chat_model : Type :=
| ChatOpenAI (kwargs : list (string * json))
| ChatGoogleGenerativeAI (kwargs : list (string * json))
| ChatBedrock (kwargs : list (string * json)).

(** [d[new] = d.pop(old)] on a dict kept as an association list: the entry
    leaves its place and joins at the end under the new key. *)
Definition dict_rename (old new : string) (d : list (string * json))
    : list (string * json) :=
  match find (fun kv => String.eqb (fst kv) old) d with
  | Some (_, v) =>
      List.filter (fun kv => negb (String.eqb (fst kv) old) &&
                             negb (String.eqb (fst kv) new)) d ++ [(new, v)]
  | None => d
  end.

(** [MultiModalTableInterpreter._get_llm] *)
Definition _get_llm (self : MultiModalTableInterpreter) : M chat_model :=
  let common_params :=
    [("model", JStr (model_name self));
     ("temperature", JFloat 0 0);
     ("max_tokens", JInt 4096)] in
  log_message
    ("Initializing LLM for provider: '" +:+ provider self +:+
     "' with model: '" +:+ model_name self +:+ "'") DEBUG ;;;
  if String.eqb (provider self) "openai"
  then ret (ChatOpenAI common_params)
  else if String.eqb (provider self) "google"
  then ret (ChatGoogleGenerativeAI
              (dict_rename "model" "model_name" common_params))
  else if String.eqb (provider self) "bedrock"
  then ret (ChatBedrock (dict_rename "model" "model_id" common_params))
  else raise (Exn NotImplementedError
                ("Provider '" +:+ provider self +:+ "' is not supported.")
                None).

(** [get_image_as_base64]: the Base64 text of the file, or [None] after
    printing the error. *)
Definition get_image_as_base64 (image_path : string) : M (option string) :=
  try_except
    (data <- Io.read_bytes image_path ;;
     ret (Some (Base64.b64encode data)))
    [Exception]
    (fun e =>
       print ("Error encoding image " +:+ image_path +:+ ": " +:+
              exn_str e) ;;;
       ret None).

(** The body of [for i in range(retries)] in [_call_llm_with_retry], from
    index [i] with [remaining] iterations left.  A successful [ainvoke]
    returns from the function; a failure is logged, re-raised with the
    failure as its cause on the last index, and otherwise followed by a
    sleep of [2 ** i] seconds.  When the range is empty the function falls
    off its end and returns [None]. *)
Fixpoint call_llm_with_retry_loop (llm : client) (messages : list message)
    (retries i remaining : nat) : M (option AIMessage) :=
  match remaining with
  | O => ret None
  | S remaining' =>
      try_except
        (response <- ainvoke llm messages ;; ret (Some response))
        [Exception]
        (fun e =>
           log_message
             ("API call attempt " +:+ pretty (i + 1) +:+ "/" +:+
              pretty retries +:+ " failed: " +:+ exn_str e) DEBUG ;;;
           if Nat.eqb i (retries - 1)
           then raise (Exn Exception "API call failed after all retries"
                         (Some e))
           else
             sleep (2 ^ i) ;;;
             call_llm_with_retry_loop llm messages retries (S i) remaining')
  end.

(** [MultiModalTableInterpreter._call_llm_with_retry(llm, messages,
    retries)]; the default of [retries] is 5. *)
Definition _call_llm_with_retry (llm : client) (messages : list message)
    (retries : nat) : M (option AIMessage) :=
  call_llm_with_retry_loop llm messages retries 0 retries.

Definition default_retries : nat := 5.

Definition supported_extensions : list string :=
  [".png"; ".jpg"; ".jpeg"; ".bmp"; ".gif"].

(** [f.lower().endswith(supported_extensions)] *)
Definition is_supported (f : string) : bool :=
  PyStr.endswith_any (PyStr.lower f) supported_extensions.

(** [[f for f in natsort.natsorted(os.listdir(folder_path))
      if f.lower().endswith(supported_extensions)]] *)
Definition image_files_of (entries : list string) : list string :=
  List.filter is_supported (Natsort.natsorted entries).

(** Python's truth value of a JSON-shaped value. *)
Definition truthy (v : json) : bool :=
  match v with
  | JNull => false
  | JBool b => b
  | JInt z => negb (Z.eqb z 0)
  | JFloat m _ => negb (Z.eqb m 0)
  | JStr s => PyStr.nonempty s
  | JArr items => match items with [] => false | _ => true end
  | JObj fields => match fields with [] => false | _ => true end
  end.

(** [response[0] if isinstance(response, list) and len(response) == 1
     else response] *)
Definition single_table_data_of (response : json) : json :=
  match response with
  | JArr [item] => item
  | _ => response
  end.

(** The placeholder stored for an image that could not be encoded. *)
Definition encode_error_entry (filename : string) : json :=
  JObj [("error", JStr "Failed to encode image"); ("filename", JStr filename)].

(** The entry stored when the agent call raised [e]. *)
Definition call_error_entry (e : exn) (filename : string) : json :=
  JObj [("error", JStr (exn_str e)); ("filename", JStr filename)].

(** [response.content.strip().removeprefix(fence_json)
     .removesuffix(fence).strip()], the fences being three backquotes
    followed by [json], and three backquotes. *)
Definition cleaned_content_of (text : string) : string :=
  PyStr.strip
    (PyStr.removesuffix
       (PyStr.removeprefix (PyStr.strip text) "```json") "```").

(** [response.content]; without a response there is no such attribute. *)
Definition content_of (response : option AIMessage) : M json :=
  match response with
  | Some r => ret (content r)
  | None =>
      raise (Exn AttributeError
               "'NoneType' object has no attribute 'content'" None)
  end.

(** The [str] whose [strip] method is called; content that is a list has
    no such method. *)
Definition as_str (c : json) : M string :=
  match c with
  | JStr text => ret text
  | _ => raise (Exn AttributeError
                  "'list' object has no attribute 'strip'" None)
  end.

(** The value returned to the caller when the response cannot be parsed. *)
Definition parse_error_value (raw_content : json) : json :=
  JObj [("error", JStr "Failed to parse JSON response");
        ("content", raw_content)].

Section Respond.

(** The text [json.dump(obj, f, indent=2)] writes, and [str(v)] of a
    value that is not a [str]. *)
Variable json_dumps : json -> string.
Variable py_repr : json -> string.

(** How an f-string renders a value. *)
Definition fstr (v : json) : string :=
  match v with
  | JStr text => text
  | _ => py_repr v
  end.

(** The [try] block of [call_agent] that parses the response: [inr] is
    the parsed value the function goes on with, [inl] the value its
    [except] clause returns. *)
Definition parse_response (response : option AIMessage)
    : M (json + json) :=
  try_except
    (c <- content_of response ;;
     text <- as_str c ;;
     let cleaned_content := cleaned_content_of text in
     parsed_json <- Io.json_loads cleaned_content ;;
     ret (inr parsed_json))
    [JSONDecodeError; AttributeError]
    (fun e =>
       log_message ("Failed to parse JSON from LLM response. Error: " +:+
                    exn_str e) DEBUG ;;;
       c <- content_of response ;;
       log_message ("Raw response content: " +:+ fstr c) DEBUG ;;;
       c' <- content_of response ;;
       ret (inl (parse_error_value c'))).

(** [call_agent] from the response on: parse it, and when that worked log
    the fact, store the value under the log path and return it. *)
Definition finish_call_agent (self : MultiModalTableInterpreter)
    (request_id : string) (response : option AIMessage) : M json :=
  r <- parse_response response ;;
  match r with
  | inl error_value => ret error_value
  | inr parsed_json =>
      log_message "Successfully parsed response from LLM." DEBUG ;;;
      let ai_step_output_path :=
        MultiModel.log_base_path self +:+ "/ai_output_table_extract_" +:+
        request_id +:+ ".json" in
      Io.write_text ai_step_output_path (json_dumps parsed_json) ;;;
      ret parsed_json
  end.

End Respond.

Section CallAgent.

(** What a call draws from its environment: the working directory, the
    date, the random prefix of the context id, the texts of
    [json.dumps(obj)], of [json.dump(obj, f, indent=2)], of [str(v)] and of
    [str(message)], and how the chat model built by [_get_llm] answers. *)
Variable cwd : string.
Variable today : string.
Variable random_prefix : string.
Variable json_dumps : json -> string.
Variable json_dumps_indented : json -> string.
Variable py_repr : json -> string.
Variable str_of_message : message -> string.
Variable backend : chat_model -> client.

Definition text_of (m : message) : string :=
  match m with
  | SystemMessage text => text
  | HumanMessage _ => str_of_message m
  end.

(** [MultiModalTableInterpreter.call_agent(request_id, json_data,
    screenshots)] *)
Definition call_agent (self : MultiModalTableInterpreter)
    (request_id json_data : string) (screenshots : list string) : M json :=
  w <- get_world ;;
  let context_id := random_prefix +:+ "-" +:+ pretty (w_thread w) in
  set_thread_context_id (PyStr context_id) ;;;
  log_message "Generating system and human messages for LLM" DEBUG ;;;
  built <-
    AgentUtil.generate_system_prompt_with_json_data_for_multiple_images
      cwd today json_dumps (MultiModel.system_prompt_path self) json_data
      screenshots ;;
  let system_message := fst (fst built) in
  let human_message := snd (fst built) in
  let human_message_without_image := snd built in
  let ai_step_input_path :=
    MultiModel.log_base_path self +:+ "/ai_input_table_extract_" +:+
    request_id +:+ ".txt" in
  log_message ("Writing text input for LLM to " +:+ ai_step_input_path)
    DEBUG ;;;
  Io.write_text ai_step_input_path
    ("System: " +:+ text_of system_message +:+ String "010" "" +:+
     String "010" "" +:+ "Human: " +:+
     str_of_message human_message_without_image) ;;;
  let messages := [system_message; human_message] in
  log_message "Calling LLM..." DEBUG ;;;
  llm <- _get_llm self ;;
  response <- _call_llm_with_retry (backend llm) messages default_retries ;;
  finish_call_agent json_dumps_indented py_repr self request_id response.

End CallAgent.

Section Batch.

(** [agent.call_agent(request_id, json_data, screenshots)] of the agent
    passed in, and the text [json.dump(obj, f, indent=2)] writes. *)
Variable call_agent : string -> string -> list string -> M json.
Variable json_dumps : json -> string.

(** One turn of the loop of [process_folder_sequentially], for the file
    at index [i] of [total]; it returns [all_extracted_data] after its
    [append].  Nothing after the [append] in the [try] block can raise, so
    the handler always starts from the list as it was. *)
Definition process_image (request_id_prefix : pyval) (folder_path : string)
    (total i : nat) (filename : string) (all_extracted_data : list json)
    : M (list json) :=
  let image_path := Io.path_join folder_path filename in
  print ("--- Processing image " +:+ pretty (i + 1) +:+ "/" +:+
         pretty total +:+ ": " +:+ filename +:+ " ---") ;;;
  table_image_b64 <- get_image_as_base64 image_path ;;
  match table_image_b64 with
  | None => ret (all_extracted_data ++ [encode_error_entry filename])
  | Some b64 =>
      if negb (PyStr.nonempty b64)
      then ret (all_extracted_data ++ [encode_error_entry filename])
      else
        try_except
          (let image_request_id :=
             py_str request_id_prefix +:+ "_" +:+ PyStr.stem filename in
           response <- call_agent image_request_id "{}" [b64] ;;
           let single_table_data := single_table_data_of response in
           let all_extracted_data' :=
             all_extracted_data ++ [single_table_data] in
           print ("Agent response for " +:+ filename +:+ ": " +:+
                  (if truthy single_table_data then "Table found"
                   else "No table found")) ;;;
           ret all_extracted_data')
          [Exception]
          (fun e =>
             print ("An error occurred while calling the agent for " +:+
                    filename +:+ ": " +:+ exn_str e) ;;;
             ret (all_extracted_data ++ [call_error_entry e filename]))
  end.

(** [for i, filename in enumerate(image_files)], from index [i] on. *)
Fixpoint process_images (request_id_prefix : pyval) (folder_path : string)
    (total i : nat) (image_files : list string)
    (all_extracted_data : list json) : M (list json) :=
  match image_files with
  | [] => ret all_extracted_data
  | filename :: rest =>
      all_extracted_data' <-
        process_image request_id_prefix folder_path total i filename
          all_extracted_data ;;
      process_images request_id_prefix folder_path total (S i) rest
        all_extracted_data'
  end.

(** [process_folder_sequentially]; [None] is the bare [return] taken when
    the folder is missing. *)
Definition process_folder_sequentially (request_id_prefix : pyval)
    (folder_path output_path : string) : M (option (list json)) :=
  isdir <- Io.path_isdir folder_path ;;
  if negb isdir then
    print ("Error: Folder not found at '" +:+ folder_path +:+ "'") ;;;
    ret None
  else
    print ("Starting to process images in folder: " +:+ folder_path +:+
           String "010" "") ;;;
    entries <- Io.listdir folder_path ;;
    let image_files := image_files_of entries in
    all_extracted_data <-
      process_images request_id_prefix folder_path (length image_files) 0
        image_files [] ;;
    print (String "010" "Finished processing all images. " +:+
           "Writing aggregated results to " +:+ output_path) ;;;
    Io.write_text output_path (json_dumps (JArr all_extracted_data)) ;;;
    ret (Some all_extracted_data).

End Batch.

End MultiModel.

(** ** agent/extract_table_agent.py: the earlier agent *)

Module Legacy.

(** [get_image_as_base64] of the earlier agent: it looks for the path
    first. *)
Definition get_image_as_base64 (image_path : string) : M (option string) :=
  found <- Io.path_exists image_path ;;
  if negb found then
    print ("Error: File not found at '" +:+ image_path +:+ "'") ;;;
    ret None
  else
    try_except
      (binary_data <- Io.read_bytes image_path ;;
       let base64_encoded_string := Base64.b64encode binary_data in
       ret (Some base64_encoded_string))
      [Exception]
      (fun e =>
         print ("Error encoding file " +:+ image_path +:+ ": " +:+
                exn_str e) ;;;
         ret None).

(** [TableInterpreterAgent.call_llm_agent_with_retry]: every failure is
    printed and the next attempt follows at once; after the loop a fresh
    exception is raised. *)
Fixpoint call_llm_agent_with_retry_loop (llm_with_schema : client)
    (messages : list message) (remaining : nat) : M AIMessage :=
  match remaining with
  | O => raise (Exn Exception "API call failed after retries" None)
  | S remaining' =>
      try_except
        (ainvoke llm_with_schema messages)
        [Exception]
        (fun e =>
           print (exn_str e) ;;;
           call_llm_agent_with_retry_loop llm_with_schema messages remaining')
  end.

Definition call_llm_agent_with_retry (llm_with_schema : client)
    (messages : list message) (retries : nat) : M AIMessage :=
  call_llm_agent_with_retry_loop llm_with_schema messages retries.

Definition default_retries : nat := 15.

Section LegacyRespond.

Variable py_repr : json -> string.

(** [json.loads(response.content)]: content that is not a [str] is a
    [TypeError], text that is not JSON a [JSONDecodeError]. *)
Definition parse_response (response : AIMessage) : M json :=
  match content response with
  | JStr text => Io.json_loads text
  | _ =>
      raise (Exn TypeError
               "the JSON object must be str, bytes or bytearray, not list"
               None)
  end.

(** [call_agent] from the response on: parse it, log it, store its text
    under the log path and return it. *)
Definition finish_call_agent (log_base_path request_id : string)
    (response : AIMessage) : M json :=
  parsed_json <- parse_response response ;;
  QaLogging.log_message
    ("response from llm: " +:+ MultiModel.fstr py_repr parsed_json)
    QaLogging.DEBUG ;;;
  let ai_step_output_path :=
    log_base_path +:+ "/ai_output_table_extract" +:+ request_id +:+ ".txt" in
  Io.write_text ai_step_output_path (MultiModel.fstr py_repr parsed_json) ;;;
  ret parsed_json.

End LegacyRespond.

(** The loading loop of [process_images_in_folder]: every name of the
    sorted listing with a supported extension is encoded, in turn, and the
    encodings that succeeded are collected. *)
Fixpoint load_table_images (folder_path : string) (names : list string)
    (table_images : list string) : M (list string) :=
  match names with
  | [] => ret table_images
  | filename :: rest =>
      if PyStr.endswith_any (PyStr.lower filename)
           MultiModel.supported_extensions
      then
        let image_path := Io.path_join folder_path filename in
        print ("--- Processing: " +:+ image_path +:+ " ---") ;;;
        table_image_b64 <- get_image_as_base64 image_path ;;
        match table_image_b64 with
        | Some b64 =>
            if PyStr.nonempty b64
            then load_table_images folder_path rest (table_images ++ [b64])
            else load_table_images folder_path rest table_images
        | None => load_table_images folder_path rest table_images
        end
      else load_table_images folder_path rest table_images
  end.

(** The loop as [process_images_in_folder] runs it:
    [for filename in natsort.natsorted(os.listdir(folder_path))]. *)
Definition load_folder_images (folder_path : string) : M (list string) :=
  entries <- Io.listdir folder_path ;;
  load_table_images folder_path (Natsort.natsorted entries) [].

End Legacy.

(** ** utils/utils.py: the random prefix *)

Module UtilsPrefix.

(** [string.ascii_letters + string.digits] *)
Definition characters : string :=
  "abcdefghijklmnopqrstuvwxyzABCDEFGHIJKLMNOPQRSTUVWXYZ0123456789".

(** [random.choice(seq)] is [seq[k]] for the number [k] below [len(seq)]
    that the generator gives next; [draw] is what the generator holds, and
    its remainder stands for that number. *)
Definition choice (seq : string) (draw : nat) : ascii :=
  match String.get (draw mod String.length seq) seq with
  | Some c => c
  | None => "000"%char
  end.

(** [generate_random_prefix(length)], for the draws [rng 0, rng 1, ...] of
    the generator. *)
Definition generate_random_prefix (rng : nat -> nat) (length : nat)
    : string :=
  string_of_list_ascii
    (map (fun i => choice characters (rng i)) (seq 0 length)).

End UtilsPrefix.

(** ** agent/agent_util.py: the other prompt builders *)

Module AgentUtilMore.
Import QaLogging.

Section Prompts.

(** [os.getcwd()], today's date, and the texts of [json.dumps(obj)] and of
    [json.dumps(obj, indent=4)]. *)
Variable cwd : string.
Variable today : string.
Variable json_dumps : json -> string.
Variable json_dumps_indent4 : json -> string.

(** [combine_system_prompt_input_files(txt_file_path, json_file_path)]
    with both of its arguments; [None] for [json_file_path] is
    Python's. *)
Definition combine_system_prompt_input_files (txt_file_path : string)
    (json_file_path : option string) : M (option string) :=
  txt_read <-
    try_clauses
      (txt_content <- Io.read_text txt_file_path ;;
       ret (Some txt_content))
      [(FileNotFoundError,
        fun _ =>
          log_message ("Error: .txt file not found at " +:+ txt_file_path)
            ERROR ;;;
          ret None);
       (Exception,
        fun e =>
          log_message ("Error reading .txt file: " +:+ exn_str e) ERROR ;;;
          ret None)] ;;
  match txt_read with
  | None => ret None
  | Some txt_content =>
      match json_file_path with
      | None => ret (Some txt_content)
      | Some json_file_path =>
          json_read <-
            try_clauses
              (json_data <- Io.json_load json_file_path ;;
               let json_content := json_dumps_indent4 json_data in
               ret (Some json_content))
              [(FileNotFoundError,
                fun _ =>
                  log_message
                    ("Error: .json file not found at " +:+ json_file_path)
                    ERROR ;;;
                  ret None);
               (JSONDecodeError,
                fun _ =>
                  log_message
                    ("Error: Invalid JSON format in " +:+ json_file_path)
                    ERROR ;;;
                  ret None);
               (Exception,
                fun e =>
                  log_message ("Error reading .json file: " +:+ exn_str e)
                    ERROR ;;;
                  ret None)] ;;
          match json_read with
          | None => ret None
          | Some json_content =>
              let combined_string :=
                txt_content +:+ String "010" (String "010" "") +:+
                json_content in
              ret (Some combined_string)
          end
      end
  end.

(** [generate_system_prompt_with_json_data(model_prompt_file_path,
     json_content, screenshot, interactive_elements)], for one
    screenshot, a [str] or [None], taken when it is true in Python's
    sense. *)
Definition generate_system_prompt_with_json_data
    (model_prompt_file_path json_content : string)
    (screenshot interactive_elements : option string)
    : M (message * message * message) :=
  system_prompt <-
    AgentUtil.generate_prompt_messages cwd model_prompt_file_path ;;
  match system_prompt with
  | None =>
      log_message "system_prompt is None" ERROR ;;;
      raise (Exn Exception "Not able to generate system prompt" None)
  | Some system_prompt =>
      let system_information :=
        "Today's date - " +:+ today +:+ String "010" "" in
      let system_message :=
        SystemMessage (system_information +:+ system_prompt) in
      let contents := json_dumps (JStr json_content) in
      let contents :=
        match interactive_elements with
        | Some elements =>
            contents +:+ String "010" (String "010" "") +:+ elements
        | None => contents
        end in
      let contents := AgentUtil.replace_ellipses contents in
      let human_message_without_image := HumanMessage [BText contents] in
      let human_message :=
        match screenshot with
        | Some image =>
            if PyStr.nonempty image
            then HumanMessage
                   [BImage ("data:image/jpeg;base64," +:+ image);
                    BText contents]
            else HumanMessage [BText contents]
        | None => HumanMessage [BText contents]
        end in
      ret (system_message, human_message, human_message_without_image)
  end.

(** [generate_input_messages]: its two [log_message] calls pass plain
    strings, not f-strings, so the braces are logged as written; it then
    calls [generate_prompt_messages], a function of one parameter, with two
    arguments, which is a [TypeError] before that function starts, and the
    rest of the body is never reached. *)
Definition generate_input_messages
    (model_prompt_file_path input_file_path task_description : string)
    (step_details : json) (interactive_elements : string)
    (screenshot : option string) : M (message * message * message) :=
  log_message "model prompt file path:{model_prompt_file_path}" DEBUG ;;;
  log_message "input file path:{input_file_path}" DEBUG ;;;
  raise (Exn TypeError
           ("generate_prompt_messages() takes 1 positional argument " +:+
            "but 2 were given") None).

End Prompts.

End AgentUtilMore.

(** ** agent/extract_table_multi_model_agent.py: all images in one call *)

Module MultiModelJoint.

Section Joint.

(** [agent.call_agent(request_id, json_data, screenshots)] of the agent
    passed in, and the text [json.dump(obj, f, indent=2)] writes. *)
Variable call_agent : string -> string -> list string -> M json.
Variable json_dumps : json -> string.

(** The loading loop of [process_images_in_folder], over the sorted
    listing: a name with a supported extension is encoded, and an encoding
    that is not empty is appended. *)
Fixpoint load_images (folder_path : string) (names : list string)
    (table_images : list string) : M (list string) :=
  match names with
  | [] => ret table_images
  | filename :: rest =>
      if PyStr.endswith_any (PyStr.lower filename)
           MultiModel.supported_extensions
      then
        let image_path := Io.path_join folder_path filename in
        print ("--- Loading: " +:+ image_path +:+ " ---") ;;;
        table_image_b64 <- MultiModel.get_image_as_base64 image_path ;;
        match table_image_b64 with
        | Some b64 =>
            if PyStr.nonempty b64
            then load_images folder_path rest (table_images ++ [b64])
            else load_images folder_path rest table_images
        | None => load_images folder_path rest table_images
        end
      else load_images folder_path rest table_images
  end.

(** [process_images_in_folder(request_id, folder_path, agent,
    output_path)]; [None] is the bare [return], and the end of the
    [except] block, which returns nothing. *)
Definition process_images_in_folder
    (request_id folder_path output_path : string) : M (option json) :=
  isdir <- Io.path_isdir folder_path ;;
  if negb isdir then
    print ("Error: Folder not found at '" +:+ folder_path +:+ "'") ;;;
    ret None
  else
    print ("Starting to process images in folder: " +:+ folder_path +:+
           String "010" "") ;;;
    entries <- Io.listdir folder_path ;;
    table_images <-
      load_images folder_path (Natsort.natsorted entries) [] ;;
    match table_images with
    | [] =>
        print "No supported images found in the folder." ;;;
        ret None
    | _ :: _ =>
        try_except
          (print ("Successfully loaded and encoded " +:+
                  pretty (length table_images) +:+
                  " files. Calling agent...") ;;;
           response <- call_agent request_id "{}" table_images ;;
           print ("Agent response received. Writing to " +:+
                  output_path) ;;;
           Io.write_text output_path (json_dumps response) ;;;
           print "Finished processing all images in the folder." ;;;
           ret (Some response))
          [Exception]
          (fun e =>
             print ("An error occurred while calling the agent: " +:+
                    exn_str e) ;;;
             ret None)
    end.

End Joint.

End MultiModelJoint.

(** ** agent/extract_table_agent.py: the earlier agent's [call_agent] *)

Module LegacyAgent.
Import QaLogging.

(** The attributes [TableInterpreterAgent.__init__] stores. *)
Record TableInterpreterAgent : Type := {
  model_id : string;
  log_base_path : string;
  system_prompt_path : string
}.

Definition TABLE_EXTRACTOR_MODEL_FILE_PATH : string :=
  "model/model_table_extractor.txt".

(** [TableInterpreterAgent.__init__(model_id, log_base_path)] *)
Definition __init__ (model_id log_base_path : string)
    : TableInterpreterAgent :=
  {| model_id := model_id; log_base_path := log_base_path;
     system_prompt_path := TABLE_EXTRACTOR_MODEL_FILE_PATH |}.

(** [TableInterpreterAgent.get_llm] *)
Definition get_llm (self : TableInterpreterAgent) : MultiModel.chat_model :=
  MultiModel.ChatBedrock
    [("model_id", JStr (model_id self));
     ("temperature", JFloat 0 0);
     ("max_tokens", JInt 5000)].

Section CallAgent.

(** What a call draws from its environment: the working directory, the
    date, the random prefix of the context id, the texts of
    [json.dumps(obj)], of [str(v)] and of [str(messages)] for a list of
    messages, and how the chat model answers. *)
Variable cwd : string.
Variable today : string.
Variable random_prefix : string.
Variable json_dumps : json -> string.
Variable py_repr : json -> string.
Variable str_of_messages : list message -> string.
Variable backend : MultiModel.chat_model -> client.

(** [TableInterpreterAgent.call_agent(request_id, json_data,
    screenshots)] *)
Definition call_agent (self : TableInterpreterAgent)
    (request_id json_data : string) (screenshots : list string) : M json :=
  w <- get_world ;;
  let context_id := random_prefix +:+ "-" +:+ pretty (w_thread w) in
  set_thread_context_id (PyStr context_id) ;;;
  log_message "generating system input message for llm" DEBUG ;;;
  built <-
    AgentUtil.generate_system_prompt_with_json_data_for_multiple_images
      cwd today json_dumps (system_prompt_path self) json_data
      screenshots ;;
  let system_message := fst (fst built) in
  let human_message := snd (fst built) in
  let human_message_without_image := snd built in
  let ai_step_input_path :=
    log_base_path self +:+ "/ai_input_table_extract" +:+ request_id +:+
    ".txt" in
  log_message "writing system input message for llm" DEBUG ;;;
  Io.write_text ai_step_input_path
    (str_of_messages [system_message; human_message_without_image]) ;;;
  let messages := [system_message; human_message] in
  log_message "calling llm" DEBUG ;;;
  let llm := get_llm self in
  response <-
    Legacy.call_llm_agent_with_retry (backend llm) messages
      Legacy.default_retries ;;
  Legacy.finish_call_agent py_repr (log_base_path self) request_id response.

End CallAgent.

End LegacyAgent.

(** ** Observations on traces *)

Module Obs.

(** The durations slept, in order. *)
Fixpoint sleeps_of (tr : list event) : list nat :=
  match tr with
  | [] => []
  | EvSleep n :: tr' => n :: sleeps_of tr'
  | _ :: tr' => sleeps_of tr'
  end.

(** The number of [ainvoke] calls recorded. *)
Fixpoint invocations_of (tr : list event) : nat :=
  match tr with
  | [] => 0
  | EvInvoke _ :: tr' => S (invocations_of tr')
  | _ :: tr' => invocations_of tr'
  end.

(** The log lines emitted, in order. *)
Fixpoint logs_of (tr : list event) : list string :=
  match tr with
  | [] => []
  | EvLog _ line :: tr' => line :: logs_of tr'
  | _ :: tr' => logs_of tr'
  end.

(** The world after [n] more LLM calls and the events [evs]. *)
Definition advance (w : world) (n : nat) (evs : list event) : world :=
  {| w_thread := w_thread w; w_tls := w_tls w; w_fs := w_fs w;
     w_calls := w_calls w + n; w_trace := w_trace w ++ evs |}.

(** The current thread holds a context id that is not [None]. *)
Definition has_context (w : world) (c : pyval) : Prop :=
  w_tls w !! w_thread w = Some c /\ c <> PyNone.

End Obs.

(* ===================================================================== *)
(** * Part II: lemmas and theorems                                        *)
(* ===================================================================== *)

Import QaLogging Obs.

(** ** Exceptions *)

Lemma isinstance_Exception (e : exn) : isinstance e Exception = true.
Proof. destruct e as [c m k]; destruct c; reflexivity. Qed.

(** ** Worlds *)

Lemma advance_0_nil (w : world) : advance w 0 [] = w.
Proof.
  destruct w; unfold advance; simpl.
  rewrite Nat.add_0_r, app_nil_r. reflexivity.
Qed.

Lemma advance_advance (w : world) (n m : nat) (e1 e2 : list event) :
  advance (advance w n e1) m e2 = advance w (n + m) (e1 ++ e2).
Proof.
  unfold advance; simpl. rewrite Nat.add_assoc, app_assoc. reflexivity.
Qed.

Lemma has_context_advance (w : world) (c : pyval) n evs :
  has_context w c -> has_context (advance w n evs) c.
Proof. intros H; exact H. Qed.

Lemma sleeps_of_app (t1 t2 : list event) :
  sleeps_of (t1 ++ t2) = sleeps_of t1 ++ sleeps_of t2.
Proof.
  induction t1 as [|ev t1 IH]; simpl; [reflexivity|].
  destruct ev; simpl; rewrite IH; reflexivity.
Qed.

Lemma invocations_of_app (t1 t2 : list event) :
  invocations_of (t1 ++ t2) = invocations_of t1 + invocations_of t2.
Proof.
  induction t1 as [|ev t1 IH]; simpl; [reflexivity|].
  destruct ev; simpl; rewrite IH; reflexivity.
Qed.

(** ** Logging with and without a context id *)

Definition ctx_line (c : pyval) (log_data : string) : string :=
  "[CtxID: " +:+ py_str c +:+ "] " +:+ log_data.

Lemma get_thread_context_id_unset (w : world) :
  w_tls w !! w_thread w = None ->
  get_thread_context_id w =
    (Raise (Exn Exception "invalid thread_context_id" None), w).
Proof.
  intros H. unfold get_thread_context_id, bind, get_world.
  rewrite H. reflexivity.
Qed.

Lemma get_thread_context_id_set (w : world) (c : pyval) :
  has_context w c -> get_thread_context_id w = (Ok c, w).
Proof.
  intros [H Hc]. unfold get_thread_context_id, bind, get_world.
  rewrite H. destruct c; [contradiction | reflexivity | reflexivity].
Qed.

Lemma get_thread_context_id_inv (w w' : world) (c : pyval) :
  get_thread_context_id w = (Ok c, w') -> w' = w /\ has_context w c.
Proof.
  unfold get_thread_context_id, bind, get_world, has_context.
  destruct (w_tls w !! w_thread w) as [v|] eqn:E; simpl.
  - destruct v; unfold raise, ret; intros H; inversion H; subst;
      repeat split; congruence.
  - unfold raise; intros H; inversion H.
Qed.

Lemma log_message_branch_set (w : world) (c : pyval) log_data level :
  has_context w c ->
  log_message_branch log_data level w =
    (Ok WithContext,
     if Nat.leb DEBUG level
     then advance w 0 [EvLog level (ctx_line c log_data)] else w).
Proof.
  intros H. unfold log_message_branch, bind.
  rewrite (get_thread_context_id_set w c H).
  destruct H as [_ Hc].
  destruct c; [contradiction | |];
    unfold format_message, logger_log;
    destruct (Nat.leb DEBUG level);
    unfold emit, ret, bind, advance; destruct w; simpl;
    rewrite ?Nat.add_0_r; reflexivity.
Qed.

Lemma log_message_debug (w : world) (c : pyval) log_data :
  has_context w c ->
  log_message log_data DEBUG w =
    (Ok tt, advance w 0 [EvLog DEBUG (ctx_line c log_data)]).
Proof.
  intros H. unfold log_message, bind.
  rewrite (log_message_branch_set w c log_data DEBUG H). reflexivity.
Qed.

(** C9.  On a thread whose context id is not set, [log_message] raises and
    emits nothing; [clear_thread_context_id] leaves the thread in that
    state; and whenever [log_message] returns, it took the branch that
    prefixes the context id, with a stored id that is not [None]: the
    branch for a missing id is never taken. *)
Theorem log_message_needs_context_id :
  (forall (w : world) log_data level,
      w_tls w !! w_thread w = None \/ w_tls w !! w_thread w = Some PyNone ->
      log_message log_data level w =
        (Raise (Exn Exception "invalid thread_context_id" None), w)) /\
  (forall (w : world) log_data level,
      exists w',
        clear_thread_context_id w = (Ok tt, w') /\
        w_trace w' = w_trace w /\
        log_message log_data level w' =
          (Raise (Exn Exception "invalid thread_context_id" None), w')) /\
  (forall (w w' : world) log_data level branch,
      log_message_branch log_data level w = (Ok branch, w') ->
      branch = WithContext /\
      exists c, has_context w c /\
        (w_trace w' = w_trace w \/
         w_trace w' = w_trace w ++ [EvLog level (ctx_line c log_data)])).
Proof.
  assert (Hunset : forall (w : world) log_data level,
             w_tls w !! w_thread w = None ->
             log_message log_data level w =
               (Raise (Exn Exception "invalid thread_context_id" None), w)).
  { intros w d l H. unfold log_message, log_message_branch, bind.
    rewrite (get_thread_context_id_unset w H). reflexivity. }
  split.
  { intros w d l [H | H]; [apply Hunset, H|].
    unfold log_message, log_message_branch, bind, get_thread_context_id,
      bind, get_world.
    rewrite H. reflexivity. }
  split.
  - intros w d l. unfold clear_thread_context_id, bind, get_world.
    destruct (w_tls w !! w_thread w) as [v|] eqn:E.
    + eexists. split; [reflexivity|]. split; [reflexivity|].
      apply Hunset. simpl. apply lookup_delete_eq.
    + exists w. split; [reflexivity|]. split; [reflexivity|].
      apply Hunset, E.
  - intros w w' d l b H.
    assert (exists c, has_context w c) as [c Hc].
    { unfold log_message_branch, bind in H.
      destruct (get_thread_context_id w) as [[c|e] w1] eqn:G;
        [|inversion H].
      apply get_thread_context_id_inv in G. exists c. tauto. }
    rewrite (log_message_branch_set w c d l Hc) in H.
    destruct (Nat.leb DEBUG l); inversion H; subst;
      (split; [reflexivity|]); exists c; (split; [exact Hc|]);
      [right | left]; reflexivity.
Qed.

Lemma log_message_needs_context_id_witness :
  log_message "hello" DEBUG
    {| w_thread := 1; w_tls := ∅; w_fs := ∅; w_calls := 0; w_trace := [] |} =
  (Raise (Exn Exception "invalid thread_context_id" None),
   {| w_thread := 1; w_tls := ∅; w_fs := ∅; w_calls := 0; w_trace := [] |}).
Proof.
  apply (proj1 log_message_needs_context_id). left. reflexivity.
Defined.

(** ** The retrying invokers *)

Section Retry.

Import MultiModel.

Variable llm : client.
Variable messages : list message.

Lemma ainvoke_advance (w : world) :
  ainvoke llm messages w =
    (llm (w_calls w) messages, advance w 1 [EvInvoke messages]).
Proof.
  unfold ainvoke, advance. rewrite Nat.add_1_r. reflexivity.
Qed.

Lemma emit_advance (ev : event) (w : world) :
  emit ev w = (Ok tt, advance w 0 [ev]).
Proof. unfold emit, advance. rewrite Nat.add_0_r. reflexivity. Qed.

(** The line logged for a failed attempt at index [i]. *)
Definition attempt_line (i retries : nat) (e : exn) : string :=
  "API call attempt " +:+ pretty (i + 1) +:+ "/" +:+
  pretty retries +:+ " failed: " +:+ exn_str e.

(** The events of one failed attempt on a thread with context id [c]. *)
Definition failed_attempt (c : pyval) (retries i : nat) (e : exn)
    : list event :=
  [EvInvoke messages; EvLog DEBUG (ctx_line c (attempt_line i retries e))].

(** [n] failed attempts from index [i], each followed by its backoff. *)
Fixpoint backoff_trace (c : pyval) (retries : nat) (errs : nat -> exn)
    (i n : nat) : list event :=
  match n with
  | O => []
  | S n' =>
      failed_attempt c retries i (errs i) ++ [EvSleep (2 ^ i)] ++
      backoff_trace c retries errs (S i) n'
  end.

Lemma loop_step_ok retries i remaining (w : world) (r : AIMessage) :
  llm (w_calls w) messages = Ok r ->
  call_llm_with_retry_loop llm messages retries i (S remaining) w =
    (Ok (Some r), advance w 1 [EvInvoke messages]).
Proof.
  intros H. cbn [call_llm_with_retry_loop]. unfold try_except, bind.
  rewrite ainvoke_advance, H. reflexivity.
Qed.

Lemma loop_step_fail_last retries i remaining (w : world) c (e : exn) :
  has_context w c ->
  llm (w_calls w) messages = Raise e ->
  i = retries - 1 ->
  call_llm_with_retry_loop llm messages retries i (S remaining) w =
    (Raise (Exn Exception "API call failed after all retries" (Some e)),
     advance w 1 (failed_attempt c retries i e)).
Proof.
  intros Hc H Hi. cbn [call_llm_with_retry_loop]. unfold try_except, bind.
  rewrite ainvoke_advance, H.
  cbn [existsb]. rewrite isinstance_Exception. cbn [orb].
  rewrite (log_message_debug _ c _ (has_context_advance w c 1 _ Hc)).
  rewrite advance_advance.
  replace (Nat.eqb i (retries - 1)) with true
    by (symmetry; apply Nat.eqb_eq; exact Hi).
  unfold raise, failed_attempt, attempt_line. reflexivity.
Qed.

Lemma loop_step_fail_next retries i remaining (w : world) c (e : exn) :
  has_context w c ->
  llm (w_calls w) messages = Raise e ->
  i <> retries - 1 ->
  call_llm_with_retry_loop llm messages retries i (S remaining) w =
    call_llm_with_retry_loop llm messages retries (S i) remaining
      (advance w 1 (failed_attempt c retries i e ++ [EvSleep (2 ^ i)])).
Proof.
  intros Hc H Hi. cbn [call_llm_with_retry_loop]. unfold try_except, bind.
  rewrite ainvoke_advance, H.
  cbn [existsb]. rewrite isinstance_Exception. cbn [orb].
  rewrite (log_message_debug _ c _ (has_context_advance w c 1 _ Hc)).
  rewrite advance_advance.
  replace (Nat.eqb i (retries - 1)) with false
    by (symmetry; apply Nat.eqb_neq; exact Hi).
  unfold sleep. rewrite emit_advance, advance_advance.
  unfold failed_attempt, attempt_line. reflexivity.
Qed.

(** [n] consecutive failures, none at the last index, are skipped over
    with a backoff after each. *)
Lemma loop_failures c retries (errs : nat -> exn) :
  forall n i remaining (w : world),
    has_context w c ->
    (forall j, j < n -> llm (w_calls w + j) messages = Raise (errs (i + j))) ->
    i + n < retries ->
    call_llm_with_retry_loop llm messages retries i (n + remaining) w =
      call_llm_with_retry_loop llm messages retries (i + n) remaining
        (advance w n (backoff_trace c retries errs i n)).
Proof.
  induction n as [|n IH]; intros i remaining w Hc Hf Hlt.
  - cbn [backoff_trace]. rewrite advance_0_nil, Nat.add_0_r. reflexivity.
  - cbn [Nat.add backoff_trace].
    rewrite (loop_step_fail_next retries i (n + remaining) w c (errs i)).
    + rewrite IH.
      * rewrite advance_advance.
        replace (S i + n) with (i + S n) by lia.
        replace (1 + n) with (S n) by lia.
        rewrite <- !app_assoc. reflexivity.
      * apply has_context_advance, Hc.
      * intros j Hj. unfold advance; cbn [w_calls].
        replace (w_calls w + 1 + j) with (w_calls w + S j) by lia.
        rewrite (Hf (S j)) by lia. f_equal. f_equal. lia.
      * lia.
    + exact Hc.
    + specialize (Hf 0 ltac:(lia)). rewrite !Nat.add_0_r in Hf. exact Hf.
    + lia.
Qed.

Lemma sleeps_of_backoff_trace c retries errs :
  forall n i,
    sleeps_of (backoff_trace c retries errs i n) =
      map (fun k => 2 ^ k) (seq i n).
Proof.
  induction n as [|n IH]; intros i; [reflexivity|].
  cbn [backoff_trace seq map]. unfold failed_attempt.
  cbn [app sleeps_of]. rewrite IH. reflexivity.
Qed.

Lemma invocations_of_backoff_trace c retries errs :
  forall n i, invocations_of (backoff_trace c retries errs i n) = n.
Proof.
  induction n as [|n IH]; intros i; [reflexivity|].
  cbn [backoff_trace]. unfold failed_attempt.
  cbn [app invocations_of]. rewrite IH. reflexivity.
Qed.

(** After [k] failures a success is returned, with [k] sleeps of
    [2^0 .. 2^(k-1)] seconds in between. *)
Lemma retry_succeeds_after c retries (errs : nat -> exn) k r (w : world) :
  has_context w c ->
  k < retries ->
  (forall j, j < k -> llm (w_calls w + j) messages = Raise (errs j)) ->
  llm (w_calls w + k) messages = Ok r ->
  _call_llm_with_retry llm messages retries w =
    (Ok (Some r),
     advance w (k + 1)
       (backoff_trace c retries errs 0 k ++ [EvInvoke messages])).
Proof.
  intros Hc Hk Hf Hok. unfold _call_llm_with_retry.
  replace retries with (k + S (retries - S k)) at 2 by lia.
  rewrite (loop_failures c retries errs k 0 _ w Hc) by (auto; lia).
  rewrite (loop_step_ok retries (0 + k) _ _ r).
  - rewrite advance_advance. reflexivity.
  - exact Hok.
Qed.

(** With [retries = n + 1] and every attempt failing, the invoker raises
    after exactly [n + 1] attempts, having slept after each but the last,
    and the exception raised has the last failure as its cause. *)
Lemma retry_exhausted c n (errs : nat -> exn) (w : world) :
  has_context w c ->
  (forall j, j <= n -> llm (w_calls w + j) messages = Raise (errs j)) ->
  _call_llm_with_retry llm messages (S n) w =
    (Raise (Exn Exception "API call failed after all retries"
              (Some (errs n))),
     advance w (n + 1)
       (backoff_trace c (S n) errs 0 n ++
        failed_attempt c (S n) n (errs n))).
Proof.
  intros Hc Hf. unfold _call_llm_with_retry.
  replace (S n) with (n + 1) at 2 by lia.
  rewrite (loop_failures c (S n) errs n 0 1 w Hc)
    by (try lia; intros j Hj; apply Hf; lia).
  rewrite (loop_step_fail_last (S n) (0 + n) 0 _ c (errs n)).
  - rewrite advance_advance. reflexivity.
  - apply has_context_advance, Hc.
  - apply Hf. lia.
  - lia.
Qed.

End Retry.

Section LegacyRetry.

Import Legacy.

Variable llm : client.
Variable messages : list message.

(** [n] failed attempts of the earlier invoker: each is printed, none is
    followed by a sleep. *)
Fixpoint legacy_trace (errs : nat -> exn) (i n : nat) : list event :=
  match n with
  | O => []
  | S n' =>
      [EvInvoke messages; EvPrint (exn_str (errs i))] ++
      legacy_trace errs (S i) n'
  end.

Lemma legacy_loop_failures (errs : nat -> exn) :
  forall n i remaining (w : world),
    (forall j, j < n -> llm (w_calls w + j) messages = Raise (errs (i + j))) ->
    call_llm_agent_with_retry_loop llm messages (n + remaining) w =
      call_llm_agent_with_retry_loop llm messages remaining
        (advance w n (legacy_trace errs i n)).
Proof.
  induction n as [|n IH]; intros i remaining w Hf.
  - cbn [legacy_trace]. rewrite advance_0_nil. reflexivity.
  - cbn [Nat.add legacy_trace call_llm_agent_with_retry_loop].
    unfold try_except at 1. rewrite ainvoke_advance.
    pose proof (Hf 0 ltac:(lia)) as H0. rewrite !Nat.add_0_r in H0.
    rewrite H0. cbn [existsb]. rewrite isinstance_Exception. cbn [orb].
    unfold bind at 1, print. rewrite emit_advance, advance_advance.
    rewrite (IH (S i)).
    + rewrite advance_advance. replace (1 + 0 + n) with (S n) by lia.
      rewrite <- !app_assoc. reflexivity.
    + intros j Hj. unfold advance; cbn [w_calls].
      replace (w_calls w + (1 + 0) + j) with (w_calls w + S j) by lia.
      rewrite (Hf (S j)) by lia. f_equal. f_equal. lia.
Qed.

Lemma sleeps_of_legacy_trace errs : forall n i,
  sleeps_of (legacy_trace errs i n) = [].
Proof.
  induction n as [|n IH]; intros i; [reflexivity|].
  cbn [legacy_trace app sleeps_of]. apply IH.
Qed.

Lemma legacy_succeeds_after (errs : nat -> exn) k retries r (w : world) :
  k < retries ->
  (forall j, j < k -> llm (w_calls w + j) messages = Raise (errs j)) ->
  llm (w_calls w + k) messages = Ok r ->
  call_llm_agent_with_retry llm messages retries w =
    (Ok r, advance w (k + 1) (legacy_trace errs 0 k ++ [EvInvoke messages])).
Proof.
  intros Hk Hf Hok. unfold call_llm_agent_with_retry.
  replace retries with (k + S (retries - S k)) by lia.
  rewrite (legacy_loop_failures errs k 0) by exact Hf.
  cbn [call_llm_agent_with_retry_loop]. unfold try_except.
  rewrite ainvoke_advance. unfold advance at 1; cbn [w_calls].
  rewrite Hok, advance_advance. reflexivity.
Qed.

Lemma legacy_exhausted (errs : nat -> exn) n (w : world) :
  (forall j, j < n -> llm (w_calls w + j) messages = Raise (errs j)) ->
  call_llm_agent_with_retry llm messages n w =
    (Raise (Exn Exception "API call failed after retries" None),
     advance w n (legacy_trace errs 0 n)).
Proof.
  intros Hf. unfold call_llm_agent_with_retry.
  replace n with (n + 0) at 1 by lia.
  rewrite (legacy_loop_failures errs n 0) by exact Hf.
  reflexivity.
Qed.

End LegacyRetry.

(** C1.  On a thread whose context id is set, [_call_llm_with_retry] with
    a client that fails twice and then succeeds returns the success after
    three attempts and exactly two sleeps, of [2^0] and [2^1] seconds, one
    after each failure; with [retries = 3] and a client that always fails it
    makes exactly three attempts, sleeping [2^0] and [2^1] seconds between
    them, and raises an exception whose cause is the last failure.  The
    earlier agent's [call_llm_agent_with_retry] returns the same success and
    gives up after exactly [retries] attempts as well, but never sleeps, and
    the exception it raises has no cause. *)
Theorem retrying_invoker_backoff :
  forall (llm : client) (messages : list message) (errs : nat -> exn)
         (w : world) (c : pyval),
    has_context w c ->
    (forall (r : AIMessage) (retries : nat),
        3 <= retries ->
        llm (w_calls w) messages = Raise (errs 0) ->
        llm (w_calls w + 1) messages = Raise (errs 1) ->
        llm (w_calls w + 2) messages = Ok r ->
        let evs :=
          failed_attempt messages c retries 0 (errs 0) ++ [EvSleep (2 ^ 0)] ++
          failed_attempt messages c retries 1 (errs 1) ++ [EvSleep (2 ^ 1)] ++
          [EvInvoke messages] in
        MultiModel._call_llm_with_retry llm messages retries w =
          (Ok (Some r), advance w 3 evs) /\
        invocations_of evs = 3 /\ sleeps_of evs = [2 ^ 0; 2 ^ 1] /\
        Legacy.call_llm_agent_with_retry llm messages retries w =
          (Ok r, advance w 3 (legacy_trace messages errs 0 2 ++
                              [EvInvoke messages])) /\
        sleeps_of (legacy_trace messages errs 0 2 ++ [EvInvoke messages]) =
          []) /\
    ((forall k, llm (w_calls w + k) messages = Raise (errs k)) ->
        let evs :=
          failed_attempt messages c 3 0 (errs 0) ++ [EvSleep (2 ^ 0)] ++
          failed_attempt messages c 3 1 (errs 1) ++ [EvSleep (2 ^ 1)] ++
          failed_attempt messages c 3 2 (errs 2) in
        MultiModel._call_llm_with_retry llm messages 3 w =
          (Raise (Exn Exception "API call failed after all retries"
                    (Some (errs 2))),
           advance w 3 evs) /\
        invocations_of evs = 3 /\ sleeps_of evs = [2 ^ 0; 2 ^ 1] /\
        Legacy.call_llm_agent_with_retry llm messages 3 w =
          (Raise (Exn Exception "API call failed after retries" None),
           advance w 3 (legacy_trace messages errs 0 3)) /\
        invocations_of (legacy_trace messages errs 0 3) = 3 /\
        sleeps_of (legacy_trace messages errs 0 3) = []).
Proof.
  intros llm messages errs w c Hc. split.
  - intros r retries Hn H0 H1 H2 evs.
    assert (Hf : forall j, j < 2 ->
                 llm (w_calls w + j) messages = Raise (errs j)).
    { intros j Hj. destruct j as [|[|j]]; [|exact H1|lia].
      rewrite Nat.add_0_r. exact H0. }
    split; [|split; [|split; [|split]]].
    + rewrite (retry_succeeds_after llm messages c retries errs 2 r w)
        by (auto; lia).
      subst evs. cbn [backoff_trace Nat.add].
      rewrite <- !app_assoc. reflexivity.
    + reflexivity.
    + reflexivity.
    + rewrite (legacy_succeeds_after llm messages errs 2 retries r w)
        by (auto; lia).
      reflexivity.
    + reflexivity.
  - intros Hf evs. split; [|split; [|split; [|split; [|split]]]].
    + rewrite (retry_exhausted llm messages c 2 errs w Hc)
        by (intros; apply Hf).
      subst evs. cbn [backoff_trace Nat.add].
      rewrite <- !app_assoc. reflexivity.
    + reflexivity.
    + reflexivity.
    + rewrite (legacy_exhausted llm messages errs 3 w)
        by (intros; apply Hf).
      reflexivity.
    + reflexivity.
    + reflexivity.
Qed.

(** A client that fails its first two calls and then answers, and one that
    never answers. *)
Definition timeout_error (k : nat) : exn :=
  Exn Exception ("timeout " +:+ pretty k) None.

Definition flaky_client : client :=
  fun k _ =>
    match k with
    | 0 | 1 => Raise (timeout_error k)
    | _ => Ok {| content := JStr "[]" |}
    end.

Definition dead_client : client := fun k _ => Raise (timeout_error k).

(** A fresh run on thread 7 whose context id has been set. *)
Definition world0 : world :=
  {| w_thread := 7; w_tls := {[ 7 := PyStr "aB3xZ-7" ]}; w_fs := ∅;
     w_calls := 0; w_trace := [] |}.

Lemma world0_has_context : has_context world0 (PyStr "aB3xZ-7").
Proof. split; [reflexivity | discriminate]. Defined.

Lemma retrying_invoker_backoff_witness :
  (exists w',
      MultiModel._call_llm_with_retry flaky_client [] 5 world0 =
        (Ok (Some {| content := JStr "[]" |}), w') /\
      sleeps_of (w_trace w') = [1; 2]) /\
  (exists w',
      MultiModel._call_llm_with_retry dead_client [] 3 world0 =
        (Raise (Exn Exception "API call failed after all retries"
                  (Some (timeout_error 2))), w') /\
      sleeps_of (w_trace w') = [1; 2] /\ w_calls w' = 3).
Proof.
  split.
  - destruct (retrying_invoker_backoff flaky_client [] timeout_error world0
                _ world0_has_context) as [H _].
    destruct (H {| content := JStr "[]" |} 5) as (E & _);
      [lia | reflexivity | reflexivity | reflexivity |].
    eexists. split; [exact E | reflexivity].
  - destruct (retrying_invoker_backoff dead_client [] timeout_error world0
                _ world0_has_context) as [_ H].
    destruct H as (E & _); [reflexivity|].
    eexists. split; [exact E | split; reflexivity].
Defined.

(** A thread on which no context id was set. *)
Definition bare_world : world :=
  {| w_thread := 7; w_tls := ∅; w_fs := ∅; w_calls := 0; w_trace := [] |}.

(** The earlier agent's invoker, on the client that fails twice and then
    answers, returns the answer without a single sleep; and on a thread
    without a context id the invoker of the multi-provider agent gives up
    at the first failure, on the exception its logging raises. *)
Lemma legacy_invoker_never_sleeps :
  (exists r w',
      Legacy.call_llm_agent_with_retry flaky_client [] 15 world0 =
        (Ok r, w') /\
      invocations_of (w_trace w') = 3 /\
      sleeps_of (w_trace w') = [] /\
      sleeps_of (w_trace w') <> [2 ^ 0; 2 ^ 1]) /\
  (exists w',
      MultiModel._call_llm_with_retry flaky_client [] 5 bare_world =
        (Raise (Exn Exception "invalid thread_context_id" None), w') /\
      invocations_of (w_trace w') = 1 /\
      sleeps_of (w_trace w') = []).
Proof.
  split.
  - eexists. eexists. split; [reflexivity|].
    split; [reflexivity|]. split; [reflexivity | discriminate].
  - eexists. split; [reflexivity|]. split; reflexivity.
Qed.

(** ** Construction of the multi-provider agent *)

Import MultiModel.

Lemma str_in_supported (p : string) :
  str_in p supported_providers = true <->
  p = "openai" \/ p = "google" \/ p = "bedrock".
Proof.
  unfold str_in, supported_providers. cbn [existsb].
  rewrite !orb_true_iff, !String.eqb_eq. intuition discriminate.
Qed.



(** ** Base64 *)

Section Base64Facts.

Import Base64.

Lemma b64_index_char (n : N) :
  (n < 64)%N ->
  b64_index (b64_char n) = Some n /\ Ascii.eqb (b64_char n) pad = false.
Proof.
  intros Hn. rewrite <- (N2Nat.id n).
  assert (Hk : N.to_nat n < 64) by lia.
  generalize dependent (N.to_nat n). clear Hn n. intros k Hk.
  do 64 (destruct k as [|k]; [split; vm_compute; reflexivity|]).
  lia.
Qed.

Lemma byte_of_to_N (a : byte) : byte_of_N (Byte.to_N a) = a.
Proof. unfold byte_of_N. rewrite Byte.of_to_N. reflexivity. Qed.

Lemma to_N_lt_256 (a : byte) : (Byte.to_N a < 256)%N.
Proof. pose proof (Byte.to_N_bounded a). lia. Qed.

(** Linear arithmetic with division and remainder by constants. *)
Ltac div_lia := zify; Z.to_euclidean_division_equations; lia.

Lemma list_ind3 (A : Type) (P : list A -> Prop) :
  P [] ->
  (forall a, P [a]) ->
  (forall a b, P [a; b]) ->
  (forall a b c rest, P rest -> P (a :: b :: c :: rest)) ->
  forall l, P l.
Proof.
  intros H0 H1 H2 H3.
  assert (H : forall l, P l /\ (forall a, P (a :: l)) /\
                        (forall a b, P (a :: b :: l))).
  { induction l as [|x l (IHa & IHb & IHc)].
    - repeat split; auto.
    - repeat split; auto. }
  intros l. apply H.
Qed.

Lemma b64encode_chars_nil (bs : list byte) :
  b64encode_chars bs = [] -> bs = [].
Proof.
  destruct bs as [|a [|b [|c rest]]]; [reflexivity | | |];
    cbn [b64encode_chars app]; discriminate.
Qed.

Lemma decode_last_3 (a b c : byte) :
  let x := Byte.to_N a in
  let y := Byte.to_N b in
  let z := Byte.to_N c in
  decode_last (b64_char (x / 4)) (b64_char ((x mod 4) * 16 + y / 16))
    (b64_char ((y mod 16) * 4 + z / 64)) (b64_char (z mod 64)) =
    Some [a; b; c].
Proof.
  intros x y z.
  pose proof (to_N_lt_256 a) as Ha. pose proof (to_N_lt_256 b) as Hb.
  pose proof (to_N_lt_256 c) as Hc. fold x in Ha. fold y in Hb. fold z in Hc.
  destruct (b64_index_char (x / 4)) as [E1 _]; [div_lia|].
  destruct (b64_index_char ((x mod 4) * 16 + y / 16)) as [E2 _]; [div_lia|].
  destruct (b64_index_char ((y mod 16) * 4 + z / 64)) as [E3 P3]; [div_lia|].
  destruct (b64_index_char (z mod 64)) as [E4 P4]; [div_lia|].
  unfold decode_last. rewrite E1, E2, P3, E3, P4, E4.
  replace (x / 4 * 4 + ((x mod 4) * 16 + y / 16) / 16)%N with x by div_lia.
  replace ((((x mod 4) * 16 + y / 16) mod 16) * 16 +
           ((y mod 16) * 4 + z / 64) / 4)%N with y by div_lia.
  replace ((((y mod 16) * 4 + z / 64) mod 4) * 64 + z mod 64)%N
    with z by div_lia.
  unfold x, y, z. rewrite !byte_of_to_N. reflexivity.
Qed.

Lemma decode_full_3 (a b c : byte) :
  let x := Byte.to_N a in
  let y := Byte.to_N b in
  let z := Byte.to_N c in
  decode_full (b64_char (x / 4)) (b64_char ((x mod 4) * 16 + y / 16))
    (b64_char ((y mod 16) * 4 + z / 64)) (b64_char (z mod 64)) =
    Some [a; b; c].
Proof.
  intros x y z.
  pose proof (to_N_lt_256 a) as Ha. pose proof (to_N_lt_256 b) as Hb.
  pose proof (to_N_lt_256 c) as Hc. fold x in Ha. fold y in Hb. fold z in Hc.
  destruct (b64_index_char (x / 4)) as [E1 _]; [div_lia|].
  destruct (b64_index_char ((x mod 4) * 16 + y / 16)) as [E2 _]; [div_lia|].
  destruct (b64_index_char ((y mod 16) * 4 + z / 64)) as [E3 _]; [div_lia|].
  destruct (b64_index_char (z mod 64)) as [E4 _]; [div_lia|].
  unfold decode_full. rewrite E1, E2, E3, E4.
  replace (x / 4 * 4 + ((x mod 4) * 16 + y / 16) / 16)%N with x by div_lia.
  replace ((((x mod 4) * 16 + y / 16) mod 16) * 16 +
           ((y mod 16) * 4 + z / 64) / 4)%N with y by div_lia.
  replace ((((y mod 16) * 4 + z / 64) mod 4) * 64 + z mod 64)%N
    with z by div_lia.
  unfold x, y, z. rewrite !byte_of_to_N. reflexivity.
Qed.

Lemma decode_last_2 (a b : byte) :
  let x := Byte.to_N a in
  let y := Byte.to_N b in
  decode_last (b64_char (x / 4)) (b64_char ((x mod 4) * 16 + y / 16))
    (b64_char ((y mod 16) * 4)) pad = Some [a; b].
Proof.
  intros x y.
  pose proof (to_N_lt_256 a) as Ha. pose proof (to_N_lt_256 b) as Hb.
  fold x in Ha. fold y in Hb.
  destruct (b64_index_char (x / 4)) as [E1 _]; [div_lia|].
  destruct (b64_index_char ((x mod 4) * 16 + y / 16)) as [E2 _]; [div_lia|].
  destruct (b64_index_char ((y mod 16) * 4)) as [E3 P3]; [div_lia|].
  unfold decode_last. rewrite E1, E2, P3, E3, Ascii.eqb_refl.
  replace (x / 4 * 4 + ((x mod 4) * 16 + y / 16) / 16)%N with x by div_lia.
  replace ((((x mod 4) * 16 + y / 16) mod 16) * 16 +
           ((y mod 16) * 4) / 4)%N with y by div_lia.
  unfold x, y. rewrite !byte_of_to_N. reflexivity.
Qed.

Lemma decode_last_1 (a : byte) :
  let x := Byte.to_N a in
  decode_last (b64_char (x / 4)) (b64_char ((x mod 4) * 16)) pad pad =
    Some [a].
Proof.
  intros x. pose proof (to_N_lt_256 a) as Ha. fold x in Ha.
  destruct (b64_index_char (x / 4)) as [E1 _]; [div_lia|].
  destruct (b64_index_char ((x mod 4) * 16)) as [E2 _]; [div_lia|].
  unfold decode_last. rewrite E1, E2, Ascii.eqb_refl.
  replace (x / 4 * 4 + ((x mod 4) * 16) / 16)%N with x by div_lia.
  unfold x. rewrite byte_of_to_N. reflexivity.
Qed.

(** Decoding undoes encoding, on every byte sequence. *)
Lemma b64decode_chars_encode (bs : list byte) :
  b64decode_chars (b64encode_chars bs) = Some bs.
Proof.
  induction bs as [|a|a b|a b c rest IH] using list_ind3.
  - reflexivity.
  - cbn [b64encode_chars b64decode_chars]. apply decode_last_1.
  - cbn [b64encode_chars b64decode_chars]. apply decode_last_2.
  - cbn [b64encode_chars app b64decode_chars].
    destruct (b64encode_chars rest) as [|c0 cs] eqn:E.
    + apply b64encode_chars_nil in E. subst rest. apply decode_last_3.
    + rewrite decode_full_3, IH. reflexivity.
Qed.

Lemma b64decode_b64encode (bs : list byte) :
  b64decode (b64encode bs) = Some bs.
Proof.
  unfold b64decode, b64encode.
  rewrite list_ascii_of_string_of_list_ascii.
  apply b64decode_chars_encode.
Qed.

End Base64Facts.

(** C8.  For every file and its bytes, [get_image_as_base64] (of either
    agent) returns the Base64 text of those bytes, and decoding that text
    gives the bytes back. *)
Theorem image_codec_round_trip :
  forall (w : world) (image_path : string) (data : list byte),
    w_fs w !! image_path = Some (File data) ->
    exists text,
      MultiModel.get_image_as_base64 image_path w = (Ok (Some text), w) /\
      Legacy.get_image_as_base64 image_path w = (Ok (Some text), w) /\
      Base64.b64decode text = Some data.
Proof.
  intros w image_path data H.
  exists (Base64.b64encode data). repeat split.
  - unfold MultiModel.get_image_as_base64, try_except, bind,
      Io.read_bytes, Io.open_read, bind, get_world.
    rewrite H. reflexivity.
  - unfold Legacy.get_image_as_base64, Io.path_exists, try_except, bind,
      Io.read_bytes, Io.open_read, bind, get_world.
    rewrite H. unfold ret. cbn [negb]. rewrite H. reflexivity.
  - apply b64decode_b64encode.
Qed.

(** A world holding a three-byte and a four-byte file. *)
Definition image_world : world :=
  {| w_thread := 7; w_tls := {[ 7 := PyStr "aB3xZ-7" ]};
     w_fs := {[ "img/section_1.jpg" := File [x4d; x61; x6e];
                "img/section_2.jpg" := File [xff; xd8; xff; xe0] ]};
     w_calls := 0; w_trace := [] |}.

Lemma image_codec_round_trip_witness :
  exists text,
    MultiModel.get_image_as_base64 "img/section_2.jpg" image_world =
      (Ok (Some text), image_world) /\
    Legacy.get_image_as_base64 "img/section_2.jpg" image_world =
      (Ok (Some text), image_world) /\
    Base64.b64decode text = Some [xff; xd8; xff; xe0].
Proof.
  apply (image_codec_round_trip image_world "img/section_2.jpg").
  vm_compute. reflexivity.
Defined.

Example b64encode_Man : Base64.b64encode [x4d; x61; x6e] = "TWFu".
Proof. reflexivity. Qed.

Example b64encode_jpeg_magic :
  Base64.b64encode [xff; xd8; xff; xe0] = "/9j/4A==".
Proof. reflexivity. Qed.

(** ** Natural sort order *)

Section LexOrder.

Import Natsort.

Variable A : Type.
Variable cmp : A -> A -> comparison.
Hypothesis cmp_refl : forall a, cmp a a = Eq.
Hypothesis cmp_eq : forall a b, cmp a b = Eq -> a = b.
Hypothesis cmp_antisym : forall a b, cmp b a = CompOpp (cmp a b).
Hypothesis cmp_trans : forall a b c,
  cmp a b = Lt -> cmp b c = Lt -> cmp a c = Lt.

Lemma lex_compare_refl (xs : list A) : lex_compare cmp xs xs = Eq.
Proof.
  induction xs as [|x xs IH]; cbn [lex_compare]; [reflexivity|].
  rewrite cmp_refl. exact IH.
Qed.

Lemma lex_compare_eq (xs ys : list A) :
  lex_compare cmp xs ys = Eq -> xs = ys.
Proof.
  revert ys. induction xs as [|x xs IH]; intros [|y ys];
    cbn [lex_compare]; try discriminate; [reflexivity|].
  destruct (cmp x y) eqn:E; try discriminate.
  intros H. apply cmp_eq in E. apply IH in H. congruence.
Qed.

Lemma lex_compare_antisym (xs ys : list A) :
  lex_compare cmp ys xs = CompOpp (lex_compare cmp xs ys).
Proof.
  revert ys. induction xs as [|x xs IH]; intros [|y ys];
    cbn [lex_compare]; try reflexivity.
  rewrite (cmp_antisym x y). destruct (cmp x y); cbn [CompOpp];
    [apply IH | reflexivity | reflexivity].
Qed.

Lemma lex_compare_trans (xs ys zs : list A) :
  lex_compare cmp xs ys = Lt -> lex_compare cmp ys zs = Lt ->
  lex_compare cmp xs zs = Lt.
Proof.
  revert ys zs. induction xs as [|x xs IH]; intros [|y ys] [|z zs];
    cbn [lex_compare]; try discriminate; try reflexivity.
  destruct (cmp x y) eqn:Exy; try discriminate;
    destruct (cmp y z) eqn:Eyz; try discriminate; intros H1 H2.
  - apply cmp_eq in Exy, Eyz. subst. rewrite cmp_refl. eapply IH; eauto.
  - apply cmp_eq in Exy. subst. rewrite Eyz. reflexivity.
  - apply cmp_eq in Eyz. subst. rewrite Exy. reflexivity.
  - rewrite (cmp_trans x y z Exy Eyz). reflexivity.
Qed.

End LexOrder.

Section NatsortOrder.

Import Natsort.

Lemma ascii_compare_refl a : ascii_compare a a = Eq.
Proof. apply N.compare_refl. Qed.

Lemma ascii_compare_eq a b : ascii_compare a b = Eq -> a = b.
Proof.
  unfold ascii_compare. intros H. apply N.compare_eq_iff in H.
  rewrite <- (ascii_N_embedding a), <- (ascii_N_embedding b), H.
  reflexivity.
Qed.

Lemma ascii_compare_antisym a b :
  ascii_compare b a = CompOpp (ascii_compare a b).
Proof. apply N.compare_antisym. Qed.

Lemma ascii_compare_trans a b c :
  ascii_compare a b = Lt -> ascii_compare b c = Lt -> ascii_compare a c = Lt.
Proof.
  unfold ascii_compare. rewrite !N.compare_lt_iff. lia.
Qed.

Lemma chunk_compare_refl a : chunk_compare a a = Eq.
Proof.
  destruct a; cbn [chunk_compare].
  - apply lex_compare_refl, ascii_compare_refl.
  - apply N.compare_refl.
Qed.

Lemma chunk_compare_eq a b : chunk_compare a b = Eq -> a = b.
Proof.
  destruct a, b; cbn [chunk_compare]; try discriminate; intros H.
  - f_equal. eapply lex_compare_eq; [apply ascii_compare_eq | exact H].
  - f_equal. apply N.compare_eq_iff, H.
Qed.

Lemma chunk_compare_antisym a b :
  chunk_compare b a = CompOpp (chunk_compare a b).
Proof.
  destruct a, b; cbn [chunk_compare]; try reflexivity.
  - apply lex_compare_antisym, ascii_compare_antisym.
  - apply N.compare_antisym.
Qed.

Lemma chunk_compare_trans a b c :
  chunk_compare a b = Lt -> chunk_compare b c = Lt -> chunk_compare a c = Lt.
Proof.
  destruct a, b, c; cbn [chunk_compare]; try discriminate; try reflexivity.
  - apply lex_compare_trans;
      [apply ascii_compare_refl | apply ascii_compare_eq
       | apply ascii_compare_trans].
  - rewrite !N.compare_lt_iff. lia.
Qed.

Lemma key_compare_antisym a b :
  key_compare b a = CompOpp (key_compare a b).
Proof. apply lex_compare_antisym, chunk_compare_antisym. Qed.

Lemma key_le_total a b : key_le a b = false -> key_le b a = true.
Proof.
  unfold key_le. rewrite (key_compare_antisym a b).
  destruct (key_compare a b); cbn [CompOpp]; congruence.
Qed.

Lemma key_le_trans a b c :
  key_le a b = true -> key_le b c = true -> key_le a c = true.
Proof.
  unfold key_le, key_compare.
  destruct (lex_compare chunk_compare (natsort_key a) (natsort_key b))
    eqn:Eab; try discriminate;
    destruct (lex_compare chunk_compare (natsort_key b) (natsort_key c))
      eqn:Ebc; try discriminate; intros _ _.
  - apply lex_compare_eq in Eab; [|apply chunk_compare_eq].
    rewrite Eab, Ebc. reflexivity.
  - apply lex_compare_eq in Eab; [|apply chunk_compare_eq].
    rewrite Eab, Ebc. reflexivity.
  - apply lex_compare_eq in Ebc; [|apply chunk_compare_eq].
    rewrite <- Ebc, Eab. reflexivity.
  - rewrite (lex_compare_trans _ chunk_compare chunk_compare_refl
               chunk_compare_eq chunk_compare_trans _ _ _ Eab Ebc).
    reflexivity.
Qed.

(** [a] comes strictly before [b] in natural order. *)
Definition key_lt (a b : string) : Prop := key_compare a b = Lt.

Lemma key_lt_not_ge a b : key_lt a b -> key_le b a = false.
Proof.
  unfold key_lt, key_le. intros H.
  rewrite (key_compare_antisym a b), H. reflexivity.
Qed.

Definition key_sorted (l : list string) : Prop :=
  StronglySorted (fun a b => key_le a b = true) l.

Lemma insert_sorted_Permutation x l :
  Permutation (insert_sorted x l) (x :: l).
Proof.
  induction l as [|y l IH]; cbn [insert_sorted]; [reflexivity|].
  destruct (key_le x y); [reflexivity|].
  rewrite IH. apply perm_swap.
Qed.

Lemma natsorted_Permutation l : Permutation (natsorted l) l.
Proof.
  induction l as [|x l IH]; cbn [natsorted fold_right]; [reflexivity|].
  fold (natsorted l). rewrite insert_sorted_Permutation, IH. reflexivity.
Qed.

Lemma insert_sorted_sorted x l :
  key_sorted l -> key_sorted (insert_sorted x l).
Proof.
  unfold key_sorted. induction l as [|y l IH]; intros Hs;
    cbn [insert_sorted].
  - constructor; constructor.
  - inversion Hs as [|y' l' Hl Hy]; subst.
    destruct (key_le x y) eqn:E.
    + constructor; [exact Hs|]. constructor; [exact E|].
      eapply List.Forall_impl; [|exact Hy].
      intros z Hz. cbn beta in Hz. eapply key_le_trans; eauto.
    + constructor; [apply IH, Hl|].
      rewrite (insert_sorted_Permutation x l).
      constructor; [apply key_le_total, E | exact Hy].
Qed.

Lemma natsorted_sorted l : key_sorted (natsorted l).
Proof.
  induction l as [|x l IH]; cbn [natsorted fold_right].
  - constructor.
  - apply insert_sorted_sorted, IH.
Qed.

Lemma key_sorted_filter (f : string -> bool) l :
  key_sorted l -> key_sorted (List.filter f l).
Proof.
  unfold key_sorted. induction 1 as [|x l Hl IH Hx]; cbn [List.filter].
  - constructor.
  - destruct (f x); [|exact IH]. constructor; [exact IH|].
    apply List.Forall_forall. intros y Hy. apply filter_In in Hy.
    rewrite List.Forall_forall in Hx. apply Hx, Hy.
Qed.

Lemma key_sorted_app_r p l : key_sorted (p ++ l) -> key_sorted l.
Proof.
  unfold key_sorted. induction p as [|x p IH]; cbn [app]; [tauto|].
  intros H. inversion H; subst. apply IH. assumption.
Qed.

(** In a sorted list, an element that sorts strictly before another is
    found before every occurrence of it. *)
Lemma key_sorted_before a b l :
  key_sorted l -> key_lt a b -> In a l -> In b l ->
  forall p q, l = p ++ b :: q -> In a p /\ ~ In a q.
Proof.
  intros Hs Hlt Ha Hb p q ->.
  assert (Hq : ~ In a q).
  { intros Hq. apply key_sorted_app_r in Hs.
    inversion Hs as [|b' q' _ Hall]; subst.
    rewrite List.Forall_forall in Hall. specialize (Hall a Hq).
    rewrite (key_lt_not_ge a b Hlt) in Hall. discriminate. }
  split; [|exact Hq].
  apply in_app_or in Ha as [Ha|Ha]; [exact Ha|].
  destruct Ha as [Ha|Ha]; [|contradiction].
  subst b. unfold key_lt, key_compare in Hlt.
  rewrite lex_compare_refl in Hlt by apply chunk_compare_refl.
  discriminate.
Qed.

End NatsortOrder.

(** ** The order in which a folder's images are processed *)

Section ImageOrder.

Import Natsort.

Lemma image_files_of_In entries f :
  In f (MultiModel.image_files_of entries) <->
  In f entries /\ MultiModel.is_supported f = true.
Proof.
  unfold MultiModel.image_files_of. rewrite filter_In.
  split; intros [H1 H2]; (split; [|exact H2]).
  - eapply Permutation_in; [apply natsorted_Permutation | exact H1].
  - eapply Permutation_in;
      [apply Permutation_sym, natsorted_Permutation | exact H1].
Qed.

Lemma image_files_of_sorted entries :
  key_sorted (MultiModel.image_files_of entries).
Proof. apply key_sorted_filter, natsorted_sorted. Qed.

(** Three elements of a sorted list that sort strictly one before the
    other occur in that order. *)
Lemma key_sorted_three a b c l :
  key_sorted l -> key_lt a b -> key_lt b c ->
  In a l -> In b l -> In c l ->
  exists l1 l2 l3 l4, l = l1 ++ a :: l2 ++ b :: l3 ++ c :: l4.
Proof.
  intros Hs Hab Hbc Ha Hb Hc.
  destruct (in_split b l Hb) as (p & q & E).
  destruct (key_sorted_before a b l Hs Hab Ha Hb p q E) as [Hap _].
  assert (Hcq : In c q).
  { rewrite E in Hc. apply in_app_or in Hc as [Hc|[Hc|Hc]].
    - exfalso. destruct (in_split c p Hc) as (p1 & p2 & Ep).
      assert (El : l = p1 ++ c :: (p2 ++ b :: q)).
      { rewrite E, Ep, <- app_assoc. reflexivity. }
      destruct (key_sorted_before b c l Hs Hbc Hb ltac:(rewrite E;
        apply in_or_app; left; exact Hc) p1 (p2 ++ b :: q) El) as [_ Hn].
      apply Hn, in_or_app. right. left. reflexivity.
    - exfalso. subst c. unfold key_lt, key_compare in Hbc.
      rewrite lex_compare_refl in Hbc by apply chunk_compare_refl.
      discriminate.
    - exact Hc. }
  destruct (in_split a p Hap) as (l1 & l2 & Ep).
  destruct (in_split c q Hcq) as (l3 & l4 & Eq).
  exists l1, l2, l3, l4. rewrite E, Ep, Eq, <- app_assoc. reflexivity.
Qed.

(** The loading loop of the earlier agent skips what the filter drops. *)
Lemma load_table_images_filter folder :
  forall names acc (w : world),
    Legacy.load_table_images folder names acc w =
    Legacy.load_table_images folder
      (List.filter MultiModel.is_supported names) acc w.
Proof.
  induction names as [|f names IH]; intros acc w; [reflexivity|].
  cbn [List.filter Legacy.load_table_images].
  unfold MultiModel.is_supported at 1.
  destruct (PyStr.endswith_any (PyStr.lower f)
              MultiModel.supported_extensions) eqn:E.
  - cbn [Legacy.load_table_images]. rewrite E. unfold bind.
    destruct (print _ w) as [[[]|e] w1]; [|reflexivity].
    destruct (Legacy.get_image_as_base64 _ w1) as [[[b64|]|e] w2];
      [ | apply IH | reflexivity].
    destruct (PyStr.nonempty b64); apply IH.
  - apply IH.
Qed.

End ImageOrder.



Example image_files_of_sections :
  MultiModel.image_files_of
    ["section_1.jpg"; "section_10.jpg"; "section_2.jpg"] =
    ["section_1.jpg"; "section_2.jpg"; "section_10.jpg"].
Proof. vm_compute. reflexivity. Qed.

Example image_files_of_mixed :
  MultiModel.image_files_of
    ["section_10.jpg"; "notes.txt"; "section_1.jpg"; "full_page.PNG";
     "section_2.jpg"] =
    ["full_page.PNG"; "section_1.jpg"; "section_2.jpg"; "section_10.jpg"].
Proof. vm_compute. reflexivity. Qed.

(** ** Sequential batch processing *)

Section BatchFacts.

Import MultiModel.

Variable call_agent : string -> string -> list string -> M json.
Variable json_dumps : json -> string.
Variable request_id_prefix : pyval.
Variable folder_path : string.

(** The request id built for a file. *)
Definition image_request_id (filename : string) : string :=
  py_str request_id_prefix +:+ "_" +:+ PyStr.stem filename.

Lemma print_advance (line : string) (w : world) :
  print line w = (Ok tt, advance w 0 [EvPrint line]).
Proof. unfold print. apply emit_advance. Qed.

(** Encoding never raises: a failure is printed and reported as [None]. *)
Lemma get_image_as_base64_total (image_path : string) (w : world) :
  exists r w', get_image_as_base64 image_path w = (Ok r, w').
Proof.
  unfold get_image_as_base64, try_except, bind, Io.read_bytes,
    Io.open_read, bind, get_world.
  destruct (w_fs w !! image_path) as [[es|bs]|];
    unfold raise, ret; cbn [existsb];
    rewrite ?isinstance_Exception; cbn [orb];
    rewrite ?print_advance; eexists; eexists; reflexivity.
Qed.

(** What the slot of a file holds: the placeholder when its encoding gave
    nothing, the error entry when the agent call made for it raised, and
    otherwise what the agent answered to that call, unwrapped. *)
Inductive slot_for (filename : string) : json -> Prop :=
| slot_encode_failed (w0 w1 : world) r :
    get_image_as_base64 (Io.path_join folder_path filename) w0 = (Ok r, w1) ->
    match r with
    | None => True
    | Some b64 => PyStr.nonempty b64 = false
    end ->
    slot_for filename (encode_error_entry filename)
| slot_call_failed (w0 w1 w2 : world) b64 e :
    get_image_as_base64 (Io.path_join folder_path filename) w0 =
      (Ok (Some b64), w1) ->
    PyStr.nonempty b64 = true ->
    call_agent (image_request_id filename) "{}" [b64] w1 = (Raise e, w2) ->
    slot_for filename (call_error_entry e filename)
| slot_answered (w0 w1 w2 : world) b64 response :
    get_image_as_base64 (Io.path_join folder_path filename) w0 =
      (Ok (Some b64), w1) ->
    PyStr.nonempty b64 = true ->
    call_agent (image_request_id filename) "{}" [b64] w1 =
      (Ok response, w2) ->
    slot_for filename (single_table_data_of response).

(** One turn of the loop always appends exactly one slot, for its file. *)
Lemma process_image_appends total i filename acc (w : world) :
  exists v w',
    process_image call_agent request_id_prefix folder_path total i filename
      acc w = (Ok (acc ++ [v]), w') /\
    slot_for filename v.
Proof.
  unfold process_image, bind at 1. rewrite print_advance.
  unfold bind at 1.
  destruct (get_image_as_base64_total
              (Io.path_join folder_path filename)
              (advance w 0 [EvPrint
                 ("--- Processing image " +:+ pretty (i + 1) +:+ "/" +:+
                  pretty total +:+ ": " +:+ filename +:+ " ---")]))
    as (r & w1 & E).
  rewrite E. destruct r as [b64|].
  - destruct (PyStr.nonempty b64) eqn:N; cbn [negb].
    + unfold try_except, bind.
      fold (image_request_id filename).
      destruct (call_agent (image_request_id filename) "{}" [b64] w1)
        as [[response|e] w2] eqn:C.
      * rewrite print_advance. eexists. eexists.
        split; [reflexivity|]. eapply slot_answered; eassumption.
      * cbn [existsb]. rewrite isinstance_Exception. cbn [orb].
        rewrite print_advance. eexists. eexists.
        split; [reflexivity|]. eapply slot_call_failed; eassumption.
    + eexists. eexists. split; [reflexivity|].
      eapply slot_encode_failed; [exact E | exact N].
  - eexists. eexists. split; [reflexivity|].
    eapply slot_encode_failed; [exact E | exact I].
Qed.

(** The loop never raises and appends one slot per file, in order. *)
Lemma process_images_appends total :
  forall image_files i acc (w : world),
    exists data w',
      process_images call_agent request_id_prefix folder_path total i
        image_files acc w = (Ok (acc ++ data), w') /\
      Forall2 slot_for image_files data.
Proof.
  induction image_files as [|filename rest IH]; intros i acc w.
  - exists [], w. split; [|constructor].
    cbn [process_images]. rewrite app_nil_r. reflexivity.
  - cbn [process_images]. unfold bind.
    destruct (process_image_appends total i filename acc w)
      as (v & w1 & E & Hv).
    rewrite E.
    destruct (IH (S i) (acc ++ [v]) w1) as (data & w2 & E2 & Hd).
    rewrite E2. exists (v :: data), w2. split.
    + rewrite <- app_assoc. reflexivity.
    + constructor; assumption.
Qed.

End BatchFacts.

Section BatchClaims.

Import MultiModel.

Variable call_agent : string -> string -> list string -> M json.
Variable json_dumps : json -> string.
Variable request_id_prefix : pyval.
Variable folder_path : string.

Lemma process_images_app total :
  forall pre post i acc (w : world),
    process_images call_agent request_id_prefix folder_path total i
      (pre ++ post) acc w =
    match process_images call_agent request_id_prefix folder_path total i
            pre acc w with
    | (Ok acc', w') =>
        process_images call_agent request_id_prefix folder_path total
          (i + length pre) post acc' w'
    | (Raise e, w') => (Raise e, w')
    end.
Proof.
  induction pre as [|f pre IH]; intros post i acc w.
  - cbn [app process_images length]. unfold ret.
    rewrite Nat.add_0_r. reflexivity.
  - cbn [app process_images length]. unfold bind.
    destruct (process_image _ _ _ _ _ _ _ w) as [[acc1|e] w1];
      [|reflexivity].
    rewrite IH. replace (S i + length pre) with (i + S (length pre)) by lia.
    reflexivity.
Qed.

(** The line printed when the file at index [i] is taken up. *)
Definition processing_line (total i : nat) (filename : string) : string :=
  "--- Processing image " +:+ pretty (i + 1) +:+ "/" +:+
  pretty total +:+ ": " +:+ filename +:+ " ---".

Lemma process_image_answered total i filename acc (w w1 w2 : world)
    b64 response :
  get_image_as_base64 (Io.path_join folder_path filename)
    (advance w 0 [EvPrint (processing_line total i filename)]) =
    (Ok (Some b64), w1) ->
  PyStr.nonempty b64 = true ->
  call_agent (image_request_id request_id_prefix filename) "{}" [b64] w1 =
    (Ok response, w2) ->
  exists w3,
    process_image call_agent request_id_prefix folder_path total i filename
      acc w = (Ok (acc ++ [single_table_data_of response]), w3).
Proof.
  intros G N C. unfold process_image, bind at 1. rewrite print_advance.
  unfold bind at 1. unfold processing_line in G. rewrite G, N. cbn [negb].
  unfold try_except, bind. unfold image_request_id in C. rewrite C.
  rewrite print_advance. eexists. reflexivity.
Qed.

End BatchClaims.


(** C10.  When the file after [pre] is encoded and the agent answers
    [response] to its request, the slot at that file's index holds the
    single element of [response] if it is a list of length one, and
    [response] itself otherwise. *)
Theorem single_item_response_is_unwrapped :
  forall (call_agent : string -> string -> list string -> M json)
         (request_id_prefix : pyval) (folder_path : string) (total : nat)
         (pre post : list string) (filename : string)
         (w w_a w_b w_c : world) (data_pre : list json)
         (b64 : string) (response : json),
    MultiModel.process_images call_agent request_id_prefix folder_path total
      0 pre [] w = (Ok data_pre, w_a) ->
    MultiModel.get_image_as_base64 (Io.path_join folder_path filename)
      (advance w_a 0
         [EvPrint (processing_line total (length pre) filename)]) =
      (Ok (Some b64), w_b) ->
    PyStr.nonempty b64 = true ->
    call_agent (image_request_id request_id_prefix filename) "{}" [b64] w_b =
      (Ok response, w_c) ->
    exists data w' v,
      MultiModel.process_images call_agent request_id_prefix folder_path
        total 0 (pre ++ filename :: post) [] w = (Ok data, w') /\
      data !! length pre = Some v /\
      (forall item, response = JArr [item] -> v = item) /\
      ((forall item, response <> JArr [item]) -> v = response).
Proof.
  intros call_agent prefix folder total pre post filename w w_a w_b w_c
    data_pre b64 response Hpre G N C.
  destruct (process_images_appends call_agent prefix folder total pre 0 []
              w) as (d0 & w0 & E0 & F0).
  cbn [app] in E0. rewrite Hpre in E0. inversion E0; subst d0 w0. clear E0.
  apply Forall2_length in F0.
  destruct (process_image_answered call_agent prefix folder total
              (length pre) filename data_pre w_a w_b w_c b64 response G N C)
    as (w3 & E3).
  destruct (process_images_appends call_agent prefix folder total post
              (S (length pre)) (data_pre ++ [MultiModel.single_table_data_of
                                               response]) w3)
    as (d1 & w4 & E4 & _).
  exists ((data_pre ++ [MultiModel.single_table_data_of response]) ++ d1),
    w4, (MultiModel.single_table_data_of response).
  split; [|split; [|split]].
  - rewrite process_images_app, Hpre. cbn [Nat.add MultiModel.process_images].
    unfold bind. rewrite E3. exact E4.
  - rewrite F0, <- app_assoc. cbn [app].
    rewrite lookup_app_r by lia. rewrite Nat.sub_diag. reflexivity.
  - intros item ->. reflexivity.
  - intros Hn. destruct response as [| | | | |items|]; try reflexivity.
    destruct items as [|x [|y items]]; try reflexivity.
    exfalso. apply (Hn x). reflexivity.
Qed.

(** A folder of three sections: the first two are files, the third is
    listed but cannot be read. *)
Definition batch_world : world :=
  {| w_thread := 7; w_tls := {[ 7 := PyStr "aB3xZ-7" ]};
     w_fs := {[ "img" := Dir ["section_10.jpg"; "section_1.jpg";
                              "readme.md"; "section_2.jpg"];
                "img/section_1.jpg" := File [x4d; x61; x6e];
                "img/section_2.jpg" := File [xff; xd8; xff; xe0] ]};
     w_calls := 0; w_trace := [] |}.

(** An agent that answers a one-table list, except for the request
    [1_section_2], on which it fails. *)
Definition sample_agent (request_id json_data : string)
    (screenshots : list string) : M json :=
  if String.eqb request_id "1_section_2"
  then raise (Exn Exception "API call failed after all retries" None)
  else ret (JArr [JObj [("request", JStr request_id)]]).

(** A stand-in for [json.dumps]: the number of slots. *)
Definition sample_dumps (v : json) : string :=
  match v with
  | JArr items => pretty (length items) +:+ " slots"
  | _ => "value"
  end.

Definition batch_expected : list json :=
  [JObj [("request", JStr "1_section_1")];
   JObj [("error", JStr "API call failed after all retries");
         ("filename", JStr "section_2.jpg")];
   JObj [("error", JStr "Failed to encode image");
         ("filename", JStr "section_10.jpg")]].


Lemma single_item_response_is_unwrapped_witness :
  exists data w',
    MultiModel.process_images sample_agent (PyInt 1) "img" 3 0
      ([] ++ "section_1.jpg" :: ["section_2.jpg"; "section_10.jpg"]) []
      batch_world = (Ok data, w') /\
    data !! 0 = Some (JObj [("request", JStr "1_section_1")]).
Proof.
  destruct (single_item_response_is_unwrapped sample_agent (PyInt 1) "img"
              3 [] ["section_2.jpg"; "section_10.jpg"] "section_1.jpg"
              batch_world batch_world
              (advance batch_world 0
                 [EvPrint (processing_line 3 0 "section_1.jpg")])
              (advance batch_world 0
                 [EvPrint (processing_line 3 0 "section_1.jpg")])
              [] "TWFu" (JArr [JObj [("request", JStr "1_section_1")]]))
    as (data & w' & v & E & L & U & _).
  - reflexivity.
  - vm_compute. reflexivity.
  - reflexivity.
  - vm_compute. reflexivity.
  - exists data, w'. split; [exact E|].
    rewrite (U _ eq_refl) in L. exact L.
Defined.

(** ** Cleaning and parsing the response *)

Section Cleaning.

Import PyStr.

Lemma list_ascii_of_string_app (s t : string) :
  list_ascii_of_string (s +:+ t) =
  list_ascii_of_string s ++ list_ascii_of_string t.
Proof.
  induction s as [|c s IH]; simpl; [reflexivity|]. rewrite IH. reflexivity.
Qed.

Lemma string_length_app (s t : string) :
  String.length (s +:+ t) = String.length s + String.length t.
Proof.
  induction s as [|c s IH]; simpl; [reflexivity|]. rewrite IH. reflexivity.
Qed.

Lemma substring_0_length (s : string) :
  substring 0 (String.length s) s = s.
Proof.
  induction s as [|c s IH]; simpl; [reflexivity|]. rewrite IH. reflexivity.
Qed.

Lemma substring_skip_prefix (p t : string) :
  substring (String.length p) (String.length t) (p +:+ t) = t.
Proof.
  induction p as [|c p IH]; simpl; [apply substring_0_length | exact IH].
Qed.

Lemma substring_keep_prefix (t p : string) :
  substring 0 (String.length t) (t +:+ p) = t.
Proof.
  induction t as [|c t IH]; simpl.
  - destruct p; reflexivity.
  - rewrite IH. reflexivity.
Qed.

Lemma starts_with_app (p t : list ascii) : starts_with p (p ++ t) = true.
Proof.
  induction p as [|c p IH]; simpl; [reflexivity|].
  rewrite Ascii.eqb_refl. exact IH.
Qed.

Lemma removeprefix_app (p t : string) : removeprefix (p +:+ t) p = t.
Proof.
  unfold removeprefix, startswith.
  rewrite list_ascii_of_string_app, starts_with_app, string_length_app.
  replace (String.length p + String.length t - String.length p)
    with (String.length t) by lia.
  apply substring_skip_prefix.
Qed.

Lemma removesuffix_app (t p : string) :
  p <> "" -> removesuffix (t +:+ p) p = t.
Proof.
  intros Hp. unfold removesuffix, endswith.
  replace (String.eqb p "") with false
    by (symmetry; apply String.eqb_neq; exact Hp).
  rewrite list_ascii_of_string_app, rev_app_distr, starts_with_app,
    string_length_app.
  cbn [negb andb].
  replace (String.length t + String.length p - String.length p)
    with (String.length t) by lia.
  apply substring_keep_prefix.
Qed.

(** Text between backquotes has nothing to strip. *)
Lemma strip_backquoted (l : list ascii) :
  strip (string_of_list_ascii ("`"%char :: l ++ ["`"%char])) =
  string_of_list_ascii ("`"%char :: l ++ ["`"%char]).
Proof.
  unfold strip. rewrite list_ascii_of_string_of_list_ascii.
  f_equal.
  assert (L : lstrip_chars ("`"%char :: l ++ ["`"%char]) =
              "`"%char :: l ++ ["`"%char]) by reflexivity.
  rewrite L. unfold rstrip_chars.
  replace (rev ("`"%char :: l ++ ["`"%char]))
    with ("`"%char :: rev ("`"%char :: l)).
  - cbn [length lstrip_fuel].
    replace (drop_one_of (map (@rev ascii) whitespace)
               ("`"%char :: rev ("`"%char :: l))) with (@None (list ascii))
      by reflexivity.
    cbn [rev]. rewrite rev_app_distr, rev_involutive. reflexivity.
  - cbn [rev]. rewrite rev_app_distr. reflexivity.
Qed.

(** A fenced answer is cleaned to what the fences enclose, stripped. *)
Lemma cleaned_content_of_fenced (body : string) :
  MultiModel.cleaned_content_of ("```json" +:+ body +:+ "```") = strip body.
Proof.
  unfold MultiModel.cleaned_content_of.
  assert (S : strip ("```json" +:+ body +:+ "```") =
              "```json" +:+ body +:+ "```").
  { rewrite <- (string_of_list_ascii_of_string
                  ("```json" +:+ body +:+ "```")) at 2.
    rewrite <- (string_of_list_ascii_of_string
                  ("```json" +:+ body +:+ "```")) at 1.
    rewrite !list_ascii_of_string_app.
    replace (list_ascii_of_string "```json" ++
             list_ascii_of_string body ++ list_ascii_of_string "```")
      with ("`"%char ::
            (list_ascii_of_string "``json" ++ list_ascii_of_string body ++
             list_ascii_of_string "``") ++ ["`"%char]).
    - apply strip_backquoted.
    - cbn [list_ascii_of_string app]. rewrite <- !app_assoc. reflexivity. }
  rewrite S, removeprefix_app, removesuffix_app by discriminate.
  reflexivity.
Qed.

End Cleaning.

(** The two lines logged when the response of a thread with context id [c]
    cannot be parsed. *)
Definition parse_failure_logs (c : pyval) (raw : string) : list event :=
  [EvLog DEBUG
     (ctx_line c
        ("Failed to parse JSON from LLM response. Error: " +:+
         "Expecting value"));
   EvLog DEBUG (ctx_line c ("Raw response content: " +:+ raw))].

Lemma parse_response_parsed py_repr raw v (w : world) :
  Json.loads (MultiModel.cleaned_content_of raw) = Some v ->
  MultiModel.parse_response py_repr (Some {| content := JStr raw |}) w =
    (Ok (inr v), w).
Proof.
  intros H. unfold MultiModel.parse_response, try_except, bind,
    MultiModel.content_of, MultiModel.as_str, Io.json_loads.
  cbn [content ret]. unfold ret. rewrite H. reflexivity.
Qed.

Lemma parse_response_unparsed py_repr raw c (w : world) :
  has_context w c ->
  Json.loads (MultiModel.cleaned_content_of raw) = None ->
  MultiModel.parse_response py_repr (Some {| content := JStr raw |}) w =
    (Ok (inl (MultiModel.parse_error_value (JStr raw))),
     advance w 0 (parse_failure_logs c raw)).
Proof.
  intros Hc H. unfold MultiModel.parse_response, try_except, bind at 1 2 3,
    MultiModel.content_of, MultiModel.as_str, Io.json_loads.
  cbn [content]. unfold ret at 1 2. rewrite H. unfold raise at 1.
  replace (existsb (isinstance (Exn JSONDecodeError "Expecting value" None))
             [JSONDecodeError; AttributeError]) with true by reflexivity.
  unfold bind at 1. rewrite (log_message_debug w c _ Hc).
  unfold bind at 1. unfold ret at 1. unfold bind at 1.
  rewrite (log_message_debug _ c _ (has_context_advance w c 0 _ Hc)).
  unfold bind, ret. rewrite advance_advance. reflexivity.
Qed.


(** A stand-in for Python's [repr]. *)
Definition sample_repr (v : json) : string := "<value>".


(** The fenced answer of the specification, [{"a":1}] on a line of its own
    between the fences, parses to the object it encloses. *)
Example parse_response_fenced :
  MultiModel.parse_response sample_repr
    (Some {| content :=
               JStr ("```json" +:+ String "010" "" +:+
                     "{" +:+ String Json.quote "a" +:+
                     String Json.quote ":1}" +:+ String "010" "" +:+
                     "```") |}) world0 =
    (Ok (inr (JObj [("a", JInt 1)])), world0).
Proof. vm_compute. reflexivity. Qed.


(** ** Order-insensitive comparison *)

Section JsonInduction.

Variable P : json -> Prop.
Hypothesis HNull : P JNull.
Hypothesis HBool : forall b, P (JBool b).
Hypothesis HInt : forall z, P (JInt z).
Hypothesis HFloat : forall m e, P (JFloat m e).
Hypothesis HStr : forall s, P (JStr s).
Hypothesis HArr : forall items, List.Forall P items -> P (JArr items).
Hypothesis HObj : forall fields,
  List.Forall (fun kv => P (snd kv)) fields -> P (JObj fields).

(** Induction over JSON values that reaches the items of arrays and the
    values of objects. *)
Fixpoint json_nested_ind (v : json) : P v :=
  match v with
  | JNull => HNull
  | JBool b => HBool b
  | JInt z => HInt z
  | JFloat m e => HFloat m e
  | JStr s => HStr s
  | JArr items =>
      HArr items
        ((fix go (l : list json) : List.Forall P l :=
            match l with
            | [] => @List.Forall_nil json P
            | x :: l' =>
                @List.Forall_cons json P x l' (json_nested_ind x) (go l')
            end) items)
  | JObj fields =>
      HObj fields
        ((fix go (l : list (string * json))
            : List.Forall (fun kv => P (snd kv)) l :=
            match l with
            | [] => @List.Forall_nil _ (fun kv => P (snd kv))
            | kv :: l' =>
                @List.Forall_cons _ (fun kv => P (snd kv)) kv l'
                  (json_nested_ind (snd kv)) (go l')
            end) fields)
  end.

End JsonInduction.

Section DiffFacts.

Import DeepDiff.

Lemma unmatched_nil rel xs ys : forall i,
  unmatched rel xs ys i = [] <->
  forallb (fun x => existsb (rel x) ys) xs = true.
Proof.
  induction xs as [|x xs IH]; intros i; cbn [unmatched forallb].
  - tauto.
  - destruct (existsb (rel x) ys); cbn [andb].
    + apply IH.
    + split; discriminate.
Qed.

Lemma app_nil_iff {A} (l1 l2 : list A) :
  l1 ++ l2 = [] <-> l1 = [] /\ l2 = [].
Proof.
  destruct l1; cbn [app]; split.
  - intros ->. split; reflexivity.
  - intros [_ ->]. reflexivity.
  - discriminate.
  - intros [H _]. discriminate H.
Qed.

Lemma flat_map_nil {A B} (f : A -> list B) (l : list A) :
  flat_map f l = [] <-> List.Forall (fun x => f x = []) l.
Proof.
  induction l as [|x l IH]; cbn [flat_map].
  - split; [constructor | reflexivity].
  - split.
    + intros H. apply app_nil_iff in H as [H1 H2].
      constructor; [exact H1 | apply IH, H2].
    + intros H. inversion H; subst. apply app_nil_iff.
      split; [assumption | apply IH; assumption].
Qed.

Lemma map_nil_iff {A B} (f : A -> B) (l : list A) :
  map f l = [] <-> l = [].
Proof. destruct l; cbn; split; congruence. Qed.

(** The result of DeepDiff is empty exactly when the two values have the
    same hash. *)
Lemma diff_at_nil (a : json) :
  forall path b, diff_at path a b = [] <-> same a b = true.
Proof.
  induction a as [| x | x | m e | x | xs IH | fs IH]
    using json_nested_ind; intros path b.
  - destruct b; cbn; split; congruence.
  - destruct b; cbn; try (split; congruence).
    destruct (Bool.eqb x b); split; congruence.
  - destruct b; cbn; try (split; congruence).
    destruct (Z.eqb x z); split; congruence.
  - destruct b; cbn; try (split; congruence).
    destruct (Z.eqb m mantissa && Z.eqb e exponent); split; congruence.
  - destruct b; cbn; try (split; congruence).
    destruct (String.eqb x s); split; congruence.
  - destruct b as [| | | | |ys|]; try (cbn; split; congruence).
    cbn [diff_at same]. rewrite app_nil_iff, !map_nil_iff.
    rewrite !unmatched_nil, andb_true_iff. reflexivity.
  - destruct b as [| | | | | |gs]; try (cbn; split; congruence).
    cbn [diff_at same]. rewrite app_nil_iff, !flat_map_nil.
    rewrite andb_true_iff, !forallb_forall, !List.Forall_forall.
    split; intros [H1 H2]; split.
    + intros kv Hkv. specialize (H1 kv Hkv).
      rewrite List.Forall_forall in IH. specialize (IH kv Hkv).
      destruct (dict_get (fst kv) gs); [apply IH in H1; exact H1|].
      discriminate.
    + intros kv Hkv. specialize (H2 kv Hkv).
      destruct (dict_get (fst kv) fs); [reflexivity | discriminate].
    + intros kv Hkv. specialize (H1 kv Hkv).
      rewrite List.Forall_forall in IH. specialize (IH kv Hkv).
      destruct (dict_get (fst kv) gs); [apply IH; exact H1|].
      discriminate.
    + intros kv Hkv. specialize (H2 kv Hkv).
      destruct (dict_get (fst kv) fs); [reflexivity | discriminate].
Qed.

Lemma nonempty_deep_diff (a b : json) :
  nonempty (deep_diff a b) = negb (same a b).
Proof.
  unfold deep_diff. pose proof (diff_at_nil a [] b) as H.
  destruct (diff_at [] a b) eqn:E; cbn [nonempty].
  - rewrite (proj1 H eq_refl). reflexivity.
  - destruct (same a b); [|reflexivity].
    destruct H as [_ H]. specialize (H eq_refl). discriminate.
Qed.

End DiffFacts.

(** ** The reconciler *)

Section Reconciler.

Import DeepDiff Utils.

(** The file at [path] holds UTF-8 text that parses to [v]. *)
Definition holds_json (fs : gmap string node) (path : string) (v : json)
    : Prop :=
  exists bs,
    fs !! path = Some (File bs) /\
    Io.utf8_valid bs = true /\
    Json.loads (string_of_list_byte bs) = Some v.

Lemma json_load_holds (w : world) path v :
  holds_json (w_fs w) path v -> Io.json_load path w = (Ok v, w).
Proof.
  intros (bs & Hf & Hu & Hl).
  unfold Io.json_load, Io.read_text, Io.open_read, bind, get_world.
  rewrite Hf. unfold ret at 1. rewrite Hu. unfold ret at 1.
  unfold Io.json_loads. rewrite Hl. reflexivity.
Qed.

Definition comparing_line (path : string) : event :=
  EvPrint ("Comparing with '" +:+ Io.basename path +:+ "'...").

Definition using_line (path : string) : event :=
  EvPrint ("Using '" +:+ Io.basename path +:+ "' as the reference.").

(** What is printed for a file that does not match. *)
Definition mismatch_events (path : string) (d : list change) : list event :=
  [EvPrint "--- MISMATCH DETECTED ---";
   EvPrint ("File '" +:+ Io.basename path +:+
            "' does not match the reference.");
   EvPrint "Detailed differences:";
   EvPrintDiff d].

(** The file at [path] holds a value with the hash of [reference]. *)
Definition agrees (fs : gmap string node) (reference : json)
    (path : string) : Prop :=
  exists v, holds_json fs path v /\ same reference v = true.

Lemma compare_step_agree reference path rest (w : world) :
  agrees (w_fs w) reference path ->
  compare_others reference (path :: rest) w =
    compare_others reference rest (advance w 0 [comparing_line path]).
Proof.
  intros (v & Hv & Hs). cbn [compare_others].
  unfold bind at 1, try_clauses, bind at 1. rewrite print_advance.
  unfold bind at 1.
  rewrite (json_load_holds (advance w 0 _) path v) by exact Hv.
  rewrite nonempty_deep_diff, Hs. reflexivity.
Qed.

Lemma compare_step_mismatch reference path rest (w : world) v :
  holds_json (w_fs w) path v ->
  same reference v = false ->
  compare_others reference (path :: rest) w =
    (Ok "FAILED",
     advance w 0 (comparing_line path ::
                  mismatch_events path (deep_diff reference v))).
Proof.
  intros Hv Hs. cbn [compare_others].
  unfold bind at 1, try_clauses, bind at 1. rewrite print_advance.
  unfold bind at 1.
  rewrite (json_load_holds (advance w 0 _) path v) by exact Hv.
  rewrite nonempty_deep_diff, Hs. cbn [negb].
  unfold bind at 1. rewrite print_advance.
  unfold bind at 1. rewrite print_advance.
  unfold bind at 1. rewrite print_advance.
  unfold bind at 1. rewrite emit_advance.
  unfold ret, bind. rewrite !advance_advance. reflexivity.
Qed.

Lemma compare_others_agree reference :
  forall others (w : world),
    List.Forall (agrees (w_fs w) reference) others ->
    compare_others reference others w =
      (Ok "SUCCESS",
       advance w 0 (map comparing_line others ++
                    [EvPrint "--- ALL FILES MATCH ---"])).
Proof.
  induction others as [|p others IH]; intros w H.
  - cbn [compare_others map app]. unfold bind. rewrite print_advance.
    reflexivity.
  - inversion H as [|p' l' Hp Hl]; subst.
    rewrite (compare_step_agree reference p others w Hp).
    rewrite IH by exact Hl. rewrite advance_advance. reflexivity.
Qed.

Lemma compare_others_mismatch reference bad post v :
  forall pre (w : world),
    List.Forall (agrees (w_fs w) reference) pre ->
    holds_json (w_fs w) bad v ->
    same reference v = false ->
    compare_others reference (pre ++ bad :: post) w =
      (Ok "FAILED",
       advance w 0 (map comparing_line pre ++
                    comparing_line bad ::
                    mismatch_events bad (deep_diff reference v))).
Proof.
  induction pre as [|p pre IH]; intros w H Hv Hs.
  - cbn [app map]. apply compare_step_mismatch; assumption.
  - inversion H as [|p' l' Hp Hl]; subst. cbn [app].
    rewrite (compare_step_agree reference p _ w Hp).
    rewrite IH by assumption. rewrite advance_advance. reflexivity.
Qed.

Lemma compare_reference_loaded reference_path second others (w : world) v :
  holds_json (w_fs w) reference_path v ->
  compare_json_files_deepdiff (reference_path :: second :: others) w =
    compare_others v (second :: others)
      (advance w 0 [using_line reference_path]).
Proof.
  intros Hv. unfold compare_json_files_deepdiff.
  unfold bind at 1, try_clauses, bind at 1. rewrite print_advance.
  unfold bind at 1.
  rewrite (json_load_holds (advance w 0 _) reference_path v) by exact Hv.
  reflexivity.
Qed.

End Reconciler.

(** One step of symbolic execution of a computation applied to a world. *)
Ltac run_step :=
  first [ rewrite print_advance
        | rewrite emit_advance
        | progress (unfold bind at 1)
        | progress (unfold ret at 1)
        | progress (cbv beta iota) ].

Ltac run := repeat run_step.

Section ReconcilerTotality.

Import DeepDiff Utils.

(** The file at [path] is missing or holds UTF-8 text. *)
Definition missing_or_text (fs : gmap string node) (path : string) : Prop :=
  fs !! path = None \/
  exists bs, fs !! path = Some (File bs) /\ Io.utf8_valid bs = true.

Lemma json_load_cases (w : world) path :
  missing_or_text (w_fs w) path ->
  (exists v, Io.json_load path w = (Ok v, w)) \/
  (exists e, Io.json_load path w = (Raise e, w) /\
             (exn_cls e = FileNotFoundError \/ exn_cls e = JSONDecodeError)).
Proof.
  intros [H | (bs & H & Hu)];
    unfold Io.json_load, Io.read_text, Io.open_read, bind, get_world;
    rewrite H.
  - right. eexists. split; [reflexivity | left; reflexivity].
  - unfold ret, raise, Io.json_loads. cbv beta iota. rewrite Hu.
    cbv beta iota.
    destruct (Json.loads (string_of_list_byte bs)) as [v|].
    + left. exists v. reflexivity.
    + right. eexists. split; [reflexivity | right; reflexivity].
Qed.

Definition is_label (label : string) : Prop :=
  label = "SUCCESS" \/ label = "FAILED" \/ label = "NO_COMPARISON".

Lemma handlers_of_load_error {A} (e : exn) (h1 h2 : exn -> M A) :
  exn_cls e = FileNotFoundError \/ exn_cls e = JSONDecodeError ->
  select_handler e [(FileNotFoundError, h1); (JSONDecodeError, h2)] =
    Some (h1 e) \/
  select_handler e [(FileNotFoundError, h1); (JSONDecodeError, h2)] =
    Some (h2 e).
Proof.
  destruct e as [cls msg cause]. cbn [exn_cls].
  intros [-> | ->]; [left | right]; reflexivity.
Qed.

(** Settle which [except] clause takes a loading error. *)
Ltac select_load_handler e Hc :=
  match goal with
  | |- context [select_handler e
                  [(FileNotFoundError, ?h1); (JSONDecodeError, ?h2)]] =>
      let S := fresh "S" in
      destruct (handlers_of_load_error e h1 h2 Hc) as [S | S]; rewrite S
  end.

Lemma compare_others_labels reference :
  forall others (w : world),
    List.Forall (missing_or_text (w_fs w)) others ->
    exists label w',
      compare_others reference others w = (Ok label, w') /\ is_label label.
Proof.
  induction others as [|p others IH]; intros w H.
  - cbn [compare_others]. run.
    eexists. eexists. split; [reflexivity | left; reflexivity].
  - inversion H as [|p' l' Hp Hl]; subst. cbn [compare_others].
    unfold bind at 1, try_clauses, bind at 1. rewrite print_advance.
    unfold bind at 1.
    destruct (json_load_cases (advance w 0 [EvPrint
                ("Comparing with '" +:+ Io.basename p +:+ "'...")]) p Hp)
      as [(v & E) | (e & E & Hc)]; rewrite E.
    + cbv beta iota. destruct (nonempty (deep_diff reference v)).
      * run. eexists. eexists.
        split; [reflexivity | right; left; reflexivity].
      * run. apply IH. exact Hl.
    + cbv beta iota. select_load_handler e Hc; run; eexists; eexists;
        (split; [reflexivity | right; left; reflexivity]).
Qed.

(** When every file is missing or holds UTF-8 text, the comparison returns
    one of the three labels. *)
Lemma compare_labels (file_paths : list string) (w : world) :
  List.Forall (missing_or_text (w_fs w)) file_paths ->
  exists label w',
    compare_json_files_deepdiff file_paths w = (Ok label, w') /\
    is_label label.
Proof.
  intros H. destruct file_paths as [|reference_path [|second others]].
  - cbn [compare_json_files_deepdiff]. run. eexists. eexists.
    split; [reflexivity | right; right; reflexivity].
  - cbn [compare_json_files_deepdiff]. run. eexists. eexists.
    split; [reflexivity | right; right; reflexivity].
  - inversion H as [|p' l' Hp Hl]; subst.
    unfold compare_json_files_deepdiff.
    unfold bind at 1, try_clauses, bind at 1. rewrite print_advance.
    unfold bind at 1.
    destruct (json_load_cases (advance w 0 [EvPrint
                ("Using '" +:+ Io.basename reference_path +:+
                 "' as the reference.")]) reference_path Hp)
      as [(v & E) | (e & E & Hc)]; rewrite E.
    + run. apply compare_others_labels. exact Hl.
    + cbv beta iota. select_load_handler e Hc; run; eexists; eexists;
        (split; [reflexivity | right; left; reflexivity]).
Qed.

End ReconcilerTotality.

Section OrderInsensitive.

Import DeepDiff.

(** No dict of the value has a key twice, as in every value [json.loads]
    builds. *)
Fixpoint unique_keys (v : json) : Prop :=
  match v with
  | JArr items =>
      (fix all (l : list json) : Prop :=
         match l with
         | [] => True
         | x :: l' => unique_keys x /\ all l'
         end) items
  | JObj fields =>
      List.NoDup (map fst fields) /\
      (fix all (l : list (string * json)) : Prop :=
         match l with
         | [] => True
         | kv :: l' => unique_keys (snd kv) /\ all l'
         end) fields
  | _ => True
  end.

Lemma unique_keys_items items :
  unique_keys (JArr items) -> forall x, In x items -> unique_keys x.
Proof.
  cbn [unique_keys]. induction items as [|y items IH]; intros H x Hx.
  - destruct Hx.
  - destruct H as [Hy H]. destruct Hx as [<- | Hx]; [exact Hy | auto].
Qed.

Lemma unique_keys_fields fields :
  unique_keys (JObj fields) ->
  List.NoDup (map fst fields) /\
  forall kv, In kv fields -> unique_keys (snd kv).
Proof.
  cbn [unique_keys]. intros [Hn H]. split; [exact Hn|]. clear Hn.
  induction fields as [|y fields IH]; intros kv Hkv.
  - destruct Hkv.
  - destruct H as [Hy H]. destruct Hkv as [<- | Hkv]; [exact Hy | auto].
Qed.

Lemma dict_get_In (fields : list (string * json)) k v :
  List.NoDup (map fst fields) -> In (k, v) fields ->
  dict_get k fields = Some v.
Proof.
  induction fields as [|[k' v'] fields IH]; intros Hn Hin; [destruct Hin|].
  cbn [map fst] in Hn. inversion Hn as [|x l Hnot Hn']; subst.
  cbn [dict_get]. destruct Hin as [E | Hin].
  - inversion E; subst. rewrite String.eqb_refl. reflexivity.
  - destruct (String.eqb k k') eqn:E.
    + apply String.eqb_eq in E. subst k'. exfalso. apply Hnot.
      apply in_map_iff. exists (k, v). split; [reflexivity | exact Hin].
    + apply IH; assumption.
Qed.

Lemma same_refl (v : json) : unique_keys v -> same v v = true.
Proof.
  induction v as [| x | x | m e | x | xs IH | fs IH]
    using json_nested_ind; intros H; cbn [same].
  - reflexivity.
  - destruct x; reflexivity.
  - apply Z.eqb_refl.
  - rewrite !Z.eqb_refl. reflexivity.
  - apply String.eqb_refl.
  - rewrite List.Forall_forall in IH.
    assert (F : forallb (fun x => existsb (fun y => same x y) xs) xs = true).
    { apply forallb_forall. intros x Hx. apply existsb_exists.
      exists x. split; [exact Hx|].
      apply IH; [exact Hx | eapply unique_keys_items; eauto]. }
    assert (G : forallb (fun y => existsb (fun x => same x y) xs) xs = true).
    { apply forallb_forall. intros x Hx. apply existsb_exists.
      exists x. split; [exact Hx|].
      apply IH; [exact Hx | eapply unique_keys_items; eauto]. }
    rewrite F, G. reflexivity.
  - rewrite List.Forall_forall in IH.
    destruct (unique_keys_fields fs H) as [Hn Hu].
    apply andb_true_iff. split; apply forallb_forall; intros [k v] Hkv;
      cbn [fst snd]; rewrite (dict_get_In fs k v Hn Hkv); [|reflexivity].
    apply (IH (k, v) Hkv). apply (Hu (k, v) Hkv).
Qed.

(** Lists with the same items in another order have the same hash. *)
Lemma same_Permutation (xs ys : list json) :
  Permutation xs ys -> unique_keys (JArr xs) ->
  same (JArr xs) (JArr ys) = true.
Proof.
  intros Hp Hu. cbn [same]. apply andb_true_iff.
  split; apply forallb_forall; intros x Hx; apply existsb_exists.
  - exists x. split; [eapply Permutation_in; eauto|].
    apply same_refl. eapply unique_keys_items; eauto.
  - assert (Hx' : In x xs)
      by (eapply Permutation_in; [apply Permutation_sym|]; eauto).
    exists x. split; [exact Hx'|].
    apply same_refl. eapply unique_keys_items; eauto.
Qed.

End OrderInsensitive.


(** Single quotes turned into double quotes, to write JSON text. *)
Definition dq (s : string) : string :=
  string_of_list_ascii
    (map (fun c => if Ascii.eqb c "'"%char then Json.quote else c)
       (list_ascii_of_string s)).

Definition json_file (text : string) : node :=
  File (list_byte_of_string (dq text)).

(** The outputs of three runs: a reference, the same rows in another
    order, and rows with one value changed; and a file that is not UTF-8. *)
Definition compare_world : world :=
  {| w_thread := 7; w_tls := {[ 7 := PyStr "aB3xZ-7" ]};
     w_fs := {[ "out" := Dir ["ref.json"; "reordered.json"; "changed.json";
                              "latin1.json"];
                "out/ref.json" := json_file "[{'a':1},{'b':2}]";
                "out/reordered.json" := json_file "[{'b':2},{'a':1}]";
                "out/changed.json" := json_file "[{'a':1},{'b':3}]";
                "out/latin1.json" := File [x22; xe9; x22] ]};
     w_calls := 0; w_trace := [] |}.

Definition reference_rows : json :=
  JArr [JObj [("a", JInt 1)]; JObj [("b", JInt 2)]].

Definition changed_rows : json :=
  JArr [JObj [("a", JInt 1)]; JObj [("b", JInt 3)]].

Lemma compare_world_reference :
  holds_json (w_fs compare_world) "out/ref.json" reference_rows.
Proof. eexists. repeat split; vm_compute; reflexivity. Defined.

Lemma compare_world_reordered :
  agrees (w_fs compare_world) reference_rows "out/reordered.json".
Proof.
  exists (JArr [JObj [("b", JInt 2)]; JObj [("a", JInt 1)]]).
  split; [eexists; repeat split; vm_compute; reflexivity | reflexivity].
Defined.

Lemma compare_world_changed :
  holds_json (w_fs compare_world) "out/changed.json" changed_rows.
Proof. eexists. repeat split; vm_compute; reflexivity. Defined.


(** C6.  A comparison file that exists but is not UTF-8 text, the single
    character e-acute of Latin-1 between double quotes here, is not valid
    JSON; yet the comparison does not return FAILED for it: the
    [UnicodeDecodeError] of the read is caught by neither [except] clause
    and reaches the caller.  The same happens when the reference is such a
    file, and a path that is a directory raises [IsADirectoryError] the same
    way. *)
Theorem compare_propagates_decode_error :
  (exists w',
      Utils.compare_json_files_deepdiff ["out/ref.json"; "out/latin1.json"]
        compare_world =
        (Raise (Exn UnicodeDecodeError
                  "'utf-8' codec can't decode bytes: invalid data" None),
         w')) /\
  (exists w',
      Utils.compare_json_files_deepdiff ["out/latin1.json"; "out/ref.json"]
        compare_world =
        (Raise (Exn UnicodeDecodeError
                  "'utf-8' codec can't decode bytes: invalid data" None),
         w')) /\
  (exists w',
      Utils.compare_json_files_deepdiff ["out/ref.json"; "out"]
        compare_world =
        (Raise (Exn IsADirectoryError "[Errno 21] Is a directory: 'out'"
                  None), w')) /\
  Io.utf8_valid [x22; xe9; x22] = false.
Proof.
  split; [|split; [|split]].
  - eexists. vm_compute. reflexivity.
  - eexists. vm_compute. reflexivity.
  - eexists. vm_compute. reflexivity.
  - reflexivity.
Qed.

(** ** [call_agent] as a whole *)

Section CallAgentFacts.

Import MultiModel.

(** [w'] differs from [w] at most in its trace and its files. *)
Definition keeps (w w' : world) : Prop :=
  w_thread w' = w_thread w /\ w_tls w' = w_tls w /\ w_calls w' = w_calls w.

Lemma keeps_refl (w : world) : keeps w w.
Proof. repeat split. Qed.

Lemma keeps_trans (w1 w2 w3 : world) :
  keeps w1 w2 -> keeps w2 w3 -> keeps w1 w3.
Proof.
  intros (A1 & A2 & A3) (B1 & B2 & B3).
  repeat split; congruence.
Qed.

Lemma keeps_context (w w' : world) c :
  keeps w w' -> has_context w c -> has_context w' c.
Proof.
  intros (A1 & A2 & _) [H1 H2]. split; [|exact H2].
  rewrite A1, A2. exact H1.
Qed.

Lemma log_message_keeps (w : world) c log_data level :
  has_context w c ->
  exists w',
    log_message log_data level w = (Ok tt, w') /\
    keeps w w' /\ w_fs w' = w_fs w.
Proof.
  intros Hc. unfold log_message, bind.
  rewrite (log_message_branch_set w c log_data level Hc).
  destruct (Nat.leb DEBUG level); eexists;
    (split; [reflexivity | split; [repeat split | reflexivity]]);
    cbn; lia.
Qed.

Lemma write_text_keeps (w : world) path text :
  exists w', Io.write_text path text w = (Ok tt, w') /\ keeps w w'.
Proof.
  unfold Io.write_text, bind, get_world, set_fs.
  eexists. split; [reflexivity | repeat split].
Qed.

Variable cwd : string.
Variable today : string.
Variable random_prefix : string.
Variable json_dumps : json -> string.
Variable json_dumps_indented : json -> string.
Variable py_repr : json -> string.
Variable str_of_message : message -> string.
Variable backend : chat_model -> client.

(** With the prompt file readable, the messages are built without a
    raise. *)
Lemma generate_system_prompt_keeps (w : world) c path json_content
    screenshots bs :
  has_context w c ->
  w_fs w !! Io.path_join cwd path = Some (File bs) ->
  Io.utf8_valid bs = true ->
  exists built w',
    AgentUtil.generate_system_prompt_with_json_data_for_multiple_images
      cwd today json_dumps path json_content screenshots w =
      (Ok built, w') /\
    keeps w w'.
Proof.
  intros Hc Hf Hu.
  unfold AgentUtil.generate_system_prompt_with_json_data_for_multiple_images,
    bind at 1.
  unfold AgentUtil.generate_prompt_messages, bind at 1.
  unfold AgentUtil.combine_system_prompt_input_files, try_clauses,
    bind at 1.
  unfold Io.read_text, bind at 1, Io.open_read, bind at 1, get_world.
  rewrite Hf. unfold ret at 1. rewrite Hu. unfold ret at 1 2.
  destruct (PyStr.nonempty (string_of_list_byte bs)).
  - unfold bind at 1.
    destruct (log_message_keeps w c
                ("Prompt message: " +:+ string_of_list_byte bs) DEBUG Hc)
      as (w1 & E1 & K1 & _).
    rewrite E1. unfold bind at 1.
    destruct (write_text_keeps w1 "combined_file.txt"
                (string_of_list_byte bs)) as (w2 & E2 & K2).
    rewrite E2. unfold ret. eexists. eexists.
    split; [reflexivity | eapply keeps_trans; eauto].
  - unfold ret. eexists. eexists. split; [reflexivity | apply keeps_refl].
Qed.

Lemma get_llm_keeps (self : MultiModalTableInterpreter) (w : world) c :
  has_context w c ->
  str_in (provider self) supported_providers = true ->
  exists llm w', _get_llm self w = (Ok llm, w') /\ keeps w w'.
Proof.
  intros Hc Hp. unfold _get_llm, bind.
  destruct (log_message_keeps w c
              ("Initializing LLM for provider: '" +:+ provider self +:+
               "' with model: '" +:+ model_name self +:+ "'") DEBUG Hc)
    as (w1 & E1 & K1 & _).
  rewrite E1.
  apply str_in_supported in Hp. destruct Hp as [-> | [-> | ->]];
    cbn [String.eqb Ascii.eqb Bool.eqb]; unfold ret;
    eexists; eexists; (split; [reflexivity | exact K1]).
Qed.

(** The value [call_agent] returns for the text [raw] of a response. *)
Definition outcome_of (raw : string) : json :=
  match Json.loads (cleaned_content_of raw) with
  | Some v => v
  | None => parse_error_value (JStr raw)
  end.

Lemma finish_call_agent_keeps (self : MultiModalTableInterpreter)
    request_id raw (w : world) c :
  has_context w c ->
  exists w',
    finish_call_agent json_dumps_indented py_repr self request_id
      (Some {| content := JStr raw |}) w = (Ok (outcome_of raw), w') /\
    keeps w w'.
Proof.
  intros Hc. unfold finish_call_agent, bind at 1, outcome_of.
  destruct (Json.loads (cleaned_content_of raw)) as [v|] eqn:E.
  - rewrite (parse_response_parsed py_repr raw v w E).
    unfold bind at 1.
    destruct (log_message_keeps w c
                "Successfully parsed response from LLM." DEBUG Hc)
      as (w1 & E1 & K1 & _).
    rewrite E1. unfold bind at 1.
    destruct (write_text_keeps w1
                (log_base_path self +:+ "/ai_output_table_extract_" +:+
                 request_id +:+ ".json") (json_dumps_indented v))
      as (w2 & E2 & K2).
    rewrite E2. unfold ret. eexists.
    split; [reflexivity | eapply keeps_trans; eauto].
  - rewrite (parse_response_unparsed py_repr raw c w Hc E).
    unfold ret. eexists. split; [reflexivity | repeat split]; cbn; lia.
Qed.

(** With a supported provider, a readable prompt file and a client that
    answers the text [raw] at once, [call_agent] sets the context id of its
    thread and returns the parsed answer, or the error value when the text
    is not JSON; it does not raise, whatever the thread's context id was
    before. *)
Lemma call_agent_answered (self : MultiModalTableInterpreter)
    request_id json_data screenshots (w : world) bs raw :
  str_in (provider self) supported_providers = true ->
  w_fs w !! Io.path_join cwd (system_prompt_path self) = Some (File bs) ->
  Io.utf8_valid bs = true ->
  (forall llm messages,
      backend llm (w_calls w) messages = Ok {| content := JStr raw |}) ->
  exists w',
    call_agent cwd today random_prefix json_dumps json_dumps_indented
      py_repr str_of_message backend self request_id json_data screenshots
      w = (Ok (outcome_of raw), w') /\
    has_context w' (PyStr (random_prefix +:+ "-" +:+ pretty (w_thread w))).
Proof.
  intros Hp Hf Hu Hb.
  set (c := PyStr (random_prefix +:+ "-" +:+ pretty (w_thread w))).
  set (w0 := {| w_thread := w_thread w;
                w_tls := <[w_thread w := c]> (w_tls w);
                w_fs := w_fs w; w_calls := w_calls w;
                w_trace := w_trace w |}).
  assert (Hc0 : has_context w0 c).
  { split; [cbn; apply lookup_insert_eq | discriminate]. }
  unfold call_agent, bind at 1, get_world. unfold bind at 1.
  unfold set_thread_context_id, bind at 1, get_world, set_tls.
  fold c. fold w0. unfold bind at 1.
  destruct (log_message_keeps w0 c
              "Generating system and human messages for LLM" DEBUG Hc0)
    as (w1 & E1 & K1 & F1).
  rewrite E1. unfold bind at 1.
  destruct (generate_system_prompt_keeps w1 c (system_prompt_path self)
              json_data screenshots bs (keeps_context w0 w1 c K1 Hc0))
    as (built & w2 & E2 & K2); [rewrite F1; exact Hf | exact Hu |].
  rewrite E2. unfold bind at 1.
  pose proof (keeps_trans _ _ _ K1 K2) as K02.
  destruct (log_message_keeps w2 c
              ("Writing text input for LLM to " +:+
               (log_base_path self +:+ "/ai_input_table_extract_" +:+
                request_id +:+ ".txt")) DEBUG
              (keeps_context w0 w2 c K02 Hc0))
    as (w3 & E3 & K3 & _).
  rewrite E3. unfold bind at 1.
  destruct (write_text_keeps w3
              (log_base_path self +:+ "/ai_input_table_extract_" +:+
               request_id +:+ ".txt")
              ("System: " +:+ text_of str_of_message (fst (fst built)) +:+
               String "010" "" +:+ String "010" "" +:+ "Human: " +:+
               str_of_message (snd built)))
    as (w4 & E4 & K4).
  rewrite E4. unfold bind at 1.
  pose proof (keeps_trans _ _ _ K02 (keeps_trans _ _ _ K3 K4)) as K04.
  destruct (log_message_keeps w4 c "Calling LLM..." DEBUG
              (keeps_context w0 w4 c K04 Hc0))
    as (w5 & E5 & K5 & _).
  rewrite E5. unfold bind at 1.
  pose proof (keeps_trans _ _ _ K04 K5) as K05.
  destruct (get_llm_keeps self w5 c (keeps_context w0 w5 c K05 Hc0) Hp)
    as (llm & w6 & E6 & K6).
  rewrite E6. unfold bind at 1.
  pose proof (keeps_trans _ _ _ K05 K6) as K06.
  unfold _call_llm_with_retry, default_retries.
  rewrite (loop_step_ok (backend llm)
             [fst (fst built); snd (fst built)] 5 0 4 w6
             {| content := JStr raw |}).
  2:{ destruct K06 as (_ & _ & Hcalls). rewrite Hcalls. apply Hb. }
  assert (K7 : has_context
                 (advance w6 1
                    [EvInvoke [fst (fst built); snd (fst built)]]) c).
  { apply has_context_advance. exact (keeps_context w0 w6 c K06 Hc0). }
  destruct (finish_call_agent_keeps self request_id raw _ c K7)
    as (w8 & E8 & K8).
  rewrite E8. exists w8. split; [reflexivity|].
  exact (keeps_context _ _ c K8 K7).
Qed.

End CallAgentFacts.

(* ===================================================================== *)
(** * Part III: further properties of the code                            *)
(* ===================================================================== *)

(** ** The context id of a thread *)

(** X1.  [set_thread_context_id] with a value other than [None] stores it
    for the calling thread only: [get_thread_context_id] then returns it,
    the ids of the other threads are what they were, nothing is logged or
    written, a later [log_message] succeeds and leaves the id in place, and
    a second [set_thread_context_id] replaces the first. *)
Theorem context_id_set_then_get :
  forall (w : world) (c : pyval),
    c <> PyNone ->
    exists w1,
      set_thread_context_id c w = (Ok tt, w1) /\
      get_thread_context_id w1 = (Ok c, w1) /\
      w_thread w1 = w_thread w /\ w_trace w1 = w_trace w /\
      w_fs w1 = w_fs w /\
      (forall t, t <> w_thread w -> w_tls w1 !! t = w_tls w !! t) /\
      (forall log_data level,
          exists w2,
            log_message log_data level w1 = (Ok tt, w2) /\
            get_thread_context_id w2 = (Ok c, w2)) /\
      (forall c', c' <> PyNone ->
          exists w2,
            set_thread_context_id c' w1 = (Ok tt, w2) /\
            get_thread_context_id w2 = (Ok c', w2)).
Proof.
  intros w c Hc.
  assert (Hset : forall (v : world) (d : pyval), d <> PyNone ->
            has_context
              {| w_thread := w_thread v;
                 w_tls := <[w_thread v := d]> (w_tls v);
                 w_fs := w_fs v; w_calls := w_calls v;
                 w_trace := w_trace v |} d).
  { intros v d Hd. split; [cbn; apply lookup_insert_eq | exact Hd]. }
  eexists. split; [reflexivity|].
  pose proof (Hset w c Hc) as H1.
  split; [apply get_thread_context_id_set; exact H1|].
  split; [reflexivity|]. split; [reflexivity|]. split; [reflexivity|].
  split; [|split].
  - intros t Ht. cbn. apply lookup_insert_ne. congruence.
  - intros log_data level.
    destruct (log_message_keeps _ c log_data level H1) as (w2 & E & K & _).
    exists w2. split; [exact E|].
    apply get_thread_context_id_set. exact (keeps_context _ _ c K H1).
  - intros c' Hc'. eexists. split; [reflexivity|].
    apply get_thread_context_id_set. apply (Hset _ c' Hc').
Qed.

Lemma context_id_set_then_get_witness :
  exists w1,
    set_thread_context_id (PyStr "run-1") bare_world = (Ok tt, w1) /\
    get_thread_context_id w1 = (Ok (PyStr "run-1"), w1).
Proof.
  destruct (context_id_set_then_get bare_world (PyStr "run-1"))
    as (w1 & E & G & _); [discriminate|].
  exists w1. split; [exact E | exact G].
Defined.

(** X2.  [clear_thread_context_id] never raises, removes the id of the
    calling thread only, logs and writes nothing, and can be repeated: a
    second call changes nothing.  After it [get_thread_context_id] raises,
    whether or not an id had been set. *)
Theorem clear_context_id_is_scoped :
  forall (w : world),
    exists w1,
      clear_thread_context_id w = (Ok tt, w1) /\
      w_tls w1 !! w_thread w = None /\
      (forall t, t <> w_thread w -> w_tls w1 !! t = w_tls w !! t) /\
      w_thread w1 = w_thread w /\ w_trace w1 = w_trace w /\
      w_fs w1 = w_fs w /\
      clear_thread_context_id w1 = (Ok tt, w1) /\
      get_thread_context_id w1 =
        (Raise (Exn Exception "invalid thread_context_id" None), w1).
Proof.
  intros w. unfold clear_thread_context_id at 1, bind, get_world.
  destruct (w_tls w !! w_thread w) as [v|] eqn:E.
  - eexists. split; [reflexivity|].
    assert (Hd : delete (w_thread w) (w_tls w) !! w_thread w = None)
      by apply lookup_delete_eq.
    split; [exact Hd|].
    split; [intros t Ht; cbn; apply lookup_delete_ne; congruence|].
    split; [reflexivity|]. split; [reflexivity|]. split; [reflexivity|].
    split.
    + unfold clear_thread_context_id, bind, get_world. cbn.
      rewrite Hd. reflexivity.
    + apply get_thread_context_id_unset. exact Hd.
  - exists w. split; [reflexivity|]. split; [exact E|].
    split; [reflexivity|].
    split; [reflexivity|]. split; [reflexivity|]. split; [reflexivity|].
    split.
    + unfold clear_thread_context_id, bind, get_world. rewrite E.
      reflexivity.
    + apply get_thread_context_id_unset. exact E.
Qed.

(** ** The invokers, for any number of failures *)

Lemma sum_of_backoffs (k : nat) :
  list_sum (map (fun i => 2 ^ i) (seq 0 k)) = 2 ^ k - 1.
Proof.
  induction k as [|k IH]; [reflexivity|].
  rewrite seq_S, map_app, list_sum_app, IH. simpl list_sum.
  rewrite Nat.pow_succ_r'.
  pose proof (Nat.pow_nonzero 2 k ltac:(lia)). simpl Nat.add. lia.
Qed.

Lemma invocations_of_legacy_trace messages errs : forall n i,
  invocations_of (legacy_trace messages errs i n) = n.
Proof.
  induction n as [|n IH]; intros i; [reflexivity|].
  cbn [legacy_trace app invocations_of]. rewrite IH. reflexivity.
Qed.

(** X3.  On a thread whose context id is set, when the first [k] calls of
    the client fail and call [k] answers, with [k < retries],
    [_call_llm_with_retry] returns that answer after exactly [k + 1] calls,
    having slept [2^0, ..., 2^(k-1)] seconds, one sleep after each failure:
    [2^k - 1] seconds in all.  It makes no call after the answer. *)
Theorem retry_returns_first_answer :
  forall (llm : client) (messages : list message) (errs : nat -> exn)
         (w : world) (c : pyval) (retries k : nat) (r : AIMessage),
    has_context w c ->
    k < retries ->
    (forall j, j < k -> llm (w_calls w + j) messages = Raise (errs j)) ->
    llm (w_calls w + k) messages = Ok r ->
    exists evs,
      MultiModel._call_llm_with_retry llm messages retries w =
        (Ok (Some r), advance w (k + 1) evs) /\
      invocations_of evs = k + 1 /\
      sleeps_of evs = map (fun i => 2 ^ i) (seq 0 k) /\
      list_sum (sleeps_of evs) = 2 ^ k - 1.
Proof.
  intros llm messages errs w c retries k r Hc Hk Hf Hok.
  exists (backoff_trace messages c retries errs 0 k ++ [EvInvoke messages]).
  split; [apply retry_succeeds_after; assumption|].
  assert (Hs : sleeps_of (backoff_trace messages c retries errs 0 k ++
                          [EvInvoke messages]) =
               map (fun i => 2 ^ i) (seq 0 k)).
  { rewrite sleeps_of_app, sleeps_of_backoff_trace. cbn [sleeps_of].
    apply app_nil_r. }
  split; [|split].
  - rewrite invocations_of_app, invocations_of_backoff_trace. reflexivity.
  - exact Hs.
  - rewrite Hs. apply sum_of_backoffs.
Qed.

Lemma retry_returns_first_answer_witness :
  exists evs,
    MultiModel._call_llm_with_retry flaky_client [] 5 world0 =
      (Ok (Some {| content := JStr "[]" |}), advance world0 3 evs) /\
    list_sum (sleeps_of evs) = 3.
Proof.
  destruct (retry_returns_first_answer flaky_client [] timeout_error world0
              (PyStr "aB3xZ-7") 5 2 {| content := JStr "[]" |})
    as (evs & E & _ & _ & S).
  - exact world0_has_context.
  - lia.
  - intros j Hj. destruct j as [|[|j]]; [reflexivity | reflexivity | lia].
  - reflexivity.
  - exists evs. split; [exact E | exact S].
Defined.

(** X4.  On a thread whose context id is set, when all of the
    [retries = n + 1] calls fail, [_call_llm_with_retry] raises
    [Exception("API call failed after all retries")] with the last failure
    as its cause, after exactly [n + 1] calls and [n] sleeps of
    [2^0, ..., 2^(n-1)] seconds: no sleep follows the last failure.  With
    [retries = 0] it calls nothing, raises nothing and returns [None]. *)
Theorem retry_gives_up_after_last_attempt :
  forall (llm : client) (messages : list message),
    (forall (errs : nat -> exn) (w : world) (c : pyval) (n : nat),
        has_context w c ->
        (forall j, j <= n -> llm (w_calls w + j) messages = Raise (errs j)) ->
        exists evs,
          MultiModel._call_llm_with_retry llm messages (S n) w =
            (Raise (Exn Exception "API call failed after all retries"
                      (Some (errs n))),
             advance w (n + 1) evs) /\
          invocations_of evs = n + 1 /\
          sleeps_of evs = map (fun i => 2 ^ i) (seq 0 n) /\
          list_sum (sleeps_of evs) = 2 ^ n - 1) /\
    (forall w : world,
        MultiModel._call_llm_with_retry llm messages 0 w = (Ok None, w)).
Proof.
  intros llm messages. split; [|reflexivity].
  intros errs w c n Hc Hf.
  exists (backoff_trace messages c (S n) errs 0 n ++
          failed_attempt messages c (S n) n (errs n)).
  split; [apply retry_exhausted; assumption|].
  assert (Hs : sleeps_of (backoff_trace messages c (S n) errs 0 n ++
                          failed_attempt messages c (S n) n (errs n)) =
               map (fun i => 2 ^ i) (seq 0 n)).
  { rewrite sleeps_of_app, sleeps_of_backoff_trace.
    unfold failed_attempt. cbn [sleeps_of]. apply app_nil_r. }
  split; [|split].
  - rewrite invocations_of_app, invocations_of_backoff_trace.
    unfold failed_attempt. cbn [invocations_of]. reflexivity.
  - exact Hs.
  - rewrite Hs. apply sum_of_backoffs.
Qed.

Lemma retry_gives_up_after_last_attempt_witness :
  exists evs,
    MultiModel._call_llm_with_retry dead_client [] 5 world0 =
      (Raise (Exn Exception "API call failed after all retries"
                (Some (timeout_error 4))),
       advance world0 5 evs) /\
    sleeps_of evs = [1; 2; 4; 8].
Proof.
  destruct (proj1 (retry_gives_up_after_last_attempt dead_client [])
              timeout_error world0 (PyStr "aB3xZ-7") 4)
    as (evs & E & _ & S & _).
  - exact world0_has_context.
  - intros j _. reflexivity.
  - exists evs. split; [exact E | exact S].
Defined.

(** X5.  On a thread without a context id, a failed call is not retried:
    the [log_message] of the handler raises
    [Exception("invalid thread_context_id")], which leaves
    [_call_llm_with_retry] after a single call and no sleep, and the
    failure of the client is not the cause of what is raised.  A call that
    answers at once is returned on any thread. *)
Theorem retry_needs_context_id :
  forall (llm : client) (messages : list message) (w : world)
         (retries : nat),
    0 < retries ->
    (forall e,
        w_tls w !! w_thread w = None ->
        llm (w_calls w) messages = Raise e ->
        MultiModel._call_llm_with_retry llm messages retries w =
          (Raise (Exn Exception "invalid thread_context_id" None),
           advance w 1 [EvInvoke messages])) /\
    (forall r,
        llm (w_calls w) messages = Ok r ->
        MultiModel._call_llm_with_retry llm messages retries w =
          (Ok (Some r), advance w 1 [EvInvoke messages])).
Proof.
  intros llm messages w retries Hr.
  destruct retries as [|n]; [lia|]. split.
  - intros e Hn He. unfold MultiModel._call_llm_with_retry.
    cbn [MultiModel.call_llm_with_retry_loop].
    unfold try_except, bind at 1. rewrite ainvoke_advance, He.
    cbn [existsb]. rewrite isinstance_Exception. cbn [orb].
    unfold log_message, log_message_branch, bind.
    rewrite get_thread_context_id_unset by exact Hn. reflexivity.
  - intros r Hok. apply loop_step_ok. exact Hok.
Qed.

Lemma retry_needs_context_id_witness :
  MultiModel._call_llm_with_retry dead_client [] 5 bare_world =
    (Raise (Exn Exception "invalid thread_context_id" None),
     advance bare_world 1 [EvInvoke []]).
Proof.
  apply (proj1 (retry_needs_context_id dead_client [] bare_world 5
                  ltac:(lia)) (timeout_error 0)); reflexivity.
Defined.

(** X6.  The earlier agent's [call_llm_agent_with_retry] returns the first
    answer after [k + 1] calls when the [k < retries] calls before it
    fail, and when all [retries] calls fail it raises
    [Exception("API call failed after retries")], without a cause, after
    exactly [retries] calls; with [retries = 0] that is at once, without a
    call.  In neither case does it sleep, and it needs no context id. *)
Theorem legacy_invoker_attempts :
  forall (llm : client) (messages : list message) (errs : nat -> exn)
         (w : world),
    (forall retries k r,
        k < retries ->
        (forall j, j < k -> llm (w_calls w + j) messages = Raise (errs j)) ->
        llm (w_calls w + k) messages = Ok r ->
        exists evs,
          Legacy.call_llm_agent_with_retry llm messages retries w =
            (Ok r, advance w (k + 1) evs) /\
          invocations_of evs = k + 1 /\ sleeps_of evs = []) /\
    (forall retries,
        (forall j, j < retries ->
                   llm (w_calls w + j) messages = Raise (errs j)) ->
        exists evs,
          Legacy.call_llm_agent_with_retry llm messages retries w =
            (Raise (Exn Exception "API call failed after retries" None),
             advance w retries evs) /\
          invocations_of evs = retries /\ sleeps_of evs = []).
Proof.
  intros llm messages errs w. split.
  - intros retries k r Hk Hf Hok.
    exists (legacy_trace messages errs 0 k ++ [EvInvoke messages]).
    split; [apply legacy_succeeds_after; assumption|]. split.
    + rewrite invocations_of_app, invocations_of_legacy_trace. reflexivity.
    + rewrite sleeps_of_app, sleeps_of_legacy_trace. reflexivity.
  - intros retries Hf. exists (legacy_trace messages errs 0 retries).
    split; [apply legacy_exhausted; assumption|]. split.
    + apply invocations_of_legacy_trace.
    + apply sleeps_of_legacy_trace.
Qed.

Lemma legacy_invoker_attempts_witness :
  exists evs,
    Legacy.call_llm_agent_with_retry dead_client [] 15 bare_world =
      (Raise (Exn Exception "API call failed after retries" None),
       advance bare_world 15 evs) /\
    invocations_of evs = 15 /\ sleeps_of evs = [].
Proof.
  apply (proj2 (legacy_invoker_attempts dead_client [] timeout_error
                  bare_world) 15).
  intros j _. reflexivity.
Defined.

(** ** Encoding an image, whatever is at its path *)

(** What either [get_image_as_base64] returns for a path: the Base64 text
    of the file there, or [None] without a file. *)
Definition encoded_at (fs : gmap string node) (path : string)
    : option string :=
  match fs !! path with
  | Some (File bs) => Some (Base64.b64encode bs)
  | _ => None
  end.

Definition is_print (ev : event) : bool :=
  match ev with
  | EvPrint _ => true
  | _ => false
  end.

(** The events are console lines: no call, no sleep, no log record. *)
Definition prints_only (evs : list event) : Prop :=
  forallb is_print evs = true.

Lemma prints_only_app (e1 e2 : list event) :
  prints_only e1 -> prints_only e2 -> prints_only (e1 ++ e2).
Proof.
  unfold prints_only. rewrite forallb_app. intros -> ->. reflexivity.
Qed.

Lemma prints_only_quiet (evs : list event) :
  prints_only evs ->
  invocations_of evs = 0 /\ sleeps_of evs = [] /\ logs_of evs = [].
Proof.
  unfold prints_only. induction evs as [|ev evs IH]; [auto|].
  cbn [forallb]. intros H. apply andb_true_iff in H. destruct H as [H1 H2].
  destruct ev; try discriminate. cbn. apply IH. exact H2.
Qed.

Lemma b64encode_empty (bs : list byte) :
  Base64.b64encode bs = "" <-> bs = [].
Proof.
  split; [|intros ->; reflexivity].
  unfold Base64.b64encode.
  destruct bs as [|a [|b [|c r]]]; [reflexivity | | |];
    cbn [Base64.b64encode_chars app string_of_list_ascii]; discriminate.
Qed.

Lemma get_image_as_base64_encoded (path : string) (w : world) :
  exists evs,
    MultiModel.get_image_as_base64 path w =
      (Ok (encoded_at (w_fs w) path), advance w 0 evs) /\
    prints_only evs /\
    length evs = match encoded_at (w_fs w) path with
                 | Some _ => 0
                 | None => 1
                 end.
Proof.
  unfold MultiModel.get_image_as_base64, try_except, bind, Io.read_bytes,
    Io.open_read, bind, get_world, encoded_at.
  destruct (w_fs w !! path) as [[es|bs]|];
    unfold raise, ret; cbn [existsb];
    rewrite ?isinstance_Exception; cbn [orb];
    rewrite ?print_advance.
  - eexists. split; [reflexivity | split; reflexivity].
  - exists []. rewrite advance_0_nil. split; [reflexivity | split; reflexivity].
  - eexists. split; [reflexivity | split; reflexivity].
Qed.

Lemma legacy_get_image_as_base64_encoded (path : string) (w : world) :
  exists evs,
    Legacy.get_image_as_base64 path w =
      (Ok (encoded_at (w_fs w) path), advance w 0 evs) /\
    prints_only evs /\
    length evs = match encoded_at (w_fs w) path with
                 | Some _ => 0
                 | None => 1
                 end.
Proof.
  unfold Legacy.get_image_as_base64, Io.path_exists, try_except, bind,
    Io.read_bytes, Io.open_read, bind, get_world, encoded_at, ret.
  destruct (w_fs w !! path) as [[es|bs]|] eqn:E;
    cbn [negb]; cbv beta iota; rewrite ?E; unfold raise; cbn [existsb];
    rewrite ?isinstance_Exception; cbn [orb];
    rewrite ?print_advance.
  - eexists. split; [reflexivity | split; reflexivity].
  - exists []. rewrite advance_0_nil. split; [reflexivity | split; reflexivity].
  - eexists. split; [reflexivity | split; reflexivity].
Qed.

(** X7.  Both versions of [get_image_as_base64] are total and agree on
    what they return: the Base64 text of the bytes when the path is a file,
    and [None] when nothing is there or a directory is.  They call, sleep
    and log nothing and change no file; a [None] comes with exactly one
    printed line and a text with none.  The text is empty exactly for an
    empty file. *)
Theorem image_encoding_outcomes :
  forall (w : world) (path : string),
    exists evs evs',
      MultiModel.get_image_as_base64 path w =
        (Ok (encoded_at (w_fs w) path), advance w 0 evs) /\
      Legacy.get_image_as_base64 path w =
        (Ok (encoded_at (w_fs w) path), advance w 0 evs') /\
      prints_only evs /\ prints_only evs' /\
      length evs = length evs' /\
      length evs = match encoded_at (w_fs w) path with
                   | Some _ => 0
                   | None => 1
                   end /\
      (encoded_at (w_fs w) path = Some "" <->
       w_fs w !! path = Some (File [])).
Proof.
  intros w path.
  destruct (get_image_as_base64_encoded path w) as (evs & E & P & L).
  destruct (legacy_get_image_as_base64_encoded path w)
    as (evs' & E' & P' & L').
  exists evs, evs'. repeat (split; [assumption|]).
  split; [congruence|]. split.
  - exact L.
  - unfold encoded_at. destruct (w_fs w !! path) as [[es|bs]|]; split;
      intros H; try discriminate.
    + inversion H as [H1]. apply b64encode_empty in H1. subst. reflexivity.
    + inversion H. reflexivity.
Qed.

(** ** The orchestrators at their edges *)

Section OrchestratorEdges.

Import MultiModel.

Variable call_agent : string -> string -> list string -> M json.
Variable json_dumps : json -> string.
Variable request_id_prefix : pyval.
Variable folder_path : string.

(** The line printed before the aggregated results are written. *)
Definition finished_line (output_path : string) : string :=
  String "010" "Finished processing all images. " +:+
  "Writing aggregated results to " +:+ output_path.

(** The world after [text] was written to [path]. *)
Definition written (w : world) (path text : string) : world :=
  {| w_thread := w_thread w; w_tls := w_tls w;
     w_fs := <[path := File (list_byte_of_string text)]> (w_fs w);
     w_calls := w_calls w; w_trace := w_trace w |}.

Lemma write_text_written (path text : string) (w : world) :
  Io.write_text path text w = (Ok tt, written w path text).
Proof. reflexivity. Qed.

(** Once the folder is listed, the function is its loop, followed by the
    write of what the loop gave. *)
Lemma process_folder_sequentially_listed output_path (w w1 : world)
    entries data :
  w_fs w !! folder_path = Some (Dir entries) ->
  process_images call_agent request_id_prefix folder_path
    (length (image_files_of entries)) 0 (image_files_of entries) []
    (advance w 0
       [EvPrint ("Starting to process images in folder: " +:+
                 folder_path +:+ String "010" "")]) = (Ok data, w1) ->
  process_folder_sequentially call_agent json_dumps request_id_prefix
    folder_path output_path w =
    (Ok (Some data),
     written (advance w1 0 [EvPrint (finished_line output_path)])
       output_path (json_dumps (JArr data))).
Proof.
  intros H E.
  unfold process_folder_sequentially, bind at 1.
  unfold Io.path_isdir, bind at 1, get_world. rewrite H.
  unfold ret at 1. cbn [negb]. unfold bind at 1.
  rewrite print_advance. unfold bind at 1.
  unfold Io.listdir, bind at 1, get_world.
  unfold advance at 1. cbn [w_fs]. rewrite H.
  unfold ret at 1. unfold bind at 1. rewrite E.
  unfold bind at 1. rewrite print_advance.
  unfold bind at 1. rewrite write_text_written. reflexivity.
Qed.

(** The file at [path] gives no image: nothing is there, a directory is,
    or the file is empty. *)
Definition unreadable (fs : gmap string node) (path : string) : bool :=
  match encoded_at fs path with
  | Some b64 => negb (PyStr.nonempty b64)
  | None => true
  end.

Lemma process_image_unreadable total i filename acc (w : world) :
  unreadable (w_fs w) (Io.path_join folder_path filename) = true ->
  exists evs,
    process_image call_agent request_id_prefix folder_path total i filename
      acc w = (Ok (acc ++ [encode_error_entry filename]), advance w 0 evs) /\
    prints_only evs.
Proof.
  intros U. unfold process_image, bind at 1. rewrite print_advance.
  unfold bind at 1.
  destruct (get_image_as_base64_encoded
              (Io.path_join folder_path filename)
              (advance w 0 [EvPrint
                 ("--- Processing image " +:+ pretty (i + 1) +:+ "/" +:+
                  pretty total +:+ ": " +:+ filename +:+ " ---")]))
    as (evs & E & P & _).
  rewrite E. unfold advance at 1. cbn [w_fs].
  unfold unreadable in U.
  destruct (encoded_at (w_fs w) (Io.path_join folder_path filename))
    as [b64|].
  - rewrite U. unfold ret. rewrite advance_advance.
    eexists. split; [reflexivity|].
    apply prints_only_app; [reflexivity | exact P].
  - unfold ret. rewrite advance_advance.
    eexists. split; [reflexivity|].
    apply prints_only_app; [reflexivity | exact P].
Qed.

Lemma process_images_unreadable total :
  forall image_files i acc (w : world),
    (forall f, In f image_files ->
               unreadable (w_fs w) (Io.path_join folder_path f) = true) ->
    exists evs,
      process_images call_agent request_id_prefix folder_path total i
        image_files acc w =
        (Ok (acc ++ map encode_error_entry image_files), advance w 0 evs) /\
      prints_only evs.
Proof.
  induction image_files as [|f rest IH]; intros i acc w U.
  - exists []. cbn [process_images map]. unfold ret.
    rewrite app_nil_r, advance_0_nil. split; reflexivity.
  - cbn [process_images map]. unfold bind.
    destruct (process_image_unreadable total i f acc w (U f (or_introl eq_refl)))
      as (e1 & E1 & P1).
    rewrite E1.
    destruct (IH (S i) (acc ++ [encode_error_entry f]) (advance w 0 e1))
      as (e2 & E2 & P2).
    { intros g Hg. apply U. right. exact Hg. }
    rewrite E2, advance_advance, <- app_assoc.
    eexists. split; [reflexivity|].
    apply prints_only_app; assumption.
Qed.

End OrchestratorEdges.

(** X8.  For a folder path that is not a directory, be it missing or a
    file, [process_folder_sequentially] and [process_images_in_folder]
    both print the same one line and return [None]: the agent is not
    called, and no output file is written. *)
Theorem batch_without_folder :
  forall (call_agent : string -> string -> list string -> M json)
         (json_dumps : json -> string) (request_id_prefix : pyval)
         (request_id folder_path output_path : string) (w : world),
    (forall entries, w_fs w !! folder_path <> Some (Dir entries)) ->
    let w' :=
      advance w 0
        [EvPrint ("Error: Folder not found at '" +:+ folder_path +:+ "'")]
    in
    MultiModel.process_folder_sequentially call_agent json_dumps
      request_id_prefix folder_path output_path w = (Ok None, w') /\
    MultiModelJoint.process_images_in_folder call_agent json_dumps
      request_id folder_path output_path w = (Ok None, w').
Proof.
  intros call_agent json_dumps prefix rid folder output w H w'.
  unfold MultiModel.process_folder_sequentially,
    MultiModelJoint.process_images_in_folder, bind, Io.path_isdir, bind,
    get_world, ret.
  destruct (w_fs w !! folder) as [[es|bs]|] eqn:E.
  - exfalso. exact (H es eq_refl).
  - cbn [negb]. rewrite print_advance. split; reflexivity.
  - cbn [negb]. rewrite print_advance. split; reflexivity.
Qed.

Lemma batch_without_folder_witness :
  MultiModel.process_folder_sequentially sample_agent sample_dumps (PyInt 1)
    "img/section_1.jpg" "out.json" batch_world =
    (Ok None,
     advance batch_world 0
       [EvPrint "Error: Folder not found at 'img/section_1.jpg'"]).
Proof.
  apply (batch_without_folder sample_agent sample_dumps (PyInt 1) "r"
           "img/section_1.jpg" "out.json" batch_world).
  intros entries. vm_compute. discriminate.
Defined.


(** A folder whose two images give nothing: one is empty, the other is
    listed but not there. *)
Definition unreadable_world : world :=
  {| w_thread := 7; w_tls := ∅;
     w_fs := {[ "img" := Dir ["b.png"; "a.png"; "notes.txt"];
                "img/a.png" := File [] ]};
     w_calls := 0; w_trace := [] |}.


(** ** The sequential batch as a map over the files *)

Section AnsweringAgent.

Import MultiModel.

Variable call_agent : string -> string -> list string -> M json.
Variable request_id_prefix : pyval.
Variable folder_path : string.

(** What the agent gives for a request id and its images. *)
Variable answer : string -> list string -> result json.

(** The agent gives [answer], and whatever else it does, it leaves the
    files of the folder alone. *)
Definition answers_by : Prop :=
  forall request_id screenshots (w : world),
    exists w',
      call_agent request_id "{}" screenshots w =
        (answer request_id screenshots, w') /\
      forall f, w_fs w' !! Io.path_join folder_path f =
                w_fs w !! Io.path_join folder_path f.

(** The slot of a file, read off the files and the answers. *)
Definition slot_of (fs : gmap string node) (filename : string) : json :=
  match encoded_at fs (Io.path_join folder_path filename) with
  | Some b64 =>
      if PyStr.nonempty b64 then
        match answer (image_request_id request_id_prefix filename) [b64]
        with
        | Ok response => single_table_data_of response
        | Raise e => call_error_entry e filename
        end
      else encode_error_entry filename
  | None => encode_error_entry filename
  end.

(** The two worlds hold the same files of the folder. *)
Definition same_images (w w' : world) : Prop :=
  forall f, w_fs w' !! Io.path_join folder_path f =
            w_fs w !! Io.path_join folder_path f.

Lemma slot_of_same_images (w w' : world) filename :
  same_images w w' -> slot_of (w_fs w') filename = slot_of (w_fs w) filename.
Proof.
  intros S. unfold slot_of, encoded_at. rewrite (S filename). reflexivity.
Qed.

Lemma process_image_slot_of total i filename acc (w : world) :
  answers_by ->
  exists w',
    process_image call_agent request_id_prefix folder_path total i filename
      acc w = (Ok (acc ++ [slot_of (w_fs w) filename]), w') /\
    same_images w w'.
Proof.
  intros A. unfold process_image, bind at 1. rewrite print_advance.
  unfold bind at 1.
  destruct (get_image_as_base64_encoded
              (Io.path_join folder_path filename)
              (advance w 0 [EvPrint
                 ("--- Processing image " +:+ pretty (i + 1) +:+ "/" +:+
                  pretty total +:+ ": " +:+ filename +:+ " ---")]))
    as (evs & E & _ & _).
  rewrite E. unfold advance at 1. cbn [w_fs]. unfold slot_of.
  destruct (encoded_at (w_fs w) (Io.path_join folder_path filename))
    as [b64|].
  - destruct (PyStr.nonempty b64); cbn [negb].
    + unfold try_except, bind at 1.
      fold (image_request_id request_id_prefix filename).
      match goal with
      | |- context [call_agent ?r "{}" ?s ?v] =>
          destruct (A r s v) as (w2 & C & S)
      end.
      rewrite C.
      destruct (answer (image_request_id request_id_prefix filename) [b64])
        as [response|e].
      * unfold bind at 1. rewrite print_advance. unfold ret.
        eexists. split; [reflexivity | exact S].
      * cbn [existsb]. rewrite isinstance_Exception. cbn [orb].
        unfold bind at 1. rewrite print_advance. unfold ret.
        eexists. split; [reflexivity | exact S].
    + unfold ret. eexists. split; [reflexivity | intros f; reflexivity].
  - unfold ret. eexists. split; [reflexivity | intros f; reflexivity].
Qed.

Lemma process_images_slot_of total :
  answers_by ->
  forall image_files i acc (w : world),
    exists w',
      process_images call_agent request_id_prefix folder_path total i
        image_files acc w =
        (Ok (acc ++ map (slot_of (w_fs w)) image_files), w') /\
      same_images w w'.
Proof.
  intros A. induction image_files as [|f rest IH]; intros i acc w.
  - exists w. cbn [process_images map]. unfold ret. rewrite app_nil_r.
    split; [reflexivity | intros g; reflexivity].
  - cbn [process_images map]. unfold bind.
    destruct (process_image_slot_of total i f acc w A) as (w1 & E1 & S1).
    rewrite E1.
    destruct (IH (S i) (acc ++ [slot_of (w_fs w) f]) w1) as (w2 & E2 & S2).
    rewrite E2. exists w2. split.
    + rewrite <- app_assoc. cbn [app]. f_equal. f_equal. f_equal. f_equal.
      apply map_ext. intros g. apply slot_of_same_images. exact S1.
    + intros g. rewrite (S2 g). apply S1.
Qed.

End AnsweringAgent.


(** The answers of [sample_agent]. *)
Definition sample_answer (request_id : string) (screenshots : list string)
    : result json :=
  if String.eqb request_id "1_section_2"
  then Raise (Exn Exception "API call failed after all retries" None)
  else Ok (JArr [JObj [("request", JStr request_id)]]).


(** ** All images in one call *)

Section JointBatch.

Import MultiModel MultiModelJoint.

Variable call_agent : string -> string -> list string -> M json.
Variable json_dumps : json -> string.

(** The encodings of the files that give an image, in the order of the
    files. *)
Fixpoint encodings (fs : gmap string node) (folder_path : string)
    (files : list string) : list string :=
  match files with
  | [] => []
  | f :: rest =>
      match encoded_at fs (Io.path_join folder_path f) with
      | Some b64 =>
          if PyStr.nonempty b64
          then b64 :: encodings fs folder_path rest
          else encodings fs folder_path rest
      | None => encodings fs folder_path rest
      end
  end.

Lemma load_images_encodings folder_path :
  forall names table_images (w : world),
    exists evs,
      load_images folder_path names table_images w =
        (Ok (table_images ++
             encodings (w_fs w) folder_path
               (List.filter is_supported names)),
         advance w 0 evs) /\
      prints_only evs.
Proof.
  induction names as [|f rest IH]; intros acc w.
  - exists []. cbn [load_images List.filter encodings]. unfold ret.
    rewrite app_nil_r, advance_0_nil. split; reflexivity.
  - cbn [load_images List.filter]. unfold is_supported at 1.
    destruct (PyStr.endswith_any (PyStr.lower f) supported_extensions).
    + unfold bind at 1. rewrite print_advance. unfold bind at 1.
      match goal with
      | |- context [get_image_as_base64 ?p ?v] =>
          destruct (get_image_as_base64_encoded p v) as (e1 & E1 & P1 & _)
      end.
      rewrite E1. unfold advance at 1. cbn [w_fs encodings].
      rewrite advance_advance.
      destruct (encoded_at (w_fs w) (Io.path_join folder_path f))
        as [b64|]; [destruct (PyStr.nonempty b64)|];
        match goal with
        | |- context [load_images folder_path rest ?a ?v] =>
            destruct (IH a v) as (e2 & E2 & P2)
        end;
        rewrite E2, advance_advance; rewrite <- ?app_assoc;
        (eexists; split; [reflexivity|]);
        unfold prints_only in *; rewrite !forallb_app, P1, P2; reflexivity.
    + apply IH.
Qed.

End JointBatch.



(** ** [call_agent] around the invoker *)

(** [w'] is [w] after steps that made no call and did not sleep; the
    thread and its context ids are the same. *)
Definition quiet (w w' : world) : Prop :=
  keeps w w' /\
  exists evs,
    w_trace w' = w_trace w ++ evs /\
    invocations_of evs = 0 /\ sleeps_of evs = [].

Lemma quiet_refl (w : world) : quiet w w.
Proof.
  split; [apply keeps_refl|]. exists []. rewrite app_nil_r. auto.
Qed.

Lemma quiet_trans (w1 w2 w3 : world) :
  quiet w1 w2 -> quiet w2 w3 -> quiet w1 w3.
Proof.
  intros (K1 & e1 & T1 & I1 & S1) (K2 & e2 & T2 & I2 & S2).
  split; [eapply keeps_trans; eauto|].
  exists (e1 ++ e2). rewrite T2, T1, <- app_assoc.
  rewrite invocations_of_app, sleeps_of_app, I1, I2, S1, S2. auto.
Qed.

Lemma quiet_context (w w' : world) c :
  quiet w w' -> has_context w c -> has_context w' c.
Proof. intros [K _]. apply keeps_context. exact K. Qed.

Lemma log_message_quiet (w : world) c log_data level :
  has_context w c ->
  exists w',
    log_message log_data level w = (Ok tt, w') /\
    quiet w w' /\ w_fs w' = w_fs w.
Proof.
  intros Hc. unfold log_message, bind.
  rewrite (log_message_branch_set w c log_data level Hc).
  destruct (Nat.leb DEBUG level).
  - eexists. split; [reflexivity|]. split; [|reflexivity]. split.
    + repeat split. cbn. lia.
    + eexists. split; [reflexivity|]. split; reflexivity.
  - exists w. split; [reflexivity|]. split; [apply quiet_refl | reflexivity].
Qed.

Lemma write_text_quiet (w : world) path text :
  quiet w (written w path text).
Proof.
  split; [repeat split|]. exists []. cbn. rewrite app_nil_r. auto.
Qed.

Section CallAgentSchedule.

Import MultiModel.

Variable cwd : string.
Variable today : string.
Variable random_prefix : string.
Variable json_dumps : json -> string.
Variable json_dumps_indented : json -> string.
Variable py_repr : json -> string.
Variable str_of_message : message -> string.
Variable backend : chat_model -> client.

(** The messages built from the text of the prompt file: the system
    message, the human message and the human message without images. *)
Definition prompt_messages (prompt json_content : string)
    (screenshots : list string) : message * message * message :=
  let contents :=
    AgentUtil.replace_ellipses (json_dumps (JStr json_content)) in
  (SystemMessage
     (("Today's date - " +:+ today +:+ String "010" "") +:+ prompt),
   HumanMessage
     (map (fun screenshot =>
             BImage ("data:image/jpeg;base64," +:+ screenshot))
        screenshots ++ [BText contents]),
   HumanMessage [BText contents]).

(** The chat model [_get_llm] builds for a supported provider. *)
Definition built_model (self : MultiModalTableInterpreter) : chat_model :=
  let name := JStr (model_name self) in
  let shared := [("temperature", JFloat 0 0); ("max_tokens", JInt 4096)] in
  if String.eqb (provider self) "openai"
  then ChatOpenAI (("model", name) :: shared)
  else if String.eqb (provider self) "google"
  then ChatGoogleGenerativeAI (shared ++ [("model_name", name)])
  else ChatBedrock (shared ++ [("model_id", name)]).

Lemma generate_system_prompt_quiet (w : world) c path json_content
    screenshots bs :
  has_context w c ->
  w_fs w !! Io.path_join cwd path = Some (File bs) ->
  Io.utf8_valid bs = true ->
  exists w',
    AgentUtil.generate_system_prompt_with_json_data_for_multiple_images
      cwd today json_dumps path json_content screenshots w =
      (Ok (prompt_messages (string_of_list_byte bs) json_content
             screenshots), w') /\
    quiet w w' /\
    w_fs w' =
      (if PyStr.nonempty (string_of_list_byte bs)
       then <["combined_file.txt" := File (list_byte_of_string
                                             (string_of_list_byte bs))]>
              (w_fs w)
       else w_fs w).
Proof.
  intros Hc Hf Hu.
  assert (Hm : forall text : string,
            match screenshots with
            | [] => HumanMessage [BText text]
            | _ :: _ =>
                HumanMessage
                  (map (fun screenshot =>
                          BImage ("data:image/jpeg;base64," +:+ screenshot))
                     screenshots ++ [BText text])
            end =
            HumanMessage
              (map (fun screenshot =>
                      BImage ("data:image/jpeg;base64," +:+ screenshot))
                 screenshots ++ [BText text])).
  { intros text. destruct screenshots; reflexivity. }
  unfold AgentUtil.generate_system_prompt_with_json_data_for_multiple_images,
    bind at 1.
  unfold AgentUtil.generate_prompt_messages, bind at 1.
  unfold AgentUtil.combine_system_prompt_input_files, try_clauses,
    bind at 1.
  unfold Io.read_text, bind at 1, Io.open_read, bind at 1, get_world.
  rewrite Hf. unfold ret at 1. rewrite Hu. unfold ret at 1 2.
  destruct (PyStr.nonempty (string_of_list_byte bs)).
  - unfold bind at 1.
    destruct (log_message_quiet w c
                ("Prompt message: " +:+ string_of_list_byte bs) DEBUG Hc)
      as (w1 & E1 & Q1 & F1).
    rewrite E1. unfold bind at 1. rewrite write_text_written.
    unfold ret. rewrite Hm. eexists. split; [reflexivity|]. split.
    + eapply quiet_trans; [exact Q1 | apply write_text_quiet].
    + cbn [written w_fs]. rewrite F1. reflexivity.
  - unfold ret. rewrite Hm. eexists.
    split; [reflexivity | split; [apply quiet_refl | reflexivity]].
Qed.

Lemma get_llm_quiet (self : MultiModalTableInterpreter) (w : world) c :
  has_context w c ->
  str_in (provider self) supported_providers = true ->
  exists w',
    _get_llm self w = (Ok (built_model self), w') /\
    quiet w w' /\ w_fs w' = w_fs w.
Proof.
  intros Hc Hp. unfold _get_llm, bind, built_model.
  destruct (log_message_quiet w c
              ("Initializing LLM for provider: '" +:+ provider self +:+
               "' with model: '" +:+ model_name self +:+ "'") DEBUG Hc)
    as (w1 & E1 & Q1 & F1).
  rewrite E1.
  apply str_in_supported in Hp. destruct Hp as [-> | [-> | ->]];
    cbn [String.eqb Ascii.eqb Bool.eqb]; unfold ret;
    eexists; (split; [reflexivity | split; [exact Q1 | exact F1]]).
Qed.

Lemma finish_call_agent_quiet (self : MultiModalTableInterpreter)
    request_id raw (w : world) c :
  has_context w c ->
  exists w',
    finish_call_agent json_dumps_indented py_repr self request_id
      (Some {| content := JStr raw |}) w = (Ok (outcome_of raw), w') /\
    quiet w w'.
Proof.
  intros Hc. unfold finish_call_agent, bind at 1, outcome_of.
  destruct (Json.loads (cleaned_content_of raw)) as [v|] eqn:E.
  - rewrite (parse_response_parsed py_repr raw v w E).
    unfold bind at 1.
    destruct (log_message_quiet w c
                "Successfully parsed response from LLM." DEBUG Hc)
      as (w1 & E1 & Q1 & _).
    rewrite E1. unfold bind at 1. rewrite write_text_written.
    unfold ret. eexists. split; [reflexivity|].
    eapply quiet_trans; [exact Q1 | apply write_text_quiet].
  - rewrite (parse_response_unparsed py_repr raw c w Hc E).
    unfold ret. eexists. split; [reflexivity|]. split.
    + repeat split. cbn. lia.
    + eexists. split; [reflexivity|]. split; reflexivity.
Qed.

End CallAgentSchedule.

(** [w'] is [w] after [calls] calls of the client and the sleeps [sleeps],
    on the same thread with the same context ids. *)
Definition spent (w w' : world) (calls : nat) (sleeps : list nat) : Prop :=
  w_thread w' = w_thread w /\ w_tls w' = w_tls w /\
  w_calls w' = w_calls w + calls /\
  exists evs,
    w_trace w' = w_trace w ++ evs /\
    invocations_of evs = calls /\ sleeps_of evs = sleeps.

Lemma quiet_spent (w w' : world) : quiet w w' -> spent w w' 0 [].
Proof.
  intros ((K1 & K2 & K3) & evs & T & I & S).
  repeat split; try assumption; [lia|]. exists evs. auto.
Qed.

Lemma advance_spent (w : world) n evs :
  spent w (advance w n evs) n (sleeps_of evs) <-> invocations_of evs = n.
Proof.
  split.
  - intros (_ & _ & _ & evs' & T & I & _). cbn in T.
    apply app_inv_head in T. congruence.
  - intros I. repeat split. exists evs. auto.
Qed.

Lemma spent_trans (w1 w2 w3 : world) n m s t :
  spent w1 w2 n s -> spent w2 w3 m t -> spent w1 w3 (n + m) (s ++ t).
Proof.
  intros (A1 & A2 & A3 & e1 & T1 & I1 & S1)
         (B1 & B2 & B3 & e2 & T2 & I2 & S2).
  repeat split; try congruence; [lia|].
  exists (e1 ++ e2). rewrite T2, T1, <- app_assoc.
  rewrite invocations_of_app, sleeps_of_app, I1, I2, S1, S2. auto.
Qed.

Lemma spent_context (w w' : world) n s c :
  spent w w' n s -> has_context w c -> has_context w' c.
Proof.
  intros (A1 & A2 & _) [H1 H2]. split; [|exact H2].
  rewrite A1, A2. exact H1.
Qed.

(** The text read from the file at [path], when it is a file in UTF-8. *)
Definition text_at (fs : gmap string node) (path : string)
    : option string :=
  match fs !! path with
  | Some (File bs) =>
      if Io.utf8_valid bs then Some (string_of_list_byte bs) else None
  | _ => None
  end.

(** Decide the [isinstance] tests on exceptions whose class is known. *)
Ltac decide_isinstance :=
  repeat match goal with
         | |- context [isinstance (Exn ?k ?m ?z) ?d] =>
             let b := eval vm_compute in (issubclass k d) in
             change (isinstance (Exn k m z) d) with b
         end.

Section PromptBuilder.

Variable cwd : string.
Variable today : string.
Variable json_dumps : json -> string.

Lemma combine_unreadable (w : world) c txt_file_path :
  has_context w c ->
  text_at (w_fs w) txt_file_path = None ->
  exists w',
    AgentUtil.combine_system_prompt_input_files txt_file_path w =
      (Ok None, w') /\
    quiet w w' /\ w_fs w' = w_fs w.
Proof.
  intros Hc Ht. unfold text_at in Ht.
  unfold AgentUtil.combine_system_prompt_input_files, try_clauses,
    bind at 1.
  unfold Io.read_text, bind at 1, Io.open_read, bind at 1, get_world.
  destruct (w_fs w !! txt_file_path) as [[es|bs]|];
    [| destruct (Io.utf8_valid bs) eqn:U; [discriminate|] |];
    unfold ret, raise; cbv beta iota; rewrite ?U;
    cbn [select_handler]; decide_isinstance;
    cbv beta iota; unfold bind;
    match goal with
    | |- context [log_message ?d ERROR w] =>
        destruct (log_message_quiet w c d ERROR Hc) as (w1 & E1 & Q1 & F1)
    end;
    rewrite E1; exists w1; auto.
Qed.

Lemma generate_system_prompt_unreadable (w : world) c path json_content
    screenshots :
  has_context w c ->
  text_at (w_fs w) (Io.path_join cwd path) = None ->
  exists w',
    AgentUtil.generate_system_prompt_with_json_data_for_multiple_images
      cwd today json_dumps path json_content screenshots w =
      (Raise (Exn Exception "Not able to generate system prompt" None),
       w') /\
    quiet w w' /\ w_fs w' = w_fs w.
Proof.
  intros Hc Ht.
  unfold AgentUtil.generate_system_prompt_with_json_data_for_multiple_images,
    bind at 1.
  unfold AgentUtil.generate_prompt_messages, bind at 1.
  destruct (combine_unreadable w c (Io.path_join cwd path) Hc Ht)
    as (w1 & E1 & Q1 & F1).
  rewrite E1. unfold ret at 1. unfold bind at 1.
  destruct (log_message_quiet w1 c "system_prompt is None" ERROR
              (quiet_context w w1 c Q1 Hc)) as (w2 & E2 & Q2 & F2).
  rewrite E2. unfold raise. exists w2. split; [reflexivity|].
  split; [eapply quiet_trans; eauto | congruence].
Qed.

End PromptBuilder.



Section CallAgentOutcomes.

Import MultiModel.

Variable cwd : string.
Variable today : string.
Variable random_prefix : string.
Variable json_dumps : json -> string.
Variable json_dumps_indented : json -> string.
Variable py_repr : json -> string.
Variable str_of_message : message -> string.
Variable backend : chat_model -> client.

(** The context id [call_agent] sets on the thread of [w]. *)
Definition agent_context_id (w : world) : pyval :=
  PyStr (random_prefix +:+ "-" +:+ pretty (w_thread w)).

(** The world once the context id is set. *)
Definition with_context_id (w : world) : world :=
  {| w_thread := w_thread w;
     w_tls := <[w_thread w := agent_context_id w]> (w_tls w);
     w_fs := w_fs w; w_calls := w_calls w; w_trace := w_trace w |}.

Lemma with_context_id_has_context (w : world) :
  has_context (with_context_id w) (agent_context_id w).
Proof. split; [cbn; apply lookup_insert_eq | discriminate]. Qed.

(** The two messages sent to the model. *)
Definition sent_messages (prompt json_data : string)
    (screenshots : list string) : list message :=
  let built := prompt_messages today json_dumps prompt json_data screenshots
  in [fst (fst built); snd (fst built)].

(** With a supported provider and a readable prompt, [call_agent] comes
    to its invoker without a call or a sleep. *)
(** The file [call_agent] writes before it calls the model. *)
Definition input_log_path (self : MultiModalTableInterpreter)
    (request_id : string) : string :=
  log_base_path self +:+ "/ai_input_table_extract_" +:+ request_id +:+
  ".txt".

Lemma call_agent_reaches_llm (self : MultiModalTableInterpreter)
    request_id json_data screenshots (w : world) bs :
  str_in (provider self) supported_providers = true ->
  w_fs w !! Io.path_join cwd (system_prompt_path self) = Some (File bs) ->
  Io.utf8_valid bs = true ->
  exists w6,
    quiet (with_context_id w) w6 /\
    call_agent cwd today random_prefix json_dumps json_dumps_indented
      py_repr str_of_message backend self request_id json_data screenshots
      w =
    (response <-
       _call_llm_with_retry (backend (built_model self))
         (sent_messages (string_of_list_byte bs) json_data screenshots)
         default_retries ;;
     finish_call_agent json_dumps_indented py_repr self request_id
       response) w6 /\
    (forall path,
        path <> "combined_file.txt" ->
        path <> input_log_path self request_id ->
        w_fs w6 !! path = w_fs w !! path).
Proof.
  intros Hp Hf Hu.
  pose proof (with_context_id_has_context w) as Hc0.
  unfold call_agent, bind at 1, get_world. unfold bind at 1.
  unfold set_thread_context_id, bind at 1, get_world, set_tls.
  fold (agent_context_id w). fold (with_context_id w).
  fold (input_log_path self request_id).
  set (c := agent_context_id w) in *.
  set (w0 := with_context_id w) in *.
  unfold bind at 1.
  destruct (log_message_quiet w0 c
              "Generating system and human messages for LLM" DEBUG Hc0)
    as (w1 & E1 & Q1 & F1).
  rewrite E1. unfold bind at 1.
  destruct (generate_system_prompt_quiet cwd today json_dumps w1 c
              (system_prompt_path self) json_data screenshots bs
              (quiet_context w0 w1 c Q1 Hc0))
    as (w2 & E2 & Q2 & F2); [rewrite F1; exact Hf | exact Hu |].
  rewrite E2. unfold bind at 1.
  pose proof (quiet_trans _ _ _ Q1 Q2) as Q02.
  match goal with
  | |- context [log_message ?d DEBUG w2] =>
      destruct (log_message_quiet w2 c d DEBUG
                  (quiet_context w0 w2 c Q02 Hc0))
        as (w3 & E3 & Q3 & F3)
  end.
  rewrite E3. unfold bind at 1. rewrite write_text_written.
  unfold bind at 1.
  match goal with
  | |- context [log_message "Calling LLM..." DEBUG (written w3 ?p ?t)] =>
      pose proof (quiet_trans _ _ _ Q02
                    (quiet_trans _ _ _ Q3 (write_text_quiet w3 p t)))
        as Q04;
      destruct (log_message_quiet (written w3 p t) c "Calling LLM..." DEBUG
                  (quiet_context w0 _ c Q04 Hc0))
        as (w5 & E5 & Q5 & F5)
  end.
  rewrite E5. unfold bind at 1.
  pose proof (quiet_trans _ _ _ Q04 Q5) as Q05.
  destruct (get_llm_quiet self w5 c (quiet_context w0 w5 c Q05 Hc0) Hp)
    as (w6 & E6 & Q6 & F6).
  rewrite E6. exists w6. split; [exact (quiet_trans _ _ _ Q05 Q6)|].
  split; [reflexivity|].
  intros path N1 N2. rewrite F6, F5. cbn [written w_fs].
  rewrite lookup_insert_ne by congruence. rewrite F3, F2, F1.
  destruct (PyStr.nonempty (string_of_list_byte bs));
    [rewrite lookup_insert_ne by congruence|]; reflexivity.
Qed.

(** What [call_agent] has spent when it ends in [w']: the calls and the
    sleeps made since [w], on a thread that now holds the context id. *)
Definition agent_spent (w w' : world) (calls : nat) (sleeps : list nat)
    : Prop :=
  has_context w' (agent_context_id w) /\
  w_calls w' = w_calls w + calls /\
  exists evs,
    w_trace w' = w_trace w ++ evs /\
    invocations_of evs = calls /\ sleeps_of evs = sleeps.

Lemma spent_agent_spent (w w' : world) calls sleeps :
  spent (with_context_id w) w' calls sleeps -> agent_spent w w' calls sleeps.
Proof.
  intros S. split.
  - exact (spent_context _ _ _ _ _ S (with_context_id_has_context w)).
  - destruct S as (_ & _ & C & T). split; [exact C | exact T].
Qed.


(** Five failures in a row: what is raised, what it cost, and the files
    that were left alone. *)
Lemma call_agent_exhausted (self : MultiModalTableInterpreter)
    (request_id json_data : string) (screenshots : list string)
    (w : world) (bs : list byte) (errs : nat -> exn) :
  str_in (provider self) supported_providers = true ->
  w_fs w !! Io.path_join cwd (system_prompt_path self) = Some (File bs) ->
  Io.utf8_valid bs = true ->
  (forall j, j <= 4 ->
     backend (built_model self) (w_calls w + j)
       (sent_messages (string_of_list_byte bs) json_data screenshots) =
       Raise (errs j)) ->
  exists w',
    call_agent cwd today random_prefix json_dumps json_dumps_indented
      py_repr str_of_message backend self request_id json_data screenshots
      w =
      (Raise (Exn Exception "API call failed after all retries"
                (Some (errs 4))), w') /\
    agent_spent w w' 5 [1; 2; 4; 8] /\
    (forall path,
        path <> "combined_file.txt" ->
        path <> input_log_path self request_id ->
        w_fs w' !! path = w_fs w !! path).
Proof.
  intros Hp Hf Hu Hfail.
  destruct (call_agent_reaches_llm self request_id json_data screenshots w
              bs Hp Hf Hu) as (w6 & Q & E & Hfs).
  rewrite E. clear E. unfold bind at 1.
  pose proof (quiet_spent _ _ Q) as S6.
  pose proof (spent_context _ _ _ _ _ S6 (with_context_id_has_context w))
    as Hc6.
  assert (Hcalls : w_calls w6 = w_calls w).
  { destruct S6 as (_ & _ & C & _). cbn in C. lia. }
  unfold default_retries.
  rewrite (retry_exhausted _ _ (agent_context_id w) 4 errs w6 Hc6).
  2:{ intros j Hj. rewrite Hcalls. apply Hfail. exact Hj. }
  eexists. split; [reflexivity|]. split; [|exact Hfs].
  apply spent_agent_spent.
  match goal with
  | |- spent _ (advance w6 _ ?evs) _ _ =>
      assert (I : invocations_of evs = 5) by reflexivity;
      pose proof (spent_trans _ _ _ _ _ _ _ S6
                    (proj2 (advance_spent w6 5 evs) I)) as S
  end.
  exact S.
Qed.


(** X15.  When the prompt path, taken from the working directory, is
    missing, a directory or not UTF-8, [call_agent] raises
    [Exception("Not able to generate system prompt")] without a call to
    the model and without a sleep, for any provider; the context id it set
    stays on the thread. *)
Theorem call_agent_without_prompt (self : MultiModalTableInterpreter)
    (request_id json_data : string) (screenshots : list string)
    (w : world) :
  text_at (w_fs w) (Io.path_join cwd (system_prompt_path self)) = None ->
  exists w',
    call_agent cwd today random_prefix json_dumps json_dumps_indented
      py_repr str_of_message backend self request_id json_data screenshots
      w =
      (Raise (Exn Exception "Not able to generate system prompt" None),
       w') /\
    agent_spent w w' 0 [] /\ w_fs w' = w_fs w.
Proof.
  intros Ht.
  pose proof (with_context_id_has_context w) as Hc0.
  unfold call_agent, bind at 1, get_world. unfold bind at 1.
  unfold set_thread_context_id, bind at 1, get_world, set_tls.
  fold (agent_context_id w). fold (with_context_id w).
  unfold bind at 1.
  destruct (log_message_quiet (with_context_id w) (agent_context_id w)
              "Generating system and human messages for LLM" DEBUG Hc0)
    as (w1 & E1 & Q1 & F1).
  rewrite E1. unfold bind at 1.
  destruct (generate_system_prompt_unreadable cwd today json_dumps w1
              (agent_context_id w) (system_prompt_path self) json_data
              screenshots (quiet_context _ w1 _ Q1 Hc0))
    as (w2 & E2 & Q2 & F2); [rewrite F1; exact Ht|].
  rewrite E2. exists w2. split; [reflexivity|]. split.
  - apply spent_agent_spent, quiet_spent. eapply quiet_trans; eauto.
  - rewrite F2, F1. reflexivity.
Qed.

End CallAgentOutcomes.

(** An agent on Bedrock, and a run on thread 7, not yet given a context
    id, that finds the prompt file under the working directory
    [/srv]. *)
Definition bedrock_agent : MultiModel.MultiModalTableInterpreter :=
  {| MultiModel.provider := "bedrock";
     MultiModel.model_name := "claude";
     MultiModel.log_base_path := "logs/run";
     MultiModel.system_prompt_path :=
       MultiModel.TABLE_EXTRACTOR_MODEL_FILE_PATH |}.

Definition prompt_world : world :=
  {| w_thread := 7; w_tls := ∅;
     w_fs := {[ "/srv/model/model_table_extractor.txt" :=
                  File (list_byte_of_string "Extract the table.") ]};
     w_calls := 0; w_trace := [] |}.



Lemma call_agent_without_prompt_witness :
  exists w',
    MultiModel.call_agent "/srv" "2025-01-31" "aB3xZ" sample_dumps
      sample_dumps sample_repr (fun _ => "human")
      (fun _ => flaky_client) bedrock_agent "1_section_1" "{}" ["TWFu"]
      bare_world =
      (Raise (Exn Exception "Not able to generate system prompt" None),
       w') /\
    w_calls w' = 0.
Proof.
  destruct (call_agent_without_prompt "/srv" "2025-01-31" "aB3xZ"
              sample_dumps sample_dumps sample_repr (fun _ => "human")
              (fun _ => flaky_client) bedrock_agent "1_section_1" "{}"
              ["TWFu"] bare_world)
    as (w' & E & (_ & C & _) & _).
  - vm_compute. reflexivity.
  - exists w'. split; [exact E | exact C].
Defined.

(** ** The chat model of a constructed agent *)

(** X16.  For an agent that [__init__] returned, [_get_llm] on a thread
    whose context id is set never raises: the branch for an unsupported
    provider cannot be reached.  It makes no call and writes nothing, and
    the model it builds for [openai] gets the model name under the key
    [model], for [google] under [model_name] and for [bedrock] under
    [model_id], the key [model] being gone for these two; all three get
    temperature 0.0 and 4096 as [max_tokens].  On a thread without a
    context id it raises [Exception("invalid thread_context_id")], from its
    [log_message], before any model is built. *)
Theorem constructed_agent_gets_its_model :
  forall (p m l s : string) (w w1 w2 : world)
         (self : MultiModel.MultiModalTableInterpreter),
    MultiModel.__init__ p m l s w = (Ok self, w1) ->
    (forall c,
        has_context w2 c ->
        exists llm w3,
          MultiModel._get_llm self w2 = (Ok llm, w3) /\
          quiet w2 w3 /\ w_fs w3 = w_fs w2 /\
          ((p = "openai" /\
            llm = MultiModel.ChatOpenAI
                    [("model", JStr m); ("temperature", JFloat 0 0);
                     ("max_tokens", JInt 4096)]) \/
           (p = "google" /\
            llm = MultiModel.ChatGoogleGenerativeAI
                    [("temperature", JFloat 0 0); ("max_tokens", JInt 4096);
                     ("model_name", JStr m)]) \/
           (p = "bedrock" /\
            llm = MultiModel.ChatBedrock
                    [("temperature", JFloat 0 0); ("max_tokens", JInt 4096);
                     ("model_id", JStr m)]))) /\
    (w_tls w2 !! w_thread w2 = None ->
     MultiModel._get_llm self w2 =
       (Raise (Exn Exception "invalid thread_context_id" None), w2)).
Proof.
  intros p m l s w w1 w2 self H.
  unfold MultiModel.__init__ in H.
  destruct (MultiModel.str_in p MultiModel.supported_providers) eqn:S;
    cbn [negb] in H; [|inversion H].
  unfold bind in H.
  destruct (MultiModel.makedirs_exist_ok _ w) as [[[]|e] w'];
    inversion H; subst self w1; clear H.
  split.
  - intros c Hc.
    destruct (get_llm_quiet
                {| MultiModel.provider := p; MultiModel.model_name := m;
                   MultiModel.log_base_path := l;
                   MultiModel.system_prompt_path := s |} w2 c Hc S)
      as (w3 & E & Q & F).
    eexists. exists w3. split; [exact E|]. split; [exact Q|].
    split; [exact F|].
    apply str_in_supported in S. destruct S as [-> | [-> | ->]];
      [left | right; left | right; right]; split; reflexivity.
  - intros Hn. unfold MultiModel._get_llm, bind, log_message,
      log_message_branch, bind.
    rewrite get_thread_context_id_unset by exact Hn. reflexivity.
Qed.

Lemma constructed_agent_gets_its_model_witness :
  exists w3,
    MultiModel._get_llm bedrock_agent world0 =
      (Ok (MultiModel.ChatBedrock
             [("temperature", JFloat 0 0); ("max_tokens", JInt 4096);
              ("model_id", JStr "claude")]), w3).
Proof.
  destruct (proj1 (constructed_agent_gets_its_model "bedrock" "claude"
                     "logs/run" MultiModel.TABLE_EXTRACTOR_MODEL_FILE_PATH
                     bare_world _ world0 bedrock_agent eq_refl)
              _ world0_has_context)
    as (llm & w3 & E & _ & _ & [[D _] | [[D _] | [_ L]]]);
    [discriminate D | discriminate D |].
  exists w3. rewrite <- L. exact E.
Defined.

(** ** Dropping the runs of three dots *)

Section Ellipses.

Import AgentUtil.

Definition is_dot (c : ascii) : bool := Ascii.eqb c "."%char.

(** The text starts with two dots. *)
Definition two_dots (cs : list ascii) : bool :=
  match cs with
  | a :: b :: _ => is_dot a && is_dot b
  | _ => false
  end.

(** Three dots in a row occur in the text. *)
Fixpoint has_ellipsis (cs : list ascii) : bool :=
  match cs with
  | [] => false
  | a :: r1 => (is_dot a && two_dots r1) || has_ellipsis r1
  end.

Lemma drop_ellipses_cons (a : ascii) (r1 : list ascii) :
  drop_ellipses (a :: r1) =
    if is_dot a && two_dots r1
    then drop_ellipses (skipn 2 r1)
    else a :: drop_ellipses r1.
Proof.
  destruct r1 as [|b [|c r3]].
  - cbn [drop_ellipses two_dots]. rewrite andb_false_r. reflexivity.
  - cbn [drop_ellipses two_dots]. rewrite andb_false_r. reflexivity.
  - cbn [drop_ellipses two_dots skipn]. unfold is_dot.
    rewrite andb_assoc. reflexivity.
Qed.

Lemma two_dots_drop_ellipses (cs : list ascii) :
  two_dots (drop_ellipses cs) = true -> two_dots cs = true.
Proof.
  destruct cs as [|x [|y r]]; [discriminate | discriminate |].
  rewrite drop_ellipses_cons.
  destruct (is_dot x && two_dots (y :: r)) eqn:T.
  - intros _. apply andb_true_iff in T. destruct T as [Tx T].
    destruct r as [|z r']; [discriminate T|].
    cbn [two_dots] in T |- *. apply andb_true_iff in T.
    destruct T as [Ty _]. rewrite Tx, Ty. reflexivity.
  - rewrite drop_ellipses_cons.
    destruct (is_dot y && two_dots r) eqn:U.
    + apply andb_true_iff in U. destruct U as [Uy Ur].
      assert (Hx : is_dot x = false).
      { destruct (is_dot x); [|reflexivity]. cbn [andb] in T.
        destruct r as [|z r']; [discriminate Ur|].
        cbn [two_dots] in T. rewrite Uy in T. cbn [andb] in T.
        destruct r' as [|u r'']; [discriminate Ur|].
        cbn [two_dots] in Ur. apply andb_true_iff in Ur.
        destruct Ur as [Uz _]. congruence. }
      intros H.
      destruct (drop_ellipses (skipn 2 r)) as [|b o'];
        cbn [two_dots] in H; [discriminate|].
      rewrite Hx in H. discriminate.
    + cbn [two_dots]. intros H. exact H.
Qed.

Lemma no_ellipsis_after_drop :
  forall n cs, length cs <= n -> has_ellipsis (drop_ellipses cs) = false.
Proof.
  induction n as [|n IH]; intros cs Hn.
  - destruct cs; [reflexivity | cbn in Hn; lia].
  - destruct cs as [|a r1]; [reflexivity|].
    cbn [length] in Hn. rewrite drop_ellipses_cons.
    destruct (is_dot a && two_dots r1) eqn:T.
    + apply IH. pose proof (length_skipn 2 r1). lia.
    + cbn [has_ellipsis]. rewrite (IH r1) by lia. rewrite orb_false_r.
      destruct (is_dot a); [|reflexivity]. cbn [andb] in *.
      destruct (two_dots (drop_ellipses r1)) eqn:D; [|reflexivity].
      apply two_dots_drop_ellipses in D. congruence.
Qed.

Lemma drop_ellipses_without (cs : list ascii) :
  has_ellipsis cs = false -> drop_ellipses cs = cs.
Proof.
  induction cs as [|a r1 IH]; [reflexivity|].
  cbn [has_ellipsis]. intros H. apply orb_false_iff in H.
  destruct H as [H1 H2]. rewrite drop_ellipses_cons, H1, (IH H2).
  reflexivity.
Qed.

End Ellipses.

(** X17.  The text [replace_ellipses] returns, which is
    [text.replace("...", "")], holds no three dots in a row, although the
    replacement makes a single pass; a text without three dots in a row
    comes back as it is, so doing the replacement twice is doing it
    once. *)
Theorem replace_ellipses_leaves_none :
  forall text : string,
    has_ellipsis
      (list_ascii_of_string (AgentUtil.replace_ellipses text)) = false /\
    (has_ellipsis (list_ascii_of_string text) = false ->
     AgentUtil.replace_ellipses text = text) /\
    AgentUtil.replace_ellipses (AgentUtil.replace_ellipses text) =
      AgentUtil.replace_ellipses text.
Proof.
  intros text.
  assert (H : has_ellipsis
                (list_ascii_of_string (AgentUtil.replace_ellipses text)) =
              false).
  { unfold AgentUtil.replace_ellipses.
    rewrite list_ascii_of_string_of_list_ascii.
    apply (no_ellipsis_after_drop (length (list_ascii_of_string text))).
    lia. }
  assert (K : forall t, has_ellipsis (list_ascii_of_string t) = false ->
                        AgentUtil.replace_ellipses t = t).
  { intros t Ht. unfold AgentUtil.replace_ellipses.
    rewrite (drop_ellipses_without _ Ht).
    apply string_of_list_ascii_of_string. }
  split; [exact H|]. split; [apply K | apply K, H].
Qed.

Lemma replace_ellipses_leaves_none_witness :
  AgentUtil.replace_ellipses "rows 1..2 of 10" = "rows 1..2 of 10".
Proof.
  apply (proj1 (proj2 (replace_ellipses_leaves_none "rows 1..2 of 10"))).
  reflexivity.
Defined.

Example replace_ellipses_runs :
  AgentUtil.replace_ellipses "a....b......c" = "a.bc".
Proof. reflexivity. Qed.

(** ** The other prompt builders *)

(** X18.  The builder for one screenshot agrees with the builder for a
    list of screenshots, on every world and without interactive elements:
    a screenshot that is not empty gives what the one-element list gives,
    and no screenshot, or an empty one, gives what the empty list
    gives. *)
Theorem single_screenshot_builder_agrees :
  forall (cwd today : string) (json_dumps : json -> string)
         (path json_content : string) (w : world),
    (forall screenshot,
        PyStr.nonempty screenshot = true ->
        AgentUtilMore.generate_system_prompt_with_json_data cwd today
          json_dumps path json_content (Some screenshot) None w =
        AgentUtil.generate_system_prompt_with_json_data_for_multiple_images
          cwd today json_dumps path json_content [screenshot] w) /\
    AgentUtilMore.generate_system_prompt_with_json_data cwd today
      json_dumps path json_content (Some "") None w =
    AgentUtil.generate_system_prompt_with_json_data_for_multiple_images
      cwd today json_dumps path json_content [] w /\
    AgentUtilMore.generate_system_prompt_with_json_data cwd today
      json_dumps path json_content None None w =
    AgentUtil.generate_system_prompt_with_json_data_for_multiple_images
      cwd today json_dumps path json_content [] w.
Proof.
  intros cwd today json_dumps path json_content w.
  unfold AgentUtilMore.generate_system_prompt_with_json_data,
    AgentUtil.generate_system_prompt_with_json_data_for_multiple_images,
    bind.
  destruct (AgentUtil.generate_prompt_messages cwd path w)
    as [[[prompt|]|e] w1].
  - split; [|split; reflexivity].
    intros screenshot N. rewrite N. reflexivity.
  - split; [|split; reflexivity]. intros screenshot _. reflexivity.
  - split; [|split; reflexivity]. intros screenshot _. reflexivity.
Qed.

Lemma single_screenshot_builder_agrees_witness :
  AgentUtilMore.generate_system_prompt_with_json_data "/srv" "2025-01-31"
    sample_dumps "model/model_table_extractor.txt" "{}" (Some "TWFu") None
    prompt_world =
  AgentUtil.generate_system_prompt_with_json_data_for_multiple_images
    "/srv" "2025-01-31" sample_dumps "model/model_table_extractor.txt" "{}"
    ["TWFu"] prompt_world.
Proof.
  apply (proj1 (single_screenshot_builder_agrees "/srv" "2025-01-31"
                  sample_dumps "model/model_table_extractor.txt" "{}"
                  prompt_world)).
  reflexivity.
Defined.

(** X19.  [generate_input_messages] never returns a value.  On a thread
    whose context id is set it logs its two lines with the braces as they
    are written in the source, no path being put in, and raises the
    [TypeError] of its call of [generate_prompt_messages] with two
    arguments; nothing is read, written or sent.  On a thread without a
    context id the first [log_message] raises. *)
Theorem generate_input_messages_never_returns :
  forall (model_prompt_file_path input_file_path task_description : string)
         (step_details : json) (interactive_elements : string)
         (screenshot : option string) (w : world),
    (forall built w',
        AgentUtilMore.generate_input_messages model_prompt_file_path
          input_file_path task_description step_details
          interactive_elements screenshot w <> (Ok built, w')) /\
    (forall c,
        has_context w c ->
        AgentUtilMore.generate_input_messages model_prompt_file_path
          input_file_path task_description step_details
          interactive_elements screenshot w =
          (Raise (Exn TypeError
                    ("generate_prompt_messages() takes 1 positional " +:+
                     "argument but 2 were given") None),
           advance w 0
             [EvLog DEBUG
                (ctx_line c
                   "model prompt file path:{model_prompt_file_path}");
              EvLog DEBUG
                (ctx_line c "input file path:{input_file_path}")])).
Proof.
  intros mp ip td sd ie sc w.
  unfold AgentUtilMore.generate_input_messages. split.
  - intros built w'. unfold bind.
    destruct (log_message _ DEBUG w) as [[[]|e] w1]; [|discriminate].
    destruct (log_message _ DEBUG w1) as [[[]|e] w2]; discriminate.
  - intros c Hc. unfold bind.
    rewrite (log_message_debug w c _ Hc).
    rewrite (log_message_debug _ c _ (has_context_advance w c 0 _ Hc)).
    rewrite advance_advance. reflexivity.
Qed.

Lemma generate_input_messages_never_returns_witness :
  exists w',
    AgentUtilMore.generate_input_messages "model/prompt.txt" "input.json"
      "find the table" JNull "" None world0 =
      (Raise (Exn TypeError
                ("generate_prompt_messages() takes 1 positional " +:+
                 "argument but 2 were given") None), w') /\
    logs_of (w_trace w') =
      ["[CtxID: aB3xZ-7] model prompt file path:{model_prompt_file_path}";
       "[CtxID: aB3xZ-7] input file path:{input_file_path}"].
Proof.
  eexists. split.
  - apply (proj2 (generate_input_messages_never_returns "model/prompt.txt"
                    "input.json" "find the table" JNull "" None world0)
             (PyStr "aB3xZ-7")).
    exact world0_has_context.
  - reflexivity.
Defined.

(** The value parsed from the file at [path], when it is a file in UTF-8
    that holds JSON. *)
Definition json_at (fs : gmap string node) (path : string) : option json :=
  match text_at fs path with
  | Some text => Json.loads text
  | None => None
  end.

Section CombineFiles.

Variable json_dumps_indent4 : json -> string.

Lemma combine_readable (w : world) txt_file_path text :
  text_at (w_fs w) txt_file_path = Some text ->
  AgentUtil.combine_system_prompt_input_files txt_file_path w =
    (Ok (Some text), w).
Proof.
  unfold text_at. intros Ht.
  unfold AgentUtil.combine_system_prompt_input_files, try_clauses,
    bind at 1.
  unfold Io.read_text, bind at 1, Io.open_read, bind at 1, get_world.
  destruct (w_fs w !! txt_file_path) as [[es|bs]|]; try discriminate.
  destruct (Io.utf8_valid bs) eqn:U; [|discriminate].
  inversion Ht; subst text. unfold ret. cbv beta iota. rewrite U.
  reflexivity.
Qed.

(** The [try] block that loads and renders the JSON file gives its text
    or [None], and does not raise. *)
Lemma combine_json_part (w : world) c json_file_path
    (k1 k2 k3 : exn -> M (option string)) :
  has_context w c ->
  k1 = (fun _ =>
          log_message ("Error: .json file not found at " +:+ json_file_path)
            ERROR ;;; ret None) ->
  k2 = (fun _ =>
          log_message ("Error: Invalid JSON format in " +:+ json_file_path)
            ERROR ;;; ret None) ->
  k3 = (fun e =>
          log_message ("Error reading .json file: " +:+ exn_str e)
            ERROR ;;; ret None) ->
  exists w',
    try_clauses
      (json_data <- Io.json_load json_file_path ;;
       ret (Some (json_dumps_indent4 json_data)))
      [(FileNotFoundError, k1); (JSONDecodeError, k2); (Exception, k3)] w =
      (Ok (option_map json_dumps_indent4 (json_at (w_fs w) json_file_path)),
       w') /\
    quiet w w' /\ w_fs w' = w_fs w.
Proof.
  intros Hc -> -> ->. unfold json_at, text_at, try_clauses, bind at 1.
  unfold Io.json_load, bind at 1, Io.read_text, bind at 1, Io.open_read,
    bind at 1, get_world.
  destruct (w_fs w !! json_file_path) as [[es|bs]|];
    [| destruct (Io.utf8_valid bs) eqn:U;
       [unfold ret, Io.json_loads; cbv beta iota; rewrite U;
        destruct (Json.loads (string_of_list_byte bs)) as [v|];
        [exists w; split; [reflexivity|];
         split; [apply quiet_refl | reflexivity] |] |] |];
    unfold ret, raise; cbv beta iota; rewrite ?U;
    cbn [select_handler]; decide_isinstance;
    cbv beta iota; unfold bind;
    match goal with
    | |- context [log_message ?d ERROR w] =>
        destruct (log_message_quiet w c d ERROR Hc) as (w1 & E1 & Q1 & F1)
    end;
    rewrite E1; exists w1; auto.
Qed.

End CombineFiles.



(** ** What the parser builds, and a file against itself *)

Section ParsedValues.

Import Json.

Lemma unique_keys_JArr (items : list json) :
  List.Forall unique_keys items -> unique_keys (JArr items).
Proof.
  cbn [unique_keys]. induction 1 as [|x l Hx _ IH]; [exact I|].
  split; assumption.
Qed.

Lemma unique_keys_JObj (fields : list (string * json)) :
  List.NoDup (map fst fields) ->
  List.Forall (fun kv => unique_keys (snd kv)) fields ->
  unique_keys (JObj fields).
Proof.
  intros Hn Hf. cbn [unique_keys]. split; [exact Hn|]. clear Hn.
  induction Hf as [|x l Hx _ IH]; [exact I|]. split; assumption.
Qed.

Lemma dict_set_keys (k : string) (v : json) :
  forall d x,
    In x (map fst (dict_set k v d)) -> x = k \/ In x (map fst d).
Proof.
  induction d as [|[k' v'] d IH]; intros x; cbn [dict_set map fst].
  - intros [<- | []]. left. reflexivity.
  - destruct (String.eqb k k') eqn:E; cbn [map fst In].
    + apply String.eqb_eq in E. subst k'. tauto.
    + intros [<- | H]; [tauto|]. destruct (IH x H); tauto.
Qed.

Lemma dict_set_NoDup (k : string) (v : json) :
  forall d, List.NoDup (map fst d) -> List.NoDup (map fst (dict_set k v d)).
Proof.
  induction d as [|[k' v'] d IH]; cbn [dict_set map fst]; intros H.
  - constructor; [intros [] | constructor].
  - inversion H as [|a l Hn Hd]; subst.
    destruct (String.eqb k k') eqn:E; cbn [map fst].
    + apply String.eqb_eq in E. subst k'. constructor; assumption.
    + constructor; [|apply IH; exact Hd].
      intros Hin. apply dict_set_keys in Hin. destruct Hin as [-> | Hin].
      * rewrite String.eqb_refl in E. discriminate.
      * exact (Hn Hin).
Qed.

Lemma dict_set_values (P : json -> Prop) (k : string) (v : json) :
  P v ->
  forall d,
    List.Forall (fun kv => P (snd kv)) d ->
    List.Forall (fun kv => P (snd kv)) (dict_set k v d).
Proof.
  intros Hv. induction d as [|[k' v'] d IH]; cbn [dict_set]; intros H.
  - constructor; [exact Hv | constructor].
  - inversion H as [|a l Ha Hl]; subst.
    destruct (String.eqb k k'); constructor; auto.
Qed.

Lemma dict_of_pairs_unique (pairs : list (string * json)) :
  List.Forall (fun kv => unique_keys (snd kv)) pairs ->
  unique_keys (JObj (dict_of_pairs pairs)).
Proof.
  intros H. unfold dict_of_pairs.
  assert (G : forall d,
            List.NoDup (map fst d) ->
            List.Forall (fun kv => unique_keys (snd kv)) d ->
            unique_keys
              (JObj (fold_left
                       (fun d kv => dict_set (fst kv) (snd kv) d) pairs d))).
  { induction H as [|kv l Hkv _ IH]; intros d Hn Hd; cbn [fold_left].
    - apply unique_keys_JObj; assumption.
    - apply IH; [apply dict_set_NoDup, Hn|].
      apply dict_set_values; assumption. }
  apply G; constructor.
Qed.

Lemma parse_number_unique (cs : list ascii) v r :
  parse_number cs = Some (v, r) -> unique_keys v.
Proof.
  unfold parse_number.
  repeat match goal with
         | |- context [match ?x with _ => _ end] => destruct x
         | |- context [if ?x then _ else _] => destruct x
         end;
    intros H; inversion H; exact I.
Qed.

Lemma literal_unique (word : string) (cs : list ascii) (c v : json) r :
  unique_keys c ->
  option_map (pair c) (literal word cs) = Some (v, r) -> unique_keys v.
Proof.
  intros Hc. destruct (literal word cs); cbn [option_map]; intros H;
    inversion H; subst; exact Hc.
Qed.

Lemma parse_unique :
  forall fuel,
    (forall cs v r, parse_value fuel cs = Some (v, r) -> unique_keys v) /\
    (forall cs acc v r,
        parse_elements fuel cs acc = Some (v, r) ->
        List.Forall unique_keys acc -> unique_keys v) /\
    (forall cs acc v r,
        parse_members fuel cs acc = Some (v, r) ->
        List.Forall (fun kv => unique_keys (snd kv)) acc -> unique_keys v).
Proof.
  induction fuel as [|fuel (IHv & IHe & IHm)].
  - repeat split; intros; discriminate.
  - split; [|split].
    + intros cs v r. cbn [parse_value].
      destruct cs as [|c cs']; [discriminate|].
      destruct (Ascii.eqb c quote).
      { destruct (parse_string _ cs' []) as [[s r']|]; intros H;
          inversion H; exact I. }
      destruct (Ascii.eqb c "{"%char).
      { destruct (skip_ws cs') as [|d r']; [discriminate|].
        destruct (Ascii.eqb d "}"%char).
        - intros H; inversion H. split; [constructor | exact I].
        - intros H. apply (IHm _ _ _ _ H). constructor. }
      destruct (Ascii.eqb c "["%char).
      { destruct (skip_ws cs') as [|d r']; [discriminate|].
        destruct (Ascii.eqb d "]"%char).
        - intros H; inversion H. exact I.
        - intros H. apply (IHe _ _ _ _ H). constructor. }
      destruct (Ascii.eqb c "n"%char);
        [apply literal_unique; exact I|].
      destruct (Ascii.eqb c "t"%char);
        [apply literal_unique; exact I|].
      destruct (Ascii.eqb c "f"%char);
        [apply literal_unique; exact I|].
      apply parse_number_unique.
    + intros cs acc v r. cbn [parse_elements].
      destruct (parse_value fuel cs) as [[x r1]|] eqn:E; [|discriminate].
      apply IHv in E.
      destruct (skip_ws r1) as [|d r']; [discriminate|].
      destruct (Ascii.eqb d "]"%char).
      * intros H Ha. inversion H; subst. apply unique_keys_JArr.
        change (rev acc ++ [x]) with (rev (x :: acc)).
        apply List.Forall_rev. constructor; assumption.
      * destruct (Ascii.eqb d ","%char); [|discriminate].
        intros H Ha. apply (IHe _ _ _ _ H). constructor; assumption.
    + intros cs acc v r. cbn [parse_members].
      destruct cs as [|q cs']; [discriminate|].
      destruct (Ascii.eqb q quote); [|discriminate].
      destruct (parse_string _ cs' []) as [[k r1]|]; [|discriminate].
      destruct (skip_ws r1) as [|colon r2]; [discriminate|].
      destruct (Ascii.eqb colon ":"%char); [|discriminate].
      destruct (parse_value fuel (skip_ws r2)) as [[x r3]|] eqn:E;
        [|discriminate].
      apply IHv in E.
      destruct (skip_ws r3) as [|d r4]; [discriminate|].
      destruct (Ascii.eqb d "}"%char).
      * intros H Ha. inversion H; subst. apply dict_of_pairs_unique.
        change (rev acc ++ [(k, x)]) with (rev ((k, x) :: acc)).
        apply List.Forall_rev. constructor; assumption.
      * destruct (Ascii.eqb d ","%char); [|discriminate].
        intros H Ha. apply (IHm _ _ _ _ H). constructor; assumption.
Qed.

(** No dict that [json.loads] builds has a key twice. *)
Lemma loads_unique_keys (s : string) (v : json) :
  loads s = Some v -> unique_keys v.
Proof.
  unfold loads.
  destruct (parse_value _ (skip_ws (list_ascii_of_string s)))
    as [[x r]|] eqn:E; [|discriminate].
  destruct (skip_ws r); [|discriminate].
  intros H; inversion H; subst.
  exact (proj1 (parse_unique _) _ _ _ E).
Qed.

End ParsedValues.

Section ReconcilerEdges.

Import DeepDiff Utils.

Lemma json_load_missing (w : world) path :
  w_fs w !! path = None ->
  Io.json_load path w =
    (Raise (Exn FileNotFoundError
              (Io.errno_message "2" "No such file or directory" path) None),
     w).
Proof.
  intros H. unfold Io.json_load, Io.read_text, Io.open_read, bind,
    get_world. rewrite H. reflexivity.
Qed.

Lemma json_load_undecodable (w : world) path text :
  text_at (w_fs w) path = Some text ->
  Json.loads text = None ->
  Io.json_load path w =
    (Raise (Exn JSONDecodeError "Expecting value" None), w).
Proof.
  unfold text_at. intros Ht Hl.
  unfold Io.json_load, Io.read_text, Io.open_read, bind, get_world.
  destruct (w_fs w !! path) as [[es|bs]|]; try discriminate.
  destruct (Io.utf8_valid bs) eqn:U; [|discriminate].
  inversion Ht; subst text. unfold ret, Io.json_loads. cbv beta iota.
  rewrite U, Hl. reflexivity.
Qed.

Lemma compare_reference_missing reference_path second others
    (w : world) :
  w_fs w !! reference_path = None ->
  compare_json_files_deepdiff (reference_path :: second :: others) w =
    (Ok "FAILED",
     advance w 0
       [using_line reference_path;
        EvPrint ("Error: Reference file not found at '" +:+
                 reference_path +:+ "'")]).
Proof.
  intros H. unfold compare_json_files_deepdiff.
  unfold bind at 1, try_clauses, bind at 1. rewrite print_advance.
  unfold bind at 1. rewrite json_load_missing by exact H.
  cbn [select_handler]. decide_isinstance. cbv beta iota.
  unfold bind at 1. rewrite print_advance, advance_advance. reflexivity.
Qed.

Lemma compare_reference_undecodable reference_path second others
    (w : world) text :
  text_at (w_fs w) reference_path = Some text ->
  Json.loads text = None ->
  compare_json_files_deepdiff (reference_path :: second :: others) w =
    (Ok "FAILED",
     advance w 0
       [using_line reference_path;
        EvPrint ("Error: Could not decode JSON from reference file '" +:+
                 reference_path +:+ "'")]).
Proof.
  intros Ht Hl. unfold compare_json_files_deepdiff.
  unfold bind at 1, try_clauses, bind at 1. rewrite print_advance.
  unfold bind at 1.
  rewrite (json_load_undecodable _ reference_path text) by assumption.
  cbn [select_handler]. decide_isinstance. cbv beta iota.
  unfold bind at 1. rewrite print_advance, advance_advance. reflexivity.
Qed.

Lemma compare_step_missing reference path rest (w : world) :
  w_fs w !! path = None ->
  compare_others reference (path :: rest) w =
    (Ok "FAILED",
     advance w 0
       [comparing_line path;
        EvPrint ("Error: Comparison file not found at '" +:+ path +:+
                 "'")]).
Proof.
  intros H. cbn [compare_others].
  unfold bind at 1, try_clauses, bind at 1. rewrite print_advance.
  unfold bind at 1. rewrite json_load_missing by exact H.
  cbn [select_handler]. decide_isinstance. cbv beta iota.
  unfold bind at 1. rewrite print_advance, advance_advance. reflexivity.
Qed.

Lemma compare_step_undecodable reference path rest (w : world) text :
  text_at (w_fs w) path = Some text ->
  Json.loads text = None ->
  compare_others reference (path :: rest) w =
    (Ok "FAILED",
     advance w 0
       [comparing_line path;
        EvPrint ("Error: Could not decode JSON from comparison file '" +:+
                 path +:+ "'")]).
Proof.
  intros Ht Hl. cbn [compare_others].
  unfold bind at 1, try_clauses, bind at 1. rewrite print_advance.
  unfold bind at 1.
  rewrite (json_load_undecodable _ path text) by assumption.
  cbn [select_handler]. decide_isinstance. cbv beta iota.
  unfold bind at 1. rewrite print_advance, advance_advance. reflexivity.
Qed.

(** The files before the one that stops the loop are passed over. *)
Lemma compare_others_skip reference post :
  forall pre (w : world),
    List.Forall (agrees (w_fs w) reference) pre ->
    compare_others reference (pre ++ post) w =
      compare_others reference post
        (advance w 0 (map comparing_line pre)).
Proof.
  induction pre as [|p pre IH]; intros w H.
  - cbn [app map]. rewrite advance_0_nil. reflexivity.
  - inversion H as [|p' l' Hp Hl]; subst. cbn [app map].
    rewrite (compare_step_agree reference p _ w Hp).
    rewrite IH by exact Hl. rewrite advance_advance. reflexivity.
Qed.

End ReconcilerEdges.





(** ** A response that is a list of content blocks *)

(** X23.  When the content of the response is a list of blocks and not a
    text, [call_agent] does not look into the blocks: on a thread whose
    context id is set, its parsing step catches the [AttributeError] of
    [strip], logs two lines and returns the error value holding the list
    as it came; no output file is written.  The earlier agent's
    [json.loads] raises a [TypeError] on such content, which leaves its
    [call_agent], and it writes and logs nothing more. *)
Theorem block_content_is_not_parsed :
  forall (json_dumps_indented py_repr : json -> string)
         (self : MultiModel.MultiModalTableInterpreter)
         (log_base_path request_id : string) (blocks : list json)
         (w : world) (c : pyval),
    has_context w c ->
    MultiModel.finish_call_agent json_dumps_indented py_repr self
      request_id (Some {| content := JArr blocks |}) w =
      (Ok (JObj [("error", JStr "Failed to parse JSON response");
                 ("content", JArr blocks)]),
       advance w 0
         [EvLog DEBUG
            (ctx_line c
               ("Failed to parse JSON from LLM response. Error: " +:+
                "'list' object has no attribute 'strip'"));
          EvLog DEBUG
            (ctx_line c
               ("Raw response content: " +:+ py_repr (JArr blocks)))]) /\
    Legacy.finish_call_agent py_repr log_base_path request_id
      {| content := JArr blocks |} w =
      (Raise (Exn TypeError
                "the JSON object must be str, bytes or bytearray, not list"
                None), w).
Proof.
  intros dumps py_repr self log_base request_id blocks w c Hc. split.
  - unfold MultiModel.finish_call_agent, MultiModel.parse_response,
      try_except, MultiModel.content_of, MultiModel.as_str.
    cbn [content]. unfold bind, ret, raise. cbv beta iota.
    cbn [existsb]. decide_isinstance. cbn [orb]. cbv beta iota.
    rewrite (log_message_debug w c _ Hc).
    rewrite (log_message_debug _ c _ (has_context_advance w c 0 _ Hc)).
    rewrite advance_advance. reflexivity.
  - reflexivity.
Qed.

Lemma block_content_is_not_parsed_witness :
  exists w',
    MultiModel.finish_call_agent sample_dumps sample_repr bedrock_agent
      "1_section_1"
      (Some {| content := JArr [JObj [("type", JStr "text");
                                      ("text", JStr "[]")]] |}) world0 =
      (Ok (JObj [("error", JStr "Failed to parse JSON response");
                 ("content",
                  JArr [JObj [("type", JStr "text");
                              ("text", JStr "[]")]])]), w').
Proof.
  eexists.
  apply (proj1 (block_content_is_not_parsed sample_dumps sample_repr
                  bedrock_agent "logs" "1_section_1"
                  [JObj [("type", JStr "text"); ("text", JStr "[]")]]
                  world0 (PyStr "aB3xZ-7") world0_has_context)).
Defined.

(** ** The listing order of the folder *)

Section ListingOrder.

Import Natsort.

Lemma filter_Permutation_list (f : string -> bool) (l l' : list string) :
  Permutation l l' -> Permutation (List.filter f l) (List.filter f l').
Proof.
  induction 1 as [|x l l' _ IH|x y l|l1 l2 l3 _ IH1 _ IH2];
    cbn [List.filter].
  - constructor.
  - destruct (f x); [constructor|]; exact IH.
  - destruct (f x), (f y); try reflexivity. apply perm_swap.
  - etransitivity; eauto.
Qed.

Lemma key_le_both_Eq a b :
  key_le a b = true -> key_le b a = true -> key_compare a b = Eq.
Proof.
  unfold key_le. rewrite (key_compare_antisym a b).
  destruct (key_compare a b); cbn [CompOpp]; congruence.
Qed.

Lemma key_le_refl a : key_le a a = true.
Proof.
  unfold key_le, key_compare.
  rewrite (lex_compare_refl _ chunk_compare chunk_compare_refl).
  reflexivity.
Qed.

(** The head of a sorted list sorts no later than any of its elements. *)
Lemma key_sorted_head x l y :
  key_sorted (x :: l) -> In y (x :: l) -> key_le x y = true.
Proof.
  intros Hs [<- | Hy]; [apply key_le_refl|].
  inversion Hs as [|x' l' _ Hx]; subst.
  rewrite List.Forall_forall in Hx. apply Hx, Hy.
Qed.

(** Two sorted lists with the same elements are equal, when no two
    elements share a key. *)
Lemma key_sorted_unique :
  forall l l',
    key_sorted l -> key_sorted l' -> Permutation l l' ->
    (forall a b, In a l -> In b l -> key_compare a b = Eq -> a = b) ->
    l = l'.
Proof.
  induction l as [|x t IH]; intros l' Hs Hs' Hp Hk.
  - apply Permutation_nil in Hp. congruence.
  - destruct l' as [|y t'].
    { apply Permutation_sym, Permutation_nil in Hp. discriminate. }
    assert (Hxy : x = y).
    { apply Hk.
      - left. reflexivity.
      - apply (Permutation_in y (Permutation_sym Hp)). left. reflexivity.
      - apply key_le_both_Eq.
        + apply (key_sorted_head x t y Hs).
          apply (Permutation_in y (Permutation_sym Hp)). left. reflexivity.
        + apply (key_sorted_head y t' x Hs').
          apply (Permutation_in x Hp). left. reflexivity. }
    subst y. f_equal. apply IH.
    + inversion Hs; assumption.
    + inversion Hs'; assumption.
    + eapply Permutation_cons_inv. exact Hp.
    + intros a b Ha Hb. apply Hk; right; assumption.
Qed.

End ListingOrder.

(** X24.  The order in which the image files of a folder are processed
    does not depend on the order in which [os.listdir] reports the names,
    provided no two image names have the same natural-sort key.  Two names
    with the same key, such as [a01.png] and [a1.png], stay in listing
    order. *)
Theorem image_files_ignore_listing_order :
  (forall entries entries' : list string,
      Permutation entries entries' ->
      (forall a b,
          In a entries -> In b entries ->
          MultiModel.is_supported a = true ->
          MultiModel.is_supported b = true ->
          Natsort.key_compare a b = Eq -> a = b) ->
      MultiModel.image_files_of entries =
        MultiModel.image_files_of entries') /\
  MultiModel.image_files_of ["a01.png"; "a1.png"] = ["a01.png"; "a1.png"] /\
  MultiModel.image_files_of ["a1.png"; "a01.png"] = ["a1.png"; "a01.png"].
Proof.
  split; [|split; vm_compute; reflexivity].
  intros entries entries' Hp Hk.
  apply key_sorted_unique.
  - apply image_files_of_sorted.
  - apply image_files_of_sorted.
  - unfold MultiModel.image_files_of. apply filter_Permutation_list.
    rewrite !natsorted_Permutation. exact Hp.
  - intros a b Ha Hb.
    apply image_files_of_In in Ha. apply image_files_of_In in Hb.
    destruct Ha as [Ha Fa], Hb as [Hb Fb]. apply Hk; assumption.
Qed.

Lemma image_files_ignore_listing_order_witness :
  MultiModel.image_files_of
    ["section_10.jpg"; "notes.txt"; "section_2.jpg"; "section_1.jpg"] =
  MultiModel.image_files_of
    ["section_1.jpg"; "section_2.jpg"; "notes.txt"; "section_10.jpg"].
Proof.
  apply (proj1 image_files_ignore_listing_order).
  - apply Permutation_sym.
    apply (perm_trans
             (l' := ["section_1.jpg"; "section_2.jpg"; "section_10.jpg";
                     "notes.txt"])).
    + do 2 apply perm_skip. apply perm_swap.
    + apply (Permutation_cons_app ["section_10.jpg"; "notes.txt";
                                   "section_2.jpg"] [] "section_1.jpg").
      rewrite app_nil_r.
      apply (Permutation_cons_app ["section_10.jpg"; "notes.txt"] []
               "section_2.jpg").
      reflexivity.
  - intros a b Ha Hb _ _.
    cbn [In] in Ha, Hb.
    destruct Ha as [<- | [<- | [<- | [<- | []]]]];
      destruct Hb as [<- | [<- | [<- | [<- | []]]]];
      vm_compute; intros H; try reflexivity; discriminate H.
Defined.

(** ** The random prefix *)

Section RandomPrefix.

Import UtilsPrefix.

(** An ASCII letter or digit. *)
Definition is_alnum (c : ascii) : bool :=
  let n := N_of_ascii c in
  ((48 <=? n) && (n <=? 57) || (65 <=? n) && (n <=? 90) ||
   (97 <=? n) && (n <=? 122))%N.

Lemma length_of_list_ascii (l : list ascii) :
  String.length (string_of_list_ascii l) = length l.
Proof.
  induction l as [|c l IH]; cbn [string_of_list_ascii String.length length];
    congruence.
Qed.

Lemma choice_is_alnum (draw : nat) :
  is_alnum (choice characters draw) = true.
Proof.
  assert (H : forallb (fun i => is_alnum (choice characters i)) (seq 0 62) =
              true) by (vm_compute; reflexivity).
  rewrite forallb_forall in H.
  assert (E : choice characters draw = choice characters (draw mod 62)).
  { unfold choice. change (String.length characters) with 62.
    rewrite Nat.Div0.mod_mod. reflexivity. }
  rewrite E. apply H. apply in_seq.
  pose proof (Nat.mod_upper_bound draw 62 ltac:(lia)). lia.
Qed.

End RandomPrefix.

(** X25.  Whatever the generator draws, [generate_random_prefix(length)]
    is a text of exactly [length] characters, each an ASCII letter or
    digit: it holds no slash, dot, dash or space, so it is one path
    component in the log directory named after it and is set apart from
    the thread id by the dash of the context id. *)
Theorem random_prefix_shape :
  forall (rng : nat -> nat) (length : nat),
    String.length (UtilsPrefix.generate_random_prefix rng length) =
      length /\
    forallb is_alnum
      (list_ascii_of_string
         (UtilsPrefix.generate_random_prefix rng length)) = true /\
    forall c, In c ["/"; "."; "-"; " "]%char ->
      ~ In c (list_ascii_of_string
                (UtilsPrefix.generate_random_prefix rng length)).
Proof.
  intros rng n. unfold UtilsPrefix.generate_random_prefix.
  rewrite length_of_list_ascii, list_ascii_of_string_of_list_ascii.
  assert (A : forallb is_alnum
                (map (fun i => UtilsPrefix.choice UtilsPrefix.characters
                                 (rng i)) (seq 0 n)) = true).
  { apply forallb_forall. intros c Hc. apply in_map_iff in Hc.
    destruct Hc as (i & <- & _). apply choice_is_alnum. }
  split; [rewrite length_map, length_seq; reflexivity|].
  split; [exact A|].
  intros c Hc Hin. rewrite forallb_forall in A. specialize (A c Hin).
  cbn [In] in Hc. destruct Hc as [<- | [<- | [<- | [<- | []]]]];
    discriminate A.
Qed.

Lemma random_prefix_shape_witness :
  ~ In "/"%char
      (list_ascii_of_string
         (UtilsPrefix.generate_random_prefix (fun i => 27 * i + 5) 5)).
Proof.
  apply (proj2 (proj2 (random_prefix_shape (fun i => 27 * i + 5) 5))).
  left. reflexivity.
Defined.

Example random_prefix_of_draws :
  UtilsPrefix.generate_random_prefix (fun i => 27 * i + 5) 5 = "fG7yZ".
Proof. vm_compute. reflexivity. Qed.

(** ** The request id of an image *)

Section RequestIds.

Import PyStr.

(** The text holds no dot. *)
Definition no_dot (s : string) : Prop :=
  forallb (fun c => negb (is_dot c)) (list_ascii_of_string s) = true.

Lemma last_dot_without (l : list ascii) :
  forallb (fun c => negb (is_dot c)) l = true ->
  forall i found, last_dot l i found = found.
Proof.
  induction l as [|c l IH]; cbn [forallb last_dot]; intros H i found;
    [reflexivity|].
  apply andb_true_iff in H. destruct H as [Hc Hl].
  unfold is_dot in Hc. apply negb_true_iff in Hc. rewrite Hc.
  apply IH, Hl.
Qed.

Lemma last_dot_app (l1 l2 : list ascii) :
  forallb (fun c => negb (is_dot c)) l2 = true ->
  forall i found,
    last_dot (l1 ++ "."%char :: l2) i found = Some (i + length l1).
Proof.
  intros H. induction l1 as [|c l1 IH]; intros i found;
    cbn [app last_dot length].
  - cbn [Ascii.eqb Bool.eqb]. rewrite (last_dot_without l2 H).
    rewrite Nat.add_0_r. reflexivity.
  - rewrite IH. f_equal. lia.
Qed.

Lemma length_list_ascii (s : string) :
  length (list_ascii_of_string s) = String.length s.
Proof. induction s as [|c s IH]; cbn; congruence. Qed.

Lemma stem_of_name (base ext : string) :
  base <> "" -> ext <> "" -> no_dot ext ->
  stem (base +:+ "." +:+ ext) = base.
Proof.
  intros Hb He Hn. unfold stem.
  rewrite list_ascii_of_string_app.
  change (list_ascii_of_string ("." +:+ ext))
    with ("."%char :: list_ascii_of_string ext).
  rewrite (last_dot_app _ _ Hn), length_list_ascii. cbn [Nat.add].
  rewrite string_length_app.
  change (String.length ("." +:+ ext)) with (S (String.length ext)).
  assert (Lb : 0 < String.length base) by (destruct base; cbn; [congruence | lia]).
  assert (Le : 0 < String.length ext) by (destruct ext; cbn; [congruence | lia]).
  replace (Nat.ltb 0 (String.length base)) with true
    by (symmetry; apply Nat.ltb_lt; exact Lb).
  replace (Nat.ltb (String.length base)
             (String.length base + S (String.length ext) - 1)) with true
    by (symmetry; apply Nat.ltb_lt; lia).
  cbn [andb]. apply substring_keep_prefix.
Qed.

End RequestIds.

(** X26.  The request id under which [process_folder_sequentially] sends
    an image is the prefix, an underscore and the file name up to its last
    dot.  So two images of the folder whose names differ in the extension
    only, such as [table.png] and [table.jpg], are sent under the same
    request id. *)
Theorem request_id_ignores_extension :
  forall (request_id_prefix : pyval) (base ext ext' : string),
    base <> "" -> ext <> "" -> ext' <> "" -> no_dot ext -> no_dot ext' ->
    image_request_id request_id_prefix (base +:+ "." +:+ ext) =
      py_str request_id_prefix +:+ "_" +:+ base /\
    image_request_id request_id_prefix (base +:+ "." +:+ ext) =
      image_request_id request_id_prefix (base +:+ "." +:+ ext').
Proof.
  intros prefix base ext ext' Hb He He' Hn Hn'.
  unfold image_request_id.
  rewrite !stem_of_name by assumption. split; reflexivity.
Qed.

Lemma request_id_ignores_extension_witness :
  image_request_id (PyInt 1) "table.v2.png" =
  image_request_id (PyInt 1) "table.v2.jpg".
Proof.
  apply (proj2 (request_id_ignores_extension (PyInt 1) "table.v2" "png"
                  "jpg" ltac:(discriminate) ltac:(discriminate)
                  ltac:(discriminate) eq_refl eq_refl)).
Defined.

(** ** A whole batch against a model that is down *)

(** [w'] is [w] after [calls] calls of the model and the sleeps
    [sleeps]. *)
Definition cost (w w' : world) (calls : nat) (sleeps : list nat) : Prop :=
  w_calls w' = w_calls w + calls /\
  exists evs,
    w_trace w' = w_trace w ++ evs /\
    invocations_of evs = calls /\ sleeps_of evs = sleeps.

Lemma cost_trans (w1 w2 w3 : world) n m s t :
  cost w1 w2 n s -> cost w2 w3 m t -> cost w1 w3 (n + m) (s ++ t).
Proof.
  intros (A & e1 & T1 & I1 & S1) (B & e2 & T2 & I2 & S2).
  split; [lia|]. exists (e1 ++ e2). rewrite T2, T1, <- app_assoc.
  rewrite invocations_of_app, sleeps_of_app, I1, I2, S1, S2. auto.
Qed.

Lemma cost_of_prints (w : world) evs :
  prints_only evs -> cost w (advance w 0 evs) 0 [].
Proof.
  intros P. destruct (prints_only_quiet evs P) as (I & S & _).
  split; [reflexivity|]. exists evs. auto.
Qed.

Section FailingModel.

Import MultiModel.

Variable cwd : string.
Variable today : string.
Variable random_prefix : string.
Variable json_dumps : json -> string.
Variable json_dumps_indented : json -> string.
Variable py_repr : json -> string.
Variable str_of_message : message -> string.
Variable backend : chat_model -> client.
Variable self : MultiModalTableInterpreter.
Variable request_id_prefix : pyval.
Variable folder_path : string.
Variable errs : nat -> exn.

(** The agent handed to the orchestrator. *)
Definition the_agent : string -> string -> list string -> M json :=
  call_agent cwd today random_prefix json_dumps json_dumps_indented py_repr
    str_of_message backend self.

(** The entry stored for an image whose calls all failed. *)
Definition failed_entry (filename : string) : json :=
  JObj [("error", JStr "API call failed after all retries");
        ("filename", JStr filename)].

(** [path] is none of the files [call_agent] writes before its calls. *)
Definition apart (path : string) : Prop :=
  path <> "combined_file.txt" /\
  forall request_id, path <> input_log_path self request_id.

(** The prompt file can be read and every file gives an image. *)
Definition ready (w : world) (files : list string) : Prop :=
  (exists bs,
      w_fs w !! Io.path_join cwd (system_prompt_path self) =
        Some (File bs) /\
      Io.utf8_valid bs = true) /\
  forall f, In f files ->
            unreadable (w_fs w) (Io.path_join folder_path f) = false.

Hypothesis supported :
  str_in (provider self) supported_providers = true.
Hypothesis model_down :
  forall k messages, backend (built_model self) k messages = Raise (errs k).
Hypothesis prompt_apart :
  apart (Io.path_join cwd (system_prompt_path self)).

Lemma ready_kept (w w' : world) files :
  (forall f, In f files -> apart (Io.path_join folder_path f)) ->
  (forall path, apart path -> w_fs w' !! path = w_fs w !! path) ->
  ready w files -> ready w' files.
Proof.
  intros Ha Hk ((bs & Hf & Hu) & Hr). split.
  - exists bs. rewrite (Hk _ prompt_apart). auto.
  - intros f Hin. unfold unreadable, encoded_at.
    rewrite (Hk _ (Ha f Hin)). exact (Hr f Hin).
Qed.

Lemma process_image_failing total i filename acc (w : world) :
  ready w [filename] ->
  exists w',
    process_image the_agent request_id_prefix folder_path total i filename
      acc w = (Ok (acc ++ [failed_entry filename]), w') /\
    cost w w' 5 [1; 2; 4; 8] /\
    (forall path, apart path -> w_fs w' !! path = w_fs w !! path).
Proof.
  intros ((bs & Hf & Hu) & Hr).
  specialize (Hr filename (or_introl eq_refl)).
  unfold process_image, bind at 1. rewrite print_advance.
  unfold bind at 1.
  match goal with
  | |- context [get_image_as_base64 ?p (advance w 0 ?e)] =>
      set (started := e);
      destruct (get_image_as_base64_encoded p (advance w 0 started))
        as (evs & E & P & L)
  end.
  rewrite E. clear E. unfold advance at 1. cbn [w_fs].
  unfold advance at 1 in L. cbn [w_fs] in L.
  unfold unreadable in Hr.
  destruct (encoded_at (w_fs w) (Io.path_join folder_path filename))
    as [b64|]; [|discriminate].
  apply negb_false_iff in Hr. rewrite Hr. cbn [negb].
  destruct evs; [|discriminate]. rewrite advance_advance, app_nil_r.
  cbn [Nat.add]. unfold try_except, bind at 1.
  fold (image_request_id request_id_prefix filename). unfold the_agent.
  destruct (call_agent_exhausted cwd today random_prefix json_dumps
              json_dumps_indented py_repr str_of_message backend self
              (image_request_id request_id_prefix filename) "{}" [b64]
              (advance w 0 started) bs
              (fun j => errs (w_calls w + 0 + j)) supported Hf Hu)
    as (w1 & C & (_ & Cc & evs & T & I & S) & F).
  { intros j _. apply model_down. }
  rewrite C. cbn [existsb isinstance exn_cls].
  change (issubclass Exception Exception) with true. cbn [orb].
  unfold bind at 1. rewrite print_advance. unfold ret.
  eexists. split; [reflexivity|]. split.
  - split; [cbn; cbn in Cc; lia|].
    eexists. split.
    + cbn [advance w_trace]. rewrite T. cbn [advance w_trace].
      rewrite <- !app_assoc. reflexivity.
    + rewrite !invocations_of_app, !sleeps_of_app, I, S. split; reflexivity.
  - intros path [A1 A2]. cbn [advance w_fs]. rewrite (F path A1 (A2 _)).
    reflexivity.
Qed.

Lemma process_images_failing total :
  forall image_files i acc (w : world),
    (forall f, In f image_files -> apart (Io.path_join folder_path f)) ->
    ready w image_files ->
    exists w',
      process_images the_agent request_id_prefix folder_path total i
        image_files acc w =
        (Ok (acc ++ map failed_entry image_files), w') /\
      cost w w' (5 * length image_files)
        (flat_map (fun _ => [1; 2; 4; 8]) image_files) /\
      (forall path, apart path -> w_fs w' !! path = w_fs w !! path).
Proof.
  induction image_files as [|f rest IH]; intros i acc w Ha Hr.
  - exists w. cbn [process_images map length flat_map]. unfold ret.
    rewrite app_nil_r. split; [reflexivity|]. split; [|auto].
    split; [lia|]. exists []. rewrite app_nil_r. auto.
  - cbn [process_images map length flat_map]. unfold bind.
    destruct (process_image_failing total i f acc w) as (w1 & E1 & C1 & F1).
    { destruct Hr as [Hp Hi]. split; [exact Hp|].
      intros g [<- | []]. apply Hi. left. reflexivity. }
    rewrite E1.
    destruct (IH (S i) (acc ++ [failed_entry f]) w1) as (w2 & E2 & C2 & F2).
    { intros g Hg. apply Ha. right. exact Hg. }
    { apply (ready_kept w w1 rest).
      - intros g Hg. apply Ha. right. exact Hg.
      - exact F1.
      - destruct Hr as [Hp Hi]. split; [exact Hp|].
        intros g Hg. apply Hi. right. exact Hg. }
    rewrite E2. exists w2. split; [rewrite <- app_assoc; reflexivity|].
    split.
    + replace (5 * S (length rest)) with (5 + 5 * length rest) by lia.
      exact (cost_trans _ _ _ _ _ _ _ C1 C2).
    + intros path Hp. rewrite (F2 path Hp). apply F1, Hp.
Qed.

End FailingModel.

Lemma sum_of_batch_sleeps (files : list string) :
  list_sum (flat_map (fun _ => [1; 2; 4; 8]) files) = 15 * length files.
Proof.
  induction files as [|f files IH]; [reflexivity|].
  cbn [flat_map length]. rewrite list_sum_app, IH.
  change (list_sum [1; 2; 4; 8]) with 15. lia.
Qed.


(** A folder of two images beside the prompt file. *)
Definition down_world : world :=
  {| w_thread := 7; w_tls := ∅;
     w_fs := {[ "/srv/model/model_table_extractor.txt" :=
                  File (list_byte_of_string "Extract the table.");
                "img" := Dir ["section_2.jpg"; "section_1.jpg"];
                "img/section_1.jpg" := File [x4d; x61; x6e];
                "img/section_2.jpg" := File [xff; xd8; xff; xe0] ]};
     w_calls := 0; w_trace := [] |}.


(** ** A whole batch against a model that answers *)

Section AnsweringModel.

Import MultiModel.

Variable cwd : string.
Variable today : string.
Variable random_prefix : string.
Variable json_dumps : json -> string.
Variable json_dumps_indented : json -> string.
Variable py_repr : json -> string.
Variable str_of_message : message -> string.
Variable backend : chat_model -> client.
Variable self : MultiModalTableInterpreter.
Variable request_id_prefix : pyval.
Variable folder_path : string.

(** The text of the prompt file, and the text the model answers to the
    messages it is sent. *)
Variable prompt : list byte.
Variable raw : list message -> string.

(** The file [call_agent] writes after a response that parsed. *)
Definition output_log_path (request_id : string) : string :=
  log_base_path self +:+ "/ai_output_table_extract_" +:+ request_id +:+
  ".json".

(** [path] is none of the files [call_agent] writes. *)
Definition apart_from_logs (path : string) : Prop :=
  path <> "combined_file.txt" /\
  (forall request_id, path <> input_log_path self request_id) /\
  (forall request_id, path <> output_log_path request_id).

(** The prompt file holds [prompt] and every file gives an image. *)
Definition ready_with (w : world) (files : list string) : Prop :=
  w_fs w !! Io.path_join cwd (system_prompt_path self) =
    Some (File prompt) /\
  Io.utf8_valid prompt = true /\
  forall f, In f files ->
            unreadable (w_fs w) (Io.path_join folder_path f) = false.

(** What the model is sent for an image, and the slot its answer
    gives. *)
Definition messages_for (b64 : string) : list message :=
  sent_messages today json_dumps (string_of_list_byte prompt) "{}" [b64].

Definition answered_entry (fs : gmap string node) (filename : string)
    : json :=
  match encoded_at fs (Io.path_join folder_path filename) with
  | Some b64 => single_table_data_of (outcome_of (raw (messages_for b64)))
  | None => encode_error_entry filename
  end.

Hypothesis supported :
  str_in (provider self) supported_providers = true.
Hypothesis model_answers :
  forall k messages,
    backend (built_model self) k messages =
      Ok {| content := JStr (raw messages) |}.
Hypothesis prompt_apart :
  apart_from_logs (Io.path_join cwd (system_prompt_path self)).

Lemma finish_call_agent_files request_id text (w : world) c :
  has_context w c ->
  exists w',
    finish_call_agent json_dumps_indented py_repr self request_id
      (Some {| content := JStr text |}) w = (Ok (outcome_of text), w') /\
    quiet w w' /\
    (forall path, path <> output_log_path request_id ->
                  w_fs w' !! path = w_fs w !! path).
Proof.
  intros Hc. unfold finish_call_agent, bind at 1, outcome_of.
  fold (output_log_path request_id).
  destruct (Json.loads (cleaned_content_of text)) as [v|] eqn:E.
  - rewrite (parse_response_parsed py_repr text v w E).
    unfold bind at 1.
    destruct (log_message_quiet w c
                "Successfully parsed response from LLM." DEBUG Hc)
      as (w1 & E1 & Q1 & F1).
    rewrite E1. unfold bind at 1. rewrite write_text_written.
    unfold ret. eexists. split; [reflexivity|]. split.
    + eapply quiet_trans; [exact Q1 | apply write_text_quiet].
    + intros path N. cbn [written w_fs].
      rewrite lookup_insert_ne by congruence. rewrite F1. reflexivity.
  - rewrite (parse_response_unparsed py_repr text c w Hc E).
    unfold ret. eexists. split; [reflexivity|]. split.
    + split; [repeat split; cbn; lia|].
      eexists. split; [reflexivity|]. split; reflexivity.
    + intros path _. reflexivity.
Qed.

(** One call of the agent: one call of the model, no sleep. *)
Lemma call_agent_answers request_id b64 (w : world) :
  w_fs w !! Io.path_join cwd (system_prompt_path self) =
    Some (File prompt) ->
  Io.utf8_valid prompt = true ->
  exists w',
    call_agent cwd today random_prefix json_dumps json_dumps_indented
      py_repr str_of_message backend self request_id "{}" [b64] w =
      (Ok (outcome_of (raw (messages_for b64))), w') /\
    cost w w' 1 [] /\
    (forall path, apart_from_logs path -> w_fs w' !! path = w_fs w !! path).
Proof.
  intros Hf Hu.
  destruct (call_agent_reaches_llm cwd today random_prefix json_dumps
              json_dumps_indented py_repr str_of_message backend self
              request_id "{}" [b64] w prompt supported Hf Hu)
    as (w6 & Q & E & Hfs).
  rewrite E. clear E. unfold bind at 1.
  pose proof (quiet_spent _ _ Q) as S6.
  pose proof (spent_context _ _ _ _ _ S6
                (with_context_id_has_context random_prefix w)) as Hc6.
  unfold _call_llm_with_retry, default_retries.
  fold (messages_for b64).
  rewrite (loop_step_ok _ _ 5 0 4 w6
             {| content := JStr (raw (messages_for b64)) |})
    by apply model_answers.
  destruct (finish_call_agent_files request_id (raw (messages_for b64))
              (advance w6 1 [EvInvoke (messages_for b64)])
              (agent_context_id random_prefix w)
              (has_context_advance w6 _ _ _ Hc6))
    as (w8 & E8 & Q8 & F8).
  rewrite E8. exists w8. split; [reflexivity|]. split.
  - pose proof (spent_trans _ _ _ _ _ _ _ S6
                  (spent_trans _ _ _ _ _ _ _
                     (proj2 (advance_spent w6 1
                               [EvInvoke (messages_for b64)]) eq_refl)
                     (quiet_spent _ _ Q8))) as S.
    destruct S as (_ & _ & C & T). split; [exact C | exact T].
  - intros path (A1 & A2 & A3). rewrite (F8 path (A3 _)).
    cbn [advance w_fs]. apply Hfs; [exact A1 | apply A2].
Qed.

Lemma ready_with_kept (w w' : world) files :
  (forall f, In f files -> apart_from_logs (Io.path_join folder_path f)) ->
  (forall path, apart_from_logs path -> w_fs w' !! path = w_fs w !! path) ->
  ready_with w files -> ready_with w' files.
Proof.
  intros Ha Hk (Hf & Hu & Hr). split; [|split; [exact Hu|]].
  - rewrite (Hk _ prompt_apart). exact Hf.
  - intros f Hin. unfold unreadable, encoded_at.
    rewrite (Hk _ (Ha f Hin)). exact (Hr f Hin).
Qed.

Lemma answered_entry_kept (w w' : world) f :
  apart_from_logs (Io.path_join folder_path f) ->
  (forall path, apart_from_logs path -> w_fs w' !! path = w_fs w !! path) ->
  answered_entry (w_fs w') f = answered_entry (w_fs w) f.
Proof.
  intros Ha Hk. unfold answered_entry, encoded_at. rewrite (Hk _ Ha).
  reflexivity.
Qed.

Lemma process_image_answering total i filename acc (w : world) :
  ready_with w [filename] ->
  exists w',
    process_image
      (call_agent cwd today random_prefix json_dumps json_dumps_indented
         py_repr str_of_message backend self)
      request_id_prefix folder_path total i filename acc w =
      (Ok (acc ++ [answered_entry (w_fs w) filename]), w') /\
    cost w w' 1 [] /\
    (forall path, apart_from_logs path -> w_fs w' !! path = w_fs w !! path).
Proof.
  intros (Hf & Hu & Hr).
  specialize (Hr filename (or_introl eq_refl)).
  unfold process_image, bind at 1. rewrite print_advance.
  unfold bind at 1.
  match goal with
  | |- context [get_image_as_base64 ?p (advance w 0 ?e)] =>
      set (started := e);
      destruct (get_image_as_base64_encoded p (advance w 0 started))
        as (evs & E & P & L)
  end.
  rewrite E. clear E. unfold advance at 1. cbn [w_fs].
  unfold advance at 1 in L. cbn [w_fs] in L.
  unfold unreadable in Hr. unfold answered_entry.
  destruct (encoded_at (w_fs w) (Io.path_join folder_path filename))
    as [b64|]; [|discriminate].
  apply negb_false_iff in Hr. rewrite Hr. cbn [negb].
  destruct evs; [|discriminate]. rewrite advance_advance, app_nil_r.
  cbn [Nat.add]. unfold try_except, bind at 1.
  destruct (call_agent_answers
              (py_str request_id_prefix +:+ "_" +:+ PyStr.stem filename)
              b64 (advance w 0 started) Hf Hu)
    as (w1 & C & (Cc & evs & T & I & S) & F).
  rewrite C. unfold bind at 1. rewrite print_advance. unfold ret.
  eexists. split; [reflexivity|]. split.
  - split; [cbn; cbn in Cc; lia|].
    eexists. split.
    + cbn [advance w_trace]. rewrite T. cbn [advance w_trace].
      rewrite <- !app_assoc. reflexivity.
    + rewrite !invocations_of_app, !sleeps_of_app, I, S. split; reflexivity.
  - intros path A. cbn [advance w_fs]. rewrite (F path A). reflexivity.
Qed.

Lemma process_images_answering total :
  forall image_files i acc (w : world),
    (forall f, In f image_files ->
               apart_from_logs (Io.path_join folder_path f)) ->
    ready_with w image_files ->
    exists w',
      process_images
        (call_agent cwd today random_prefix json_dumps json_dumps_indented
           py_repr str_of_message backend self)
        request_id_prefix folder_path total i image_files acc w =
        (Ok (acc ++ map (answered_entry (w_fs w)) image_files), w') /\
      cost w w' (length image_files) [] /\
      (forall path, apart_from_logs path ->
                    w_fs w' !! path = w_fs w !! path).
Proof.
  induction image_files as [|f rest IH]; intros i acc w Ha Hr.
  - exists w. cbn [process_images map length]. unfold ret.
    rewrite app_nil_r. split; [reflexivity|]. split; [|auto].
    split; [lia|]. exists []. rewrite app_nil_r. auto.
  - cbn [process_images map length]. unfold bind.
    destruct Hr as (Hf & Hu & Hi).
    destruct (process_image_answering total i f acc w)
      as (w1 & E1 & C1 & F1).
    { split; [exact Hf | split; [exact Hu|]].
      intros g [<- | []]. apply Hi. left. reflexivity. }
    rewrite E1.
    destruct (IH (S i) (acc ++ [answered_entry (w_fs w) f]) w1)
      as (w2 & E2 & C2 & F2).
    { intros g Hg. apply Ha. right. exact Hg. }
    { apply (ready_with_kept w w1 rest).
      - intros g Hg. apply Ha. right. exact Hg.
      - exact F1.
      - split; [exact Hf | split; [exact Hu|]].
        intros g Hg. apply Hi. right. exact Hg. }
    rewrite E2. exists w2. split; [|split].
    + rewrite <- app_assoc. cbn [app]. f_equal. f_equal. f_equal. f_equal.
      apply map_ext_in. intros g Hg. apply answered_entry_kept; [|exact F1].
      apply Ha. right. exact Hg.
    + exact (cost_trans _ _ _ _ _ _ _ C1 C2).
    + intros path Hp. rewrite (F2 path Hp). apply F1, Hp.
Qed.

End AnsweringModel.



(** ** The earlier agent's [call_agent] *)

Section LegacyCallAgent.

Import LegacyAgent.

Variable cwd : string.
Variable today : string.
Variable random_prefix : string.
Variable json_dumps : json -> string.
Variable py_repr : json -> string.
Variable str_of_messages : list message -> string.
Variable backend : MultiModel.chat_model -> client.

(** With a readable prompt, the earlier [call_agent] comes to its invoker
    without a call or a sleep. *)
Lemma legacy_call_agent_reaches_llm (self : TableInterpreterAgent)
    request_id json_data screenshots (w : world) bs :
  w_fs w !! Io.path_join cwd (system_prompt_path self) = Some (File bs) ->
  Io.utf8_valid bs = true ->
  exists w5,
    quiet (with_context_id random_prefix w) w5 /\
    call_agent cwd today random_prefix json_dumps py_repr str_of_messages
      backend self request_id json_data screenshots w =
    (response <-
       Legacy.call_llm_agent_with_retry (backend (get_llm self))
         (sent_messages today json_dumps (string_of_list_byte bs) json_data
            screenshots)
         Legacy.default_retries ;;
     Legacy.finish_call_agent py_repr (log_base_path self) request_id
       response) w5.
Proof.
  intros Hf Hu.
  pose proof (with_context_id_has_context random_prefix w) as Hc0.
  unfold call_agent, bind at 1, get_world. unfold bind at 1.
  unfold set_thread_context_id, bind at 1, get_world, set_tls.
  fold (agent_context_id random_prefix w).
  fold (with_context_id random_prefix w).
  set (c := agent_context_id random_prefix w) in *.
  set (w0 := with_context_id random_prefix w) in *.
  unfold bind at 1.
  destruct (log_message_quiet w0 c
              "generating system input message for llm" DEBUG Hc0)
    as (w1 & E1 & Q1 & F1).
  rewrite E1. unfold bind at 1.
  destruct (generate_system_prompt_quiet cwd today json_dumps w1 c
              (system_prompt_path self) json_data screenshots bs
              (quiet_context w0 w1 c Q1 Hc0))
    as (w2 & E2 & Q2 & F2); [rewrite F1; exact Hf | exact Hu |].
  rewrite E2. unfold bind at 1.
  pose proof (quiet_trans _ _ _ Q1 Q2) as Q02.
  destruct (log_message_quiet w2 c
              "writing system input message for llm" DEBUG
              (quiet_context w0 w2 c Q02 Hc0))
    as (w3 & E3 & Q3 & F3).
  rewrite E3. unfold bind at 1. rewrite write_text_written.
  unfold bind at 1.
  match goal with
  | |- context [log_message "calling llm" DEBUG (written w3 ?p ?t)] =>
      pose proof (quiet_trans _ _ _ Q02
                    (quiet_trans _ _ _ Q3 (write_text_quiet w3 p t)))
        as Q04;
      destruct (log_message_quiet (written w3 p t) c "calling llm" DEBUG
                  (quiet_context w0 _ c Q04 Hc0))
        as (w5 & E5 & Q5 & F5)
  end.
  rewrite E5. exists w5. split; [|reflexivity].
  exact (quiet_trans _ _ _ Q04 Q5).
Qed.

Lemma legacy_finish_parsed log_base request_id text v (w : world) c :
  has_context w c ->
  Json.loads text = Some v ->
  exists w',
    Legacy.finish_call_agent py_repr log_base request_id
      {| content := JStr text |} w = (Ok v, w') /\
    quiet w w' /\
    w_fs w' !! (log_base +:+ "/ai_output_table_extract" +:+ request_id +:+
                ".txt") =
      Some (File (list_byte_of_string (MultiModel.fstr py_repr v))).
Proof.
  intros Hc Hl. unfold Legacy.finish_call_agent, bind at 1.
  unfold Legacy.parse_response. cbn [content]. unfold Io.json_loads.
  rewrite Hl. unfold ret at 1. unfold bind at 1.
  match goal with
  | |- context [log_message ?d DEBUG w] =>
      destruct (log_message_quiet w c d DEBUG Hc) as (w1 & E1 & Q1 & F1)
  end.
  rewrite E1. unfold bind at 1. rewrite write_text_written. unfold ret.
  eexists. split; [reflexivity|]. split.
  - eapply quiet_trans; [exact Q1 | apply write_text_quiet].
  - cbn [written w_fs]. apply lookup_insert_eq.
Qed.

Lemma legacy_finish_unparsed log_base request_id text (w : world) :
  Json.loads text = None ->
  Legacy.finish_call_agent py_repr log_base request_id
    {| content := JStr text |} w =
    (Raise (Exn JSONDecodeError "Expecting value" None), w).
Proof.
  intros Hl. unfold Legacy.finish_call_agent, bind at 1.
  unfold Legacy.parse_response. cbn [content]. unfold Io.json_loads.
  rewrite Hl. reflexivity.
Qed.


End LegacyCallAgent.

